(** * cozy-stack VFS: the directory subsystem ([vfs/directory.go])

    A shallow embedding of the directory documents, of the operations that
    create, look up and move directories, and of the collaborators they
    talk to (the document store and the physical file system), followed by
    the properties of the move protocol. *)

From Stdlib Require Import ZArith Ascii String.
From stdpp Require Import gmap strings list fin_maps.

Set Warnings "-register-all".

Local Open Scope Z_scope.
Local Open Scope stdpp_scope.

(** ** Go's [strings] and [path] packages

    Strings are byte sequences, as in Go.  The functions below follow the
    standard library: [path.Clean] processes the "/"-separated elements of
    its argument left to right, dropping empty and "." elements and
    resolving ".." against the element kept last. *)

Module GoPath.

Definition is_slash (a : ascii) : bool := Ascii.eqb a "/".

(** [strings.HasPrefix(s, prefix)] *)
Definition strings_HasPrefix (s pfx : string) : bool := String.prefix pfx s.

(** [s[n:]] for [n <= len(s)] *)
Fixpoint slice_from (n : nat) (s : string) : string :=
  match n, s with
  | O, _ => s
  | S n', String _ s' => slice_from n' s'
  | S _, EmptyString => EmptyString
  end.

(** [strings.Split(s, "/")] *)
Fixpoint split_slash (s : string) : list string :=
  match s with
  | EmptyString => [EmptyString]
  | String a s' =>
      if is_slash a then EmptyString :: split_slash s'
      else match split_slash s' with
           | c :: cs => String a c :: cs
           | [] => [String a EmptyString]
           end
  end.

(** [strings.Contains(s, "/")] *)
Fixpoint has_slash (s : string) : bool :=
  match s with
  | EmptyString => false
  | String a s' => is_slash a || has_slash s'
  end.

(** One step of the loop of [path.Clean]: [out] holds the elements written
    so far, the last one first. *)
Definition clean_elem (rooted : bool) (out : list string) (c : string)
  : list string :=
  if String.eqb c "" || String.eqb c "." then out
  else if String.eqb c ".." then
    match out with
    | [] => if rooted then [] else [".."]
    | top :: rest => if String.eqb top ".." then ".." :: out else rest
    end
  else c :: out.

(** [path.Clean] *)
Definition path_Clean (p : string) : string :=
  if String.eqb p "" then "."
  else
    let rooted := String.prefix "/" p in
    let out := reverse (fold_left (clean_elem rooted) (split_slash p) []) in
    if rooted then "/" +:+ String.concat "/" out
    else match out with
         | [] => "."
         | _ => String.concat "/" out
         end.

(** [path.Join(elem...)]: the elements from the first non-empty one on are
    joined with "/" and the result is cleaned. *)
Fixpoint path_Join (elem : list string) : string :=
  match elem with
  | [] => ""
  | e :: rest =>
      if String.eqb e "" then path_Join rest
      else path_Clean (String.concat "/" elem)
  end.

(** [path[:i+1]] for [i] the index of the last "/" of [path], as
    [path.Split] computes its first result. *)
Fixpoint split_dir (p : string) : string :=
  match p with
  | EmptyString => EmptyString
  | String a p' => if has_slash p then String a (split_dir p') else EmptyString
  end.

(** [path.Dir] *)
Definition path_Dir (p : string) : string := path_Clean (split_dir p).

(** [path.IsAbs] *)
Definition path_IsAbs (p : string) : bool := String.prefix "/" p.

(** *** Canonical paths

    The path of a directory is absolute, "/"-separated, without a trailing
    slash and without "." or ".." elements: either "/" or the elements of
    the path, each one plain and preceded by one "/". *)

Definition is_plain (c : string) : bool :=
  negb (String.eqb c "") && negb (has_slash c)
  && negb (String.eqb c ".") && negb (String.eqb c "..").

Definition plain (c : string) : Prop := is_plain c = true.

Fixpoint slashed (cs : list string) : string :=
  match cs with
  | [] => ""
  | c :: cs' => "/" +:+ c +:+ slashed cs'
  end.

Definition abs_path (cs : list string) : string :=
  match cs with
  | [] => "/"
  | _ => slashed cs
  end.

(** A cleaned absolute path, as [safeRenameDirectory] wants them. *)
Definition cleaned_abs (p : string) : Prop :=
  path_Clean p = p /\ path_IsAbs p = true.

(** The elements of a list that are not empty. *)
Definition kept (l : list string) : list string :=
  List.filter (fun c => negb (String.eqb c "")) l.

End GoPath.

Import GoPath.

(** ** Errors

    Go's [error] values that the directory code produces or passes on.  The
    errors of the two collaborators are kept in types of their own: what the
    file system reports is an [os_error], what the document store reports is
    a [couch_error]. *)

Inductive os_error : Type :=
| os_ErrExist
| os_ErrNotExist
| os_ErrOther (msg : string).

(** [os.IsNotExist] *)
Definition os_IsNotExist (e : os_error) : bool :=
  match e with os_ErrNotExist => true | _ => false end.

(** Modelled from the spec: the errors of the [couchdb] package, which is
    not part of the sources at hand; the store contract names a missing
    document and a revision conflict. *)
Inductive couch_error : Type :=
| couch_NotFound
| couch_Conflict
| couch_Other (reason : string).

(** [couchdb.IsNotFoundError] *)
Definition couchdb_IsNotFoundError (e : couch_error) : bool :=
  match e with couch_NotFound => true | _ => false end.

Inductive error : Type :=
| ErrParentDoesNotExist
| ErrForbiddenDocMove
| ErrIllegalTime
| ErrIllegalFilename
| OsError (e : os_error)
| CouchError (e : couch_error)
| Errorf (msg : string).

(** The error taxonomy of the specification, and the kind each error value
    of the code belongs to.  No value of the code is a [NotADirectory] or a
    [PartialFailure]. *)
Inductive ErrorKind : Type :=
| NotFound | NotADirectory | ParentMissing | InvalidName | InvalidPath
| IllegalTimestamp | ForbiddenMove | AlreadyExists | Conflict
| PartialFailure | Operational.

Definition spec_kind (e : error) : ErrorKind :=
  match e with
  | ErrParentDoesNotExist => ParentMissing
  | ErrForbiddenDocMove => ForbiddenMove
  | ErrIllegalTime => IllegalTimestamp
  | ErrIllegalFilename => InvalidName
  | OsError os_ErrExist => AlreadyExists
  | OsError os_ErrNotExist => NotFound
  | OsError (os_ErrOther _) => Operational
  | CouchError couch_NotFound => NotFound
  | CouchError couch_Conflict => Conflict
  | CouchError (couch_Other _) => Operational
  | Errorf msg =>
      if String.eqb msg "paths should be absolute" then InvalidPath
      else Operational
  end.

(** ** Documents *)

(** Modelled from the spec: the constants of the package ([vfs.go] is not
    part of the sources at hand).  The root directory has a fixed,
    well-known identifier; the type discriminator of a directory is
    "directory". *)
Definition RootFolderID : string := "io.cozy.files.root-dir".
Definition FsDocType : string := "io.cozy.files".
Definition DirType : string := "directory".
Definition FileType : string := "file".

(** The fields of a document that are persisted (the ones with a [json]
    tag in [DirDoc]). *)
Record JSONDoc : Type := mkJSONDoc {
  j_type : string;
  j_id : string;
  j_rev : string;
  j_name : string;
  j_folder_id : string;
  j_created_at : Z;
  j_updated_at : Z;
  j_path : string;
  j_tags : list string
}.

(** Modelled from the spec: [FileDoc] is declared in [file.go], which is not
    part of the sources at hand.  Only its role as a child of a directory
    matters here; its [parent] pointer is kept as the persisted fields of
    the parent. *)
Record FileDoc : Type := mkFileDoc {
  file_doc : JSONDoc;
  file_parent : option JSONDoc
}.

(** [DirDoc].  Times are instants on the integer time line; the pointer
    fields are values (no claim depends on their aliasing). *)
Inductive DirDoc : Type := mkDirDoc {
  Type_ : string;
  ObjID : string;
  ObjRev : string;
  Name : string;
  FolderID : string;
  CreatedAt : Z;
  UpdatedAt : Z;
  Path : string;
  Tags : list string;
  parent : option DirDoc;
  files : list FileDoc;
  dirs : list DirDoc
}.

(** [(d *DirDoc) ID], [Rev], [DocType], [SetID], [SetRev] *)
Definition ID (d : DirDoc) : string := ObjID d.
Definition Rev (d : DirDoc) : string := ObjRev d.
Definition DocType (d : DirDoc) : string := FsDocType.

Definition SetID (d : DirDoc) (id : string) : DirDoc :=
  mkDirDoc (Type_ d) id (ObjRev d) (Name d) (FolderID d) (CreatedAt d)
    (UpdatedAt d) (Path d) (Tags d) (parent d) (files d) (dirs d).

Definition SetRev (d : DirDoc) (rev : string) : DirDoc :=
  mkDirDoc (Type_ d) (ObjID d) rev (Name d) (FolderID d) (CreatedAt d)
    (UpdatedAt d) (Path d) (Tags d) (parent d) (files d) (dirs d).

(** The assignments [d.Path = p], [d.CreatedAt = t], ... *)
Definition set_Path (d : DirDoc) (p : string) : DirDoc :=
  mkDirDoc (Type_ d) (ObjID d) (ObjRev d) (Name d) (FolderID d) (CreatedAt d)
    (UpdatedAt d) p (Tags d) (parent d) (files d) (dirs d).

Definition set_CreatedAt (d : DirDoc) (t : Z) : DirDoc :=
  mkDirDoc (Type_ d) (ObjID d) (ObjRev d) (Name d) (FolderID d) t
    (UpdatedAt d) (Path d) (Tags d) (parent d) (files d) (dirs d).

Definition set_UpdatedAt (d : DirDoc) (t : Z) : DirDoc :=
  mkDirDoc (Type_ d) (ObjID d) (ObjRev d) (Name d) (FolderID d) (CreatedAt d)
    t (Path d) (Tags d) (parent d) (files d) (dirs d).

Definition set_children (d : DirDoc) (fl : list FileDoc) (dl : list DirDoc)
  : DirDoc :=
  mkDirDoc (Type_ d) (ObjID d) (ObjRev d) (Name d) (FolderID d) (CreatedAt d)
    (UpdatedAt d) (Path d) (Tags d) (parent d) fl dl.

(** Serialisation: only the tagged fields travel to and from the store. *)
Definition to_json (d : DirDoc) : JSONDoc :=
  mkJSONDoc (Type_ d) (ObjID d) (ObjRev d) (Name d) (FolderID d)
    (CreatedAt d) (UpdatedAt d) (Path d) (Tags d).

Definition of_json (j : JSONDoc) : DirDoc :=
  mkDirDoc (j_type j) (j_id j) (j_rev j) (j_name j) (j_folder_id j)
    (j_created_at j) (j_updated_at j) (j_path j) (j_tags j) None [] [].

Definition json_set_id_rev (j : JSONDoc) (id rev : string) : JSONDoc :=
  mkJSONDoc (j_type j) id rev (j_name j) (j_folder_id j)
    (j_created_at j) (j_updated_at j) (j_path j) (j_tags j).

(** Modelled from the spec: [DocMetaAttributes] is declared outside the
    sources at hand; it is the sparse update descriptor of a move, with an
    optional new name, new parent, additional tags and new [UpdatedAt].
    A [nil] pointer or slice is [None]. *)
Module DocMetaAttributes.
Record t : Type := mk {
  Name : string;
  FolderID : option string;
  Tags : option (list string);
  UpdatedAt : option Z
}.
End DocMetaAttributes.

(** ** The collaborators

    The directory code reaches the document store through the functions of
    the [couchdb] package and the physical tree through the [afero.Fs]
    interface.  Both are interfaces here; the operations are stated for
    every implementation. *)

(** [mango.Equal] and [mango.StartWith], and [couchdb.FindRequest]
    ([Limit] 0: no limit given). *)
Inductive mango_Filter : Type :=
| mango_Equal (field value : string)
| mango_StartWith (field pfx : string).

Record FindRequest : Type := mkFindRequest {
  Selector : mango_Filter;
  Limit : nat
}.

(** Modelled from the spec: the document store contract.  [CreateDoc]
    assigns an identifier and a revision, [UpdateDoc] compares the supplied
    revision and assigns a new one, [FindDocs] returns the matching
    documents in no particular order.  Each takes the store and returns it. *)
Class DocumentStore (DB : Type) : Type := {
  couchdb_GetDoc : DB -> string -> string -> couch_error + JSONDoc;
  couchdb_CreateDoc : DB -> string -> JSONDoc ->
                      DB * (couch_error + string * string);
  couchdb_UpdateDoc : DB -> string -> JSONDoc -> DB * (couch_error + string);
  couchdb_FindDocs : DB -> string -> FindRequest ->
                     couch_error + list JSONDoc
}.

(** The methods of [afero.Fs] that the directory code calls.  [Stat]
    returns [None] when the entry exists. *)
Class Fs (F : Type) : Type := {
  Mkdir : F -> string -> Z -> F * option os_error;
  Remove : F -> string -> F * option os_error;
  Stat : F -> string -> option os_error;
  Rename : F -> string -> string -> F * option os_error
}.

(** Modelled from the spec: the part of the physical store contract that
    [CreateDirectory] relies on, [Mkdir] on a path that has an entry
    reports that it exists and does nothing. *)
Class FsContract (F : Type) `{Fs F} : Prop := {
  Mkdir_exists : forall (fs : F) (p : string) (perm : Z),
    Stat fs p = None -> Mkdir fs p perm = (fs, Some os_ErrExist)
}.

(** [Context]: the handle of one instance, its database and its file
    system. *)
Record Context (DB F : Type) : Type := mkContext {
  db : DB;
  fs : F
}.
Arguments mkContext {DB F} _ _.
Arguments db {DB F} _.
Arguments fs {DB F} _.

(** The order in which the runtime lets the concurrent units of a fan-out
    reach the store, and the order in which their results are received:
    two rearrangements, chosen by the scheduler. *)
Record Schedule : Type := mkSchedule {
  commit_order : list DirDoc -> list DirDoc;
  receive_order : list (option error) -> list (option error);
  commit_order_perm : forall l, commit_order l ≡ₚ l;
  receive_order_perm : forall l, receive_order l ≡ₚ l
}.

Definition in_order : Schedule :=
  mkSchedule (fun l => l) (fun l => l) (fun l => reflexivity l)
    (fun l => reflexivity l).

Definition last_first : Schedule :=
  mkSchedule (@reverse _) (fun l => l) (@reverse_Permutation _)
    (fun l => reflexivity l).

(** ** The directory operations *)

(** Modelled from the spec: [getRootDirDoc] is defined in [vfs.go], which
    is not part of the sources at hand.  The root is never persisted; it
    is synthesised with the sentinel identifier and the path "/". *)
Definition getRootDirDoc : DirDoc :=
  mkDirDoc DirType RootFolderID "" "" "" 0 0 "/" [] None [] [].

(** Modelled from the spec: [checkFileName] is defined in [vfs.go]; a name
    is rejected when it is empty or contains the path separator. *)
Definition checkFileName (name : string) : option error :=
  if String.eqb name "" || has_slash name then Some ErrIllegalFilename
  else None.

(** Modelled from the spec: [appendTags] is defined in [vfs.go]; the tags
    become the union of the current and the new ones, duplicates
    removed. *)
Definition appendTags (oldtags newtags : list string) : list string :=
  remove_dups (oldtags ++ newtags).

(** [NewDirDoc]; [now] is the reading of the clock. *)
Definition NewDirDoc (now : Z) (name folderID : string) (tags : list string)
    (parent : option DirDoc) : option DirDoc * option error :=
  match checkFileName name with
  | Some err => (None, Some err)
  | None =>
      let folderID := if String.eqb folderID "" then RootFolderID
                      else folderID in
      let parent :=
        match parent with
        | None => if String.eqb folderID RootFolderID
                  then Some getRootDirDoc else None
        | Some _ => parent
        end in
      (Some (mkDirDoc DirType "" "" name folderID now now "" tags
               parent [] []), None)
  end.

Section Operations.
Context {DB F : Type} `{DocumentStore DB} `{Fs F}.

(** Modelled from the spec: the results of the query are told apart by
    their type discriminator ([dirOrFile.refine] is not part of the sources
    at hand). *)
Definition fetchChildren_case (parent : DirDoc)
    (acc : list FileDoc * list DirDoc) (doc : JSONDoc)
  : list FileDoc * list DirDoc :=
  if String.eqb (j_type doc) FileType then
    (acc.1 ++ [mkFileDoc doc (Some (to_json parent))], acc.2)
  else if String.eqb (j_type doc) DirType then
    (acc.1, acc.2 ++ [mkDirDoc (j_type doc) (j_id doc) (j_rev doc)
                        (j_name doc) (j_folder_id doc) (j_created_at doc)
                        (j_updated_at doc) (j_path doc) (j_tags doc)
                        (Some parent) [] []])
  else acc.

(** [fetchChildren] *)
Definition fetchChildren (c : Context DB F) (parent : DirDoc)
  : list FileDoc * list DirDoc * option error :=
  let sel := mango_Equal "folder_id" (ID parent) in
  let req := mkFindRequest sel 10 in
  match couchdb_FindDocs (db c) FsDocType req with
  | inl err => ([], [], Some (CouchError err))
  | inr docs => (fold_left (fetchChildren_case parent) docs ([], []), None)
  end.

(** [(d *DirDoc) FetchFiles]: the receiver is returned with its children
    set. *)
Definition FetchFiles (c : Context DB F) (d : DirDoc) : DirDoc * option error :=
  let '(fl, dl, err) := fetchChildren c d in
  (set_children d fl dl, err).

(** [GetDirDoc] *)
Definition GetDirDoc (c : Context DB F) (fileID : string) (withChildren : bool)
  : option DirDoc * option error :=
  if String.eqb fileID RootFolderID then (Some getRootDirDoc, None)
  else
    match couchdb_GetDoc (db c) FsDocType fileID with
    | inl e =>
        let err := if couchdb_IsNotFoundError e then ErrParentDoesNotExist
                   else CouchError e in
        (None, Some err)
    | inr j =>
        let doc := of_json j in
        if negb (String.eqb (Type_ doc) DirType)
        then (None, Some (OsError os_ErrNotExist))
        else if withChildren then
          let '(doc, err) := FetchFiles c doc in (Some doc, err)
        else (Some doc, None)
    end.

(** [GetDirDocFromPath] *)
Definition GetDirDocFromPath (c : Context DB F) (pth : string) (withChildren : bool)
  : option DirDoc * option error :=
  let found :=
    if String.eqb pth "/" then inr getRootDirDoc
    else
      let sel := mango_Equal "path" (path_Clean pth) in
      let req := mkFindRequest sel 1 in
      match couchdb_FindDocs (db c) FsDocType req with
      | inl err => inl (CouchError err)
      | inr [] => inl (OsError os_ErrNotExist)
      | inr (j :: _) => inr (of_json j)
      end in
  match found with
  | inl err => (None, Some err)
  | inr doc =>
      if withChildren then
        let '(doc, err) := FetchFiles c doc in (Some doc, err)
      else (Some doc, None)
  end.

(** Modelled from the spec: [getFilePath] is defined in [vfs.go], which is
    not part of the sources at hand (the path resolver of the spec).  It
    resolves the parent, the root sentinel giving the synthetic root,
    validates the name, and returns the cleaned concatenation of the
    parent's path, "/" and the name, with the parent.  It fails with
    [ErrParentDoesNotExist] when the identifier does not resolve to an
    existing directory document. *)
Definition getFilePath (c : Context DB F) (name folderID : string)
  : error + string * DirDoc :=
  match GetDirDoc c folderID false with
  | (Some parentDoc, None) =>
      match checkFileName name with
      | Some err => inl err
      | None => inr (path_Clean (Path parentDoc +:+ "/" +:+ name), parentDoc)
      end
  | (_, Some (OsError os_ErrNotExist)) => inl ErrParentDoesNotExist
  | (_, Some err) => inl err
  | (None, None) => inl ErrParentDoesNotExist
  end.

(** [CreateDirectory]: the document is returned as the call leaves it.  The
    deferred function runs when [err] is set after [Mkdir] succeeded. *)
Definition CreateDirectory (c : Context DB F) (doc : DirDoc)
  : Context DB F * (DirDoc * option error) :=
  match getFilePath c (Name doc) (FolderID doc) with
  | inl err => (c, (doc, Some err))
  | inr (pth, _) =>
      match Mkdir (fs c) pth 493 with
      | (fs1, Some err) => (mkContext (db c) fs1, (doc, Some (OsError err)))
      | (fs1, None) =>
          let doc := set_Path doc pth in
          match couchdb_CreateDoc (db c) (DocType doc) (to_json doc) with
          | (db1, inl err) =>
              let '(fs2, _) := Remove fs1 pth in
              (mkContext db1 fs2, (doc, Some (CouchError err)))
          | (db1, inr (id, rev)) =>
              (mkContext db1 fs1, (SetRev (SetID doc id) rev, None))
          end
      end
  end.

(** [safeRenameDirectory] *)
Definition safeRenameDirectory (oldpath newpath : string) (fs0 : F)
  : F * option error :=
  let newpath := path_Clean newpath in
  let oldpath := path_Clean oldpath in
  if negb (path_IsAbs newpath) || negb (path_IsAbs oldpath) then
    (fs0, Some (Errorf "paths should be absolute"))
  else if strings_HasPrefix newpath (oldpath +:+ "/") then
    (fs0, Some ErrForbiddenDocMove)
  else
    match Stat fs0 newpath with
    | None => (fs0, Some (OsError os_ErrExist))
    | Some err =>
        if negb (os_IsNotExist err) then (fs0, Some (OsError err))
        else
          let '(fs1, r) := Rename fs0 oldpath newpath in
          (fs1, OsError <$> r)
    end.

(** The unit of work that [bulkUpdateDocsPath] starts for one child (the
    body of its [go func]); the result is what the unit sends on [errc]. *)
Definition bulkUpdateDocsPath_go (oldpath newpath : string) (c : Context DB F)
    (child : DirDoc) : Context DB F * option error :=
  if negb (strings_HasPrefix (Path child) (oldpath +:+ "/")) then
    (c, Some (Errorf "Child has wrong base directory"))
  else
    let child :=
      set_Path child
        (path_Join [newpath;
                    slice_from (String.length oldpath + 1) (Path child)]) in
    match couchdb_UpdateDoc (db c) (DocType child) (to_json child) with
    | (db1, inl err) => (mkContext db1 (fs c), Some (CouchError err))
    | (db1, inr _) => (mkContext db1 (fs c), None)
    end.

(** The units run one after the other in the order they reach the store;
    each sends one result. *)
Fixpoint run_units (oldpath newpath : string) (c : Context DB F)
    (children : list DirDoc) : Context DB F * list (option error) :=
  match children with
  | [] => (c, [])
  | child :: rest =>
      let '(c1, e) := bulkUpdateDocsPath_go oldpath newpath c child in
      let '(c2, es) := run_units oldpath newpath c1 rest in
      (c2, e :: es)
  end.

(** The receiving loop: every result is read, a non-nil one overwrites
    [err]. *)
Definition receive_all (err : option error) (results : list (option error))
  : option error :=
  fold_left (fun err e => match e with Some _ => e | None => err end)
    results err.

(** The two loops of [bulkUpdateDocsPath] over the children found. *)
Definition fan_out (sch : Schedule) (oldpath newpath : string) (c : Context DB F)
    (children : list DirDoc) : Context DB F * option error :=
  let '(c1, results) :=
    run_units oldpath newpath c (commit_order sch children) in
  (c1, receive_all None (receive_order sch results)).

(** [bulkUpdateDocsPath] *)
Definition bulkUpdateDocsPath (sch : Schedule) (c : Context DB F) (olddoc : DirDoc)
    (newpath : string) : Context DB F * option error :=
  let oldpath := path_Clean (Path olddoc) in
  let sel := mango_StartWith "path" (oldpath +:+ "/") in
  let req := mkFindRequest sel 0 in
  match couchdb_FindDocs (db c) FsDocType req with
  | inl err => (c, Some (CouchError err))
  | inr [] => (c, None)
  | inr children => fan_out sch oldpath newpath c (of_json <$> children)
  end.

(** [ModifyDirectoryMetadata], in the order of the source: the new parent,
    the new name, the tags, the date; then the new document, the rename,
    the descendants and the document itself. *)
Definition ModifyDirectoryMetadata (sch : Schedule) (now : Z) (c : Context DB F)
    (olddoc : DirDoc) (data : DocMetaAttributes.t)
  : Context DB F * (option DirDoc * option error) :=
  let pth := Path olddoc in
  let name := Name olddoc in
  let tags := Tags olddoc in
  let folderID := FolderID olddoc in
  let mdate := UpdatedAt olddoc in
  let parent := parent olddoc in
  let moved :=
    match DocMetaAttributes.FolderID data with
    | Some fid =>
        if negb (String.eqb fid folderID) then
          match getFilePath c name fid with
          | inl err => inl err
          | inr (pth, parentDoc) => inr (fid, pth, Some parentDoc)
          end
        else inr (folderID, pth, parent)
    | None => inr (folderID, pth, parent)
    end in
  match moved with
  | inl err => (c, (None, Some err))
  | inr (folderID, pth, parent) =>
      let '(name, pth) :=
        if negb (String.eqb (DocMetaAttributes.Name data) "") then
          (DocMetaAttributes.Name data,
           path_Join [path_Dir pth; DocMetaAttributes.Name data])
        else (name, pth) in
      let tags :=
        match DocMetaAttributes.Tags data with
        | Some newtags => appendTags tags newtags
        | None => tags
        end in
      let mdate :=
        match DocMetaAttributes.UpdatedAt data with
        | Some t => t
        | None => mdate
        end in
      if mdate <? CreatedAt olddoc then (c, (None, Some ErrIllegalTime))
      else
        match NewDirDoc now name folderID tags parent with
        | (_, Some err) => (c, (None, Some err))
        | (None, None) => (c, (None, None))
        | (Some newdoc, None) =>
            let newdoc := SetID newdoc (ID olddoc) in
            let newdoc := SetRev newdoc (Rev olddoc) in
            let newdoc := set_CreatedAt newdoc (CreatedAt olddoc) in
            let newdoc := set_UpdatedAt newdoc mdate in
            let newdoc := set_Path newdoc pth in
            let newdoc := set_children newdoc (files olddoc) (dirs olddoc) in
            let '(fs1, err) :=
              if negb (String.eqb pth (Path olddoc))
              then safeRenameDirectory (Path olddoc) pth (fs c)
              else (fs c, None) in
            match err with
            | Some err => (mkContext (db c) fs1, (Some newdoc, Some err))
            | None =>
                let c1 := mkContext (db c) fs1 in
                match bulkUpdateDocsPath sch c1 olddoc pth with
                | (c2, Some err) => (c2, (Some newdoc, Some err))
                | (c2, None) =>
                    match couchdb_UpdateDoc (db c2) (DocType newdoc)
                            (to_json newdoc) with
                    | (db3, inl err) =>
                        (mkContext db3 (fs c2),
                         (Some newdoc, Some (CouchError err)))
                    | (db3, inr rev) =>
                        (mkContext db3 (fs c2),
                         (Some (SetRev newdoc rev), None))
                    end
                end
            end
        end
  end.

End Operations.

(** ** The JSON-API view of a directory *)

(** Modelled from the spec: the types of the [jsonapi] package
    ([web/jsonapi] is not part of the sources at hand), as far as
    [Relationships] and [Included] build them: a resource identifier, a
    list of links, of which the code sets the related one, and a
    relationship whose data is nothing, one resource or a list of
    resources. *)
Module jsonapi.

Record ResourceIdentifier : Type := mkResourceIdentifier {
  ID : string;
  Type_ : string
}.

Record LinksList : Type := mkLinksList {
  Related : string
}.

Inductive RelationshipData : Type :=
| NoData
| Resource (r : ResourceIdentifier)
| Resources (l : list ResourceIdentifier).

Record Relationship : Type := mkRelationship {
  Links : option LinksList;
  Data : RelationshipData
}.

End jsonapi.

(** Modelled from the spec: the methods [ID] and [DocType] of [FileDoc]
    ([file.go] is not part of the sources at hand), the identifier of the
    document and the common document type. *)
Definition FileDoc_ID (f : FileDoc) : string := j_id (file_doc f).
Definition FileDoc_DocType (f : FileDoc) : string := FsDocType.

(** A [jsonapi.Object]: a directory or a file. *)
Inductive Object : Type :=
| DirObject (d : DirDoc)
| FileObject (f : FileDoc).

Definition Object_ID (o : Object) : string :=
  match o with
  | DirObject d => ID d
  | FileObject f => FileDoc_ID f
  end.

(** [(d *DirDoc) SelfLink] *)
Definition SelfLink (d : DirDoc) : string := "/files/" +:+ ObjID d.

(** The assignment [data[i] = r; i++] of the two loops of
    [Relationships].  An index out of range makes Go panic and leaves the
    list as it is here; the loops never get there, the slice has one
    slot for every child. *)
Definition Relationships_put
    (acc : list jsonapi.ResourceIdentifier * nat)
    (r : jsonapi.ResourceIdentifier)
  : list jsonapi.ResourceIdentifier * nat :=
  (<[acc.2 := r]> acc.1, S acc.2).

Definition Relationships_contents (d : DirDoc)
  : list jsonapi.ResourceIdentifier :=
  let l := (length (files d) + length (dirs d))%nat in
  let data := replicate l (jsonapi.mkResourceIdentifier "" "") in
  let acc :=
    fold_left
      (fun acc child =>
         Relationships_put acc
           (jsonapi.mkResourceIdentifier (ID child) (DocType child)))
      (dirs d) (data, O) in
  let acc :=
    fold_left
      (fun acc child =>
         Relationships_put acc
           (jsonapi.mkResourceIdentifier (FileDoc_ID child)
              (FileDoc_DocType child)))
      (files d) acc in
  acc.1.

(** [(d *DirDoc) Relationships] *)
Definition Relationships (d : DirDoc) : gmap string jsonapi.Relationship :=
  let contents :=
    jsonapi.mkRelationship None
      (jsonapi.Resources (Relationships_contents d)) in
  let parent :=
    if negb (String.eqb (ID d) RootFolderID) then
      jsonapi.mkRelationship
        (Some (jsonapi.mkLinksList ("/files/" +:+ FolderID d)))
        (jsonapi.Resource
           (jsonapi.mkResourceIdentifier (FolderID d) FsDocType))
    else jsonapi.mkRelationship None jsonapi.NoData in
  {[ "parent" := parent; "contents" := contents ]}.

(** [(d *DirDoc) Included] *)
Definition Included (d : DirDoc) : list Object :=
  let included :=
    fold_left (fun acc child => acc ++ [DirObject child]) (dirs d) [] in
  fold_left (fun acc child => acc ++ [FileObject child]) (files d) included.

(** ** Reference collaborators *)

(** Modelled from the spec: a document store that holds the documents of
    type [FsDocType] in a finite map from identifier to document.  A new
    document gets an identifier that is not in use, is not empty and is
    not the root sentinel; revisions are opaque tokens, a new one differs
    from the one it replaces. *)
Definition next_rev (rev : string) : string := String "+" rev.

Definition json_field (field : string) (j : JSONDoc) : option string :=
  if String.eqb field "type" then Some (j_type j)
  else if String.eqb field "_id" then Some (j_id j)
  else if String.eqb field "_rev" then Some (j_rev j)
  else if String.eqb field "name" then Some (j_name j)
  else if String.eqb field "folder_id" then Some (j_folder_id j)
  else if String.eqb field "path" then Some (j_path j)
  else None.

Definition mango_matches (sel : mango_Filter) (j : JSONDoc) : bool :=
  match sel with
  | mango_Equal field value =>
      match json_field field j with
      | Some v => String.eqb v value
      | None => false
      end
  | mango_StartWith field pfx =>
      match json_field field j with
      | Some v => strings_HasPrefix v pfx
      | None => false
      end
  end.

Definition mem_GetDoc (m : gmap string JSONDoc) (doctype id : string)
  : couch_error + JSONDoc :=
  if String.eqb doctype FsDocType then
    match m !! id with
    | Some j => inr j
    | None => inl couch_NotFound
    end
  else inl couch_NotFound.

Definition mem_CreateDoc (m : gmap string JSONDoc) (doctype : string)
    (j : JSONDoc) : gmap string JSONDoc * (couch_error + string * string) :=
  if String.eqb doctype FsDocType then
    let id := fresh (dom m ∪ {[ ""; RootFolderID ]}) in
    (<[id := json_set_id_rev j id "1"]> m, inr (id, "1"))
  else (m, inl (couch_Other "no such database")).

Definition mem_UpdateDoc (m : gmap string JSONDoc) (doctype : string)
    (j : JSONDoc) : gmap string JSONDoc * (couch_error + string) :=
  if String.eqb doctype FsDocType then
    match m !! j_id j with
    | None => (m, inl couch_NotFound)
    | Some stored =>
        if String.eqb (j_rev stored) (j_rev j) then
          let rev := next_rev (j_rev j) in
          (<[j_id j := json_set_id_rev j (j_id j) rev]> m, inr rev)
        else (m, inl couch_Conflict)
    end
  else (m, inl (couch_Other "no such database")).

Definition mem_FindDocs (m : gmap string JSONDoc) (doctype : string)
    (req : FindRequest) : couch_error + list JSONDoc :=
  if String.eqb doctype FsDocType then
    let found := List.filter (mango_matches (Selector req))
                   (map_to_list m).*2 in
    inr (match Limit req with
         | O => found
         | n => take n found
         end)
  else inr [].

#[export] Instance MemCouch : DocumentStore (gmap string JSONDoc) := {
  couchdb_GetDoc := mem_GetDoc;
  couchdb_CreateDoc := mem_CreateDoc;
  couchdb_UpdateDoc := mem_UpdateDoc;
  couchdb_FindDocs := mem_FindDocs
}.

(** A store that cannot be reached: every request fails. *)
Inductive Unreachable : Type := unreachable.

#[export] Instance NoCouch : DocumentStore Unreachable := {
  couchdb_GetDoc := fun _ _ _ => inl (couch_Other "connection refused");
  couchdb_CreateDoc := fun s _ _ =>
    (s, inl (couch_Other "connection refused"));
  couchdb_UpdateDoc := fun s _ _ =>
    (s, inl (couch_Other "connection refused"));
  couchdb_FindDocs := fun _ _ _ => inl (couch_Other "connection refused")
}.

(** Modelled from the spec: a physical store that is the set of the paths
    that have an entry.  [Rename] moves an entry with everything below it;
    it fails when the source is missing or the destination exists. *)
Definition mem_Mkdir (s : gset string) (p : string) (perm : Z)
  : gset string * option os_error :=
  if decide (p ∈ s) then (s, Some os_ErrExist) else ({[ p ]} ∪ s, None).

Definition mem_Remove (s : gset string) (p : string)
  : gset string * option os_error :=
  if decide (p ∈ s) then (s ∖ {[ p ]}, None) else (s, Some os_ErrNotExist).

Definition mem_Stat (s : gset string) (p : string) : option os_error :=
  if decide (p ∈ s) then None else Some os_ErrNotExist.

Definition mem_moved (oldpath newpath p : string) : string :=
  if String.eqb p oldpath then newpath
  else if strings_HasPrefix p (oldpath +:+ "/")
       then newpath +:+ slice_from (String.length oldpath) p
       else p.

Definition mem_Rename (s : gset string) (oldpath newpath : string)
  : gset string * option os_error :=
  if decide (oldpath ∈ s) then
    if decide (newpath ∈ s) then (s, Some os_ErrExist)
    else (set_map (mem_moved oldpath newpath) s, None)
  else (s, Some os_ErrNotExist).

#[export] Instance MemMapFs : Fs (gset string) := {
  Mkdir := mem_Mkdir;
  Remove := mem_Remove;
  Stat := mem_Stat;
  Rename := mem_Rename
}.

#[export] Instance MemMapFs_contract : FsContract (gset string).
Proof.
  constructor. intros s p perm. cbn. unfold mem_Stat, mem_Mkdir.
  destruct (decide (p ∈ s)); [reflexivity | discriminate].
Qed.

(** A store whose documents can be read and written by identifier while
    its queries fail (the index cannot be reached). *)
Record NoIndex : Type := mkNoIndex {
  no_index_docs : gmap string JSONDoc
}.

#[export] Instance NoIndexCouch : DocumentStore NoIndex := {
  couchdb_GetDoc := fun s => mem_GetDoc (no_index_docs s);
  couchdb_CreateDoc := fun s doctype j =>
    let r := mem_CreateDoc (no_index_docs s) doctype j in
    (mkNoIndex r.1, r.2);
  couchdb_UpdateDoc := fun s doctype j =>
    let r := mem_UpdateDoc (no_index_docs s) doctype j in
    (mkNoIndex r.1, r.2);
  couchdb_FindDocs := fun _ _ _ => inl (couch_Other "index unavailable")
}.

(** ** Notions used to state the properties *)

Section Notions.
Context {DB F : Type} `{DocumentStore DB} `{Fs F}.

(** The parent, the name, the path and the parent document that
    [ModifyDirectoryMetadata] arrives at after its first two steps (the new
    parent, then the new name). *)
Definition modify_target (c : Context DB F) (olddoc : DirDoc)
    (data : DocMetaAttributes.t)
  : error + string * string * string * option DirDoc :=
  let moved :=
    match DocMetaAttributes.FolderID data with
    | Some fid =>
        if negb (String.eqb fid (FolderID olddoc)) then
          match getFilePath c (Name olddoc) fid with
          | inl err => inl err
          | inr (pth, parentDoc) => inr (fid, pth, Some parentDoc)
          end
        else inr (FolderID olddoc, Path olddoc, parent olddoc)
    | None => inr (FolderID olddoc, Path olddoc, parent olddoc)
    end in
  match moved with
  | inl err => inl err
  | inr (folderID, pth, parent) =>
      if negb (String.eqb (DocMetaAttributes.Name data) "") then
        inr (folderID, DocMetaAttributes.Name data,
             path_Join [path_Dir pth; DocMetaAttributes.Name data], parent)
      else inr (folderID, Name olddoc, pth, parent)
  end.

End Notions.

(** The tags and the date it arrives at, and the document it builds from
    the result of [NewDirDoc]. *)
Definition modify_tags (olddoc : DirDoc) (data : DocMetaAttributes.t)
  : list string :=
  match DocMetaAttributes.Tags data with
  | Some newtags => appendTags (Tags olddoc) newtags
  | None => Tags olddoc
  end.

Definition modify_mdate (olddoc : DirDoc) (data : DocMetaAttributes.t) : Z :=
  match DocMetaAttributes.UpdatedAt data with
  | Some t => t
  | None => UpdatedAt olddoc
  end.

Definition modify_newdoc (olddoc newdoc : DirDoc) (mdate : Z) (pth : string)
  : DirDoc :=
  set_children
    (set_Path
       (set_UpdatedAt
          (set_CreatedAt (SetRev (SetID newdoc (ID olddoc)) (Rev olddoc))
             (CreatedAt olddoc)) mdate) pth)
    (files olddoc) (dirs olddoc).

(** What a unit sends is nil, an error of the store or its own error. *)
Definition unit_error (e : option error) : Prop :=
  match e with
  | None | Some (CouchError _) | Some (Errorf _) => True
  | _ => False
  end.

(** What a unit of the fan-out writes for a child found under [oldpath]:
    the path with the prefix replaced, under the child's own revision. *)
Definition relocated (oldpath newpath : string) (j : JSONDoc) : JSONDoc :=
  mkJSONDoc (j_type j) (j_id j) (next_rev (j_rev j)) (j_name j)
    (j_folder_id j) (j_created_at j) (j_updated_at j)
    (path_Join [newpath; slice_from (String.length oldpath + 1) (j_path j)])
    (j_tags j).

(** A unit succeeds on the reference store when the child still has the
    prefix and is stored under the revision that was read. *)
Definition unit_ok (m : gmap string JSONDoc) (oldpath : string)
    (child : DirDoc) : Prop :=
  strings_HasPrefix (Path child) (oldpath +:+ "/") = true /\
  exists stored, m !! ObjID child = Some stored /\
                 j_rev stored = ObjRev child.

(** What the fan-out of a move from [oldpath] to [newpath] makes of a
    stored document: relocated when its path lies under [oldpath], left
    alone otherwise. *)
Definition relocate_below (oldpath newpath : string) (j : JSONDoc) : JSONDoc :=
  if strings_HasPrefix (j_path j) (oldpath +:+ "/")
  then relocated oldpath newpath j else j.

(** The path of the directory a parent identifier stands for: "/" for the
    root sentinel, the path of the stored directory document otherwise. *)
Definition parent_path (m : gmap string JSONDoc) (folderID : string)
  : option string :=
  if String.eqb folderID RootFolderID then Some "/"
  else match m !! folderID with
       | Some p => if String.eqb (j_type p) DirType then Some (j_path p)
                   else None
       | None => None
       end.


(** The path invariant as the code keeps it: the concatenation is
    cleaned, so that a directory under the root has the path "/name". *)
Definition path_invariant (m : gmap string JSONDoc) : Prop :=
  forall id d, m !! id = Some d -> j_type d = DirType ->
    exists pp, parent_path m (j_folder_id d) = Some pp /\
               j_path d = path_Clean (pp +:+ "/" +:+ j_name d).

(** The store holds each document under its own identifier. *)
Definition keyed (m : gmap string JSONDoc) : Prop :=
  forall id d, m !! id = Some d -> j_id d = id.

(** The store holds each document under its identifier, which is not
    empty, and the directories have a plain name and a cleaned absolute
    path. *)
Definition well_formed (m : gmap string JSONDoc) : Prop :=
  forall id d, m !! id = Some d ->
    j_id d = id /\ id <> "" /\
    (j_type d = DirType -> plain (j_name d) /\ cleaned_abs (j_path d)).

(** No other directory document has the path [p]. *)
Definition unique_path (m : gmap string JSONDoc) (id p : string) : Prop :=
  forall id' d', m !! id' = Some d' -> j_type d' = DirType ->
    j_path d' = p -> id' = id.

(** What [fetchChildren] makes of a document that the query returned: a
    sub-directory or a file of [parent]. *)
Definition dir_child (parent : DirDoc) (doc : JSONDoc) : DirDoc :=
  mkDirDoc (j_type doc) (j_id doc) (j_rev doc) (j_name doc) (j_folder_id doc)
    (j_created_at doc) (j_updated_at doc) (j_path doc) (j_tags doc)
    (Some parent) [] [].

Definition file_child (parent : DirDoc) (doc : JSONDoc) : FileDoc :=
  mkFileDoc doc (Some (to_json parent)).

(** ** Example data *)

(** A store with one file document, and a directory document that has
    not been persisted. *)
Definition store_with_file : gmap string JSONDoc :=
  {[ "f1" := mkJSONDoc FileType "f1" "1" "notes.txt" RootFolderID 10 10 ""
               [] ]}.

Definition a_doc (name folderID : string) : DirDoc :=
  mkDirDoc DirType "" "" name folderID 100 100 "" [] None [] [].

(** A store with the directory "/docs" and its child "/docs/photos", and
    the matching physical tree. *)
Definition docs_json : JSONDoc :=
  mkJSONDoc DirType "d1" "1" "docs" RootFolderID 100 100 "/docs" [].

Definition photos_json : JSONDoc :=
  mkJSONDoc DirType "d2" "1" "photos" "d1" 110 110 "/docs/photos" [].

Definition docs_store : gmap string JSONDoc :=
  {[ "d1" := docs_json; "d2" := photos_json ]}.

Definition docs_tree : gset string := {[ "/"; "/docs"; "/docs/photos" ]}.

Definition docs_ctx : Context (gmap string JSONDoc) (gset string) :=
  mkContext docs_store docs_tree.

(** Sparse update descriptors: a rename, a move under another parent, more
    tags. *)
Definition rename_to (name : string) : DocMetaAttributes.t :=
  DocMetaAttributes.mk name None None None.

Definition move_to (folderID : string) : DocMetaAttributes.t :=
  DocMetaAttributes.mk "" (Some folderID) None None.

Definition add_tags (tags : list string) : DocMetaAttributes.t :=
  DocMetaAttributes.mk "" None (Some tags) None.

(** Children as a unit may find them when the tree changes under the
    fan-out: [photos_stale] was read under a revision that is no longer the
    stored one, [videos_moved] has been relocated out of "/docs" in the
    meantime. *)
Definition photos_stale : DirDoc :=
  mkDirDoc DirType "d2" "0" "photos" "d1" 110 110 "/docs/photos" []
    None [] [].

Definition music_json : JSONDoc :=
  mkJSONDoc DirType "d3" "1" "music" "d1" 120 120 "/docs/music" [].

Definition videos_moved : DirDoc :=
  mkDirDoc DirType "d4" "1" "videos" RootFolderID 130 130 "/videos" []
    None [] [].

Definition busy_store : gmap string JSONDoc :=
  {[ "d1" := docs_json; "d2" := photos_json; "d3" := music_json;
     "d4" := to_json videos_moved ]}.

Definition busy_ctx : Context (gmap string JSONDoc) (gset string) :=
  mkContext busy_store docs_tree.




(** A store in which two directory documents have the path "/docs"; the
    child "/docs/photos" belongs to the second one. *)
Definition twin_json : JSONDoc :=
  mkJSONDoc DirType "d9" "1" "docs" RootFolderID 100 100 "/docs" [].

Definition twin_photos_json : JSONDoc :=
  mkJSONDoc DirType "d2" "1" "photos" "d9" 110 110 "/docs/photos" [].

Definition twin_store : gmap string JSONDoc :=
  {[ "d1" := docs_json; "d9" := twin_json; "d2" := twin_photos_json ]}.

Definition twin_ctx : Context (gmap string JSONDoc) (gset string) :=
  mkContext twin_store docs_tree.

(** The store of "/docs" behind an index that cannot be reached. *)
Definition docs_no_index : Context NoIndex (gset string) :=
  mkContext (mkNoIndex docs_store) docs_tree.

(** The directory "/docs" as a client read it before its document got the
    revision "1". *)
Definition docs_stale : DirDoc :=
  mkDirDoc DirType "d1" "0" "docs" RootFolderID 100 100 "/docs" []
    None [] [].

(** The node that a call has returned, in the examples. *)
Definition returned (r : option DirDoc * option error) : DirDoc :=
  match r.1 with
  | Some d => d
  | None => getRootDirDoc
  end.

(** ** Properties *)

(** *** The path functions on the examples of their documentation *)

Example Clean_ex1 : path_Clean "a/c" = "a/c". Proof. reflexivity. Qed.
Example Clean_ex2 : path_Clean "a//c" = "a/c". Proof. reflexivity. Qed.
Example Clean_ex3 : path_Clean "a/c/." = "a/c". Proof. reflexivity. Qed.
Example Clean_ex4 : path_Clean "a/c/b/.." = "a/c". Proof. reflexivity. Qed.
Example Clean_ex5 : path_Clean "/../a/c" = "/a/c". Proof. reflexivity. Qed.
Example Clean_ex6 : path_Clean "/../a/b/../././/c" = "/a/c".
Proof. reflexivity. Qed.
Example Clean_ex7 : path_Clean "" = ".". Proof. reflexivity. Qed.
Example Clean_ex8 : path_Clean "../../a/.." = "../..". Proof. reflexivity. Qed.
Example Clean_ex9 : path_Clean "/" = "/". Proof. reflexivity. Qed.
Example Join_ex1 : path_Join ["a"; "b"; "c"] = "a/b/c". Proof. reflexivity. Qed.
Example Join_ex2 : path_Join ["a/b"; "../../../xyz"] = "../xyz".
Proof. reflexivity. Qed.
Example Join_ex3 : path_Join [""; ""] = "". Proof. reflexivity. Qed.
Example Join_ex4 : path_Join ["/"; "docs"] = "/docs". Proof. reflexivity. Qed.
Example Dir_ex1 : path_Dir "/a/b/c" = "/a/b". Proof. reflexivity. Qed.
Example Dir_ex2 : path_Dir "/a" = "/". Proof. reflexivity. Qed.
Example Dir_ex3 : path_Dir "a" = ".". Proof. reflexivity. Qed.
Example Dir_ex4 : path_Dir "" = ".". Proof. reflexivity. Qed.
Example Dir_ex5 : path_Dir "/a/b/" = "/a/b". Proof. reflexivity. Qed.

(** *** Strings *)

Lemma str_app_cons (a : ascii) (s t : string) :
  String a s +:+ t = String a (s +:+ t).
Proof. reflexivity. Qed.

Lemma str_app_nil_l (s : string) : "" +:+ s = s.
Proof. reflexivity. Qed.

Lemma str_app_nil_r (s : string) : s +:+ "" = s.
Proof. induction s as [|a s IH]; [reflexivity|]. by rewrite str_app_cons, IH. Qed.

Lemma str_app_assoc (s t u : string) : (s +:+ t) +:+ u = s +:+ (t +:+ u).
Proof.
  induction s as [|a s IH]; [reflexivity|]. by rewrite !str_app_cons, IH.
Qed.

Lemma str_length_app (s t : string) :
  String.length (s +:+ t) = (String.length s + String.length t)%nat.
Proof.
  induction s as [|a s IH]; [reflexivity|].
  rewrite str_app_cons. simpl. by rewrite IH.
Qed.

Lemma prefix_app (s t : string) : String.prefix s (s +:+ t) = true.
Proof.
  induction s as [|a s IH]; [by destruct t|].
  rewrite str_app_cons. simpl. by destruct (ascii_dec a a).
Qed.

Lemma prefix_inv (s t : string) :
  String.prefix s t = true -> exists u, t = s +:+ u.
Proof.
  revert t. induction s as [|a s IH]; intros t Hp.
  - by exists t.
  - destruct t as [|b t]; [discriminate|]. simpl in Hp.
    destruct (ascii_dec a b) as [->|]; [|discriminate].
    destruct (IH _ Hp) as [u ->]. by exists u.
Qed.

Lemma slice_from_app (s t : string) :
  slice_from (String.length s) (s +:+ t) = t.
Proof. induction s as [|a s IH]; [reflexivity|]. by rewrite str_app_cons. Qed.

Lemma has_slash_app (s t : string) :
  has_slash (s +:+ t) = has_slash s || has_slash t.
Proof.
  induction s as [|a s IH]; [reflexivity|].
  rewrite str_app_cons. simpl. rewrite IH. by rewrite orb_assoc.
Qed.

Lemma is_slash_true (a : ascii) : is_slash a = true -> a = "/"%char.
Proof. unfold is_slash. by intros ?%Ascii.eqb_eq. Qed.

(** *** [strings.Split] *)

Lemma split_slash_nonempty (s : string) : split_slash s <> [].
Proof.
  induction s as [|a s IH]; [done|]. simpl.
  destruct (is_slash a); [done|]. by destruct (split_slash s).
Qed.

Lemma split_slash_plain (c : string) :
  has_slash c = false -> split_slash c = [c].
Proof.
  induction c as [|a c IH]; [done|]. simpl.
  intros [Ha Hc]%orb_false_iff. rewrite Ha, IH; done.
Qed.

Lemma split_slash_app (s t : string) :
  split_slash (s +:+ "/" +:+ t) = split_slash s ++ split_slash t.
Proof.
  induction s as [|a s IH]; [reflexivity|].
  rewrite str_app_cons. simpl. rewrite IH.
  destruct (is_slash a); [done|].
  pose proof (split_slash_nonempty s). by destruct (split_slash s).
Qed.

Lemma split_slash_no_slash (s : string) :
  Forall (fun c => has_slash c = false) (split_slash s).
Proof.
  induction s as [|a s IH]; [by repeat constructor|]. simpl.
  destruct (is_slash a) eqn:Ha; [by constructor|].
  destruct (split_slash s) as [|c cs]; [by repeat constructor; simpl; rewrite Ha|].
  inversion IH; subst. constructor; [|done]. simpl. by rewrite Ha.
Qed.

(** *** Plain elements and canonical paths *)

Lemma plain_inv (c : string) :
  plain c -> c <> "" /\ has_slash c = false /\ c <> "." /\ c <> "..".
Proof.
  unfold plain, is_plain. rewrite !andb_true_iff, !negb_true_iff.
  intros [[[H1 H2] H3] H4]. by rewrite String.eqb_neq in H1, H3, H4.
Qed.

Lemma plain_no_slash (c : string) : plain c -> has_slash c = false.
Proof. intros H. apply plain_inv in H. tauto. Qed.

Lemma plain_head (c : string) :
  plain c -> exists a c', c = String a c' /\ is_slash a = false.
Proof.
  intros (Hne & Hs & _)%plain_inv. destruct c as [|a c']; [done|].
  exists a, c'. simpl in Hs. apply orb_false_iff in Hs. tauto.
Qed.

Lemma clean_elem_plain (rooted : bool) (out : list string) (c : string) :
  plain c -> clean_elem rooted out c = c :: out.
Proof.
  intros (H1 & _ & H3 & H4)%plain_inv. unfold clean_elem.
  apply String.eqb_neq in H1, H3, H4. by rewrite H1, H3, H4.
Qed.

Lemma slashed_app (cs ds : list string) :
  slashed (cs ++ ds) = slashed cs +:+ slashed ds.
Proof.
  induction cs as [|c cs IH]; [reflexivity|]. simpl.
  by rewrite IH, !str_app_assoc.
Qed.

Lemma slashed_head (cs : list string) :
  slashed cs = "" \/ exists r, slashed cs = "/" +:+ r.
Proof. destruct cs; [by left|right]. simpl. eauto. Qed.

Lemma abs_path_cons (c : string) (cs : list string) :
  abs_path (c :: cs) = "/" +:+ (c +:+ slashed cs).
Proof. reflexivity. Qed.

Lemma abs_path_snoc (cs : list string) (n : string) :
  abs_path (cs ++ [n]) = slashed cs +:+ "/" +:+ n.
Proof.
  transitivity (slashed (cs ++ [n])); [by destruct cs|].
  rewrite slashed_app. simpl. by rewrite str_app_nil_r.
Qed.

Lemma abs_path_app (cs ds : list string) :
  ds <> [] -> abs_path (cs ++ ds) = slashed cs +:+ slashed ds.
Proof.
  intros Hds. rewrite <- slashed_app. destruct cs; [by destruct ds|done].
Qed.

Lemma abs_path_slashed (cs : list string) :
  cs <> [] -> abs_path cs = slashed cs.
Proof. by destruct cs. Qed.

Lemma concat_slashed (c : string) (cs : list string) :
  String.concat "/" (c :: cs) = c +:+ slashed cs.
Proof.
  revert c. induction cs as [|d cs IH]; intros c.
  - simpl. by rewrite str_app_nil_r.
  - change (String.concat "/" (c :: d :: cs))
      with (c +:+ "/" +:+ String.concat "/" (d :: cs)).
    by rewrite IH.
Qed.

Lemma concat_abs_path (cs : list string) :
  "/" +:+ String.concat "/" cs = abs_path cs.
Proof. destruct cs as [|c cs]; [done|]. by rewrite concat_slashed. Qed.

Lemma split_slash_elems (c : string) (cs : list string) :
  has_slash c = false -> Forall plain cs ->
  split_slash (c +:+ slashed cs) = c :: cs.
Proof.
  revert c. induction cs as [|d cs IH]; intros c Hc Hcs.
  - simpl. rewrite str_app_nil_r. by apply split_slash_plain.
  - inversion Hcs; subst. simpl slashed.
    rewrite split_slash_app, split_slash_plain by done.
    simpl. f_equal. apply IH; [by apply plain_no_slash|done].
Qed.

(** *** [path.Clean] on rooted paths *)

Lemma clean_fold_plain (l out : list string) :
  Forall (fun c => c = "" \/ plain c) l ->
  fold_left (clean_elem true) l out = reverse (kept l) ++ out.
Proof.
  revert out. induction l as [|c l IH]; intros out Hl; [done|].
  inversion Hl as [|? ? [->|Hc] Hl']; subst; simpl.
  - by apply IH.
  - rewrite clean_elem_plain, IH by done.
    apply plain_inv in Hc as [Hne%String.eqb_neq _]. rewrite Hne. simpl.
    by rewrite reverse_cons, <- (assoc_L (++)).
Qed.

Lemma Clean_rooted (s : string) :
  path_Clean ("/" +:+ s)
  = abs_path (reverse (fold_left (clean_elem true) (split_slash s) [])).
Proof. rewrite <- concat_abs_path. by destruct s. Qed.

Lemma Clean_rooted_plain (s : string) :
  Forall (fun c => c = "" \/ plain c) (split_slash s) ->
  path_Clean ("/" +:+ s) = abs_path (kept (split_slash s)).
Proof.
  intros Hs. rewrite Clean_rooted, clean_fold_plain by done.
  by rewrite app_nil_r, reverse_involutive.
Qed.

Lemma kept_plain (cs : list string) : Forall plain cs -> kept cs = cs.
Proof.
  induction 1 as [|c cs Hc _ IH]; [done|]. simpl.
  apply plain_inv in Hc as [Hne%String.eqb_neq _]. by rewrite Hne, IH.
Qed.

Lemma Forall_plain_or_empty (cs : list string) :
  Forall plain cs -> Forall (fun c => c = "" \/ plain c) cs.
Proof. intros Hcs. eapply Forall_impl; [exact Hcs|]. simpl. tauto. Qed.

Lemma Clean_abs_path (cs : list string) :
  Forall plain cs -> path_Clean (abs_path cs) = abs_path cs.
Proof.
  intros Hcs. destruct cs as [|c cs]; [done|].
  rewrite abs_path_cons. inversion Hcs; subst.
  rewrite Clean_rooted_plain;
    rewrite split_slash_elems by (by try apply plain_no_slash).
  - by rewrite kept_plain.
  - by apply Forall_plain_or_empty.
Qed.

(** The tail [t] of a path is made of the elements [ds]. *)
Lemma Clean_abs_path_tail (cs : list string) (t : string) :
  Forall plain cs ->
  Forall (fun c => c = "" \/ plain c) (split_slash t) ->
  path_Clean (abs_path cs +:+ "/" +:+ t)
  = abs_path (cs ++ kept (split_slash t)).
Proof.
  intros Hcs Ht. destruct cs as [|c cs].
  - change (abs_path [] +:+ "/" +:+ t) with ("/" +:+ ("" +:+ "/" +:+ t)).
    rewrite Clean_rooted_plain; rewrite split_slash_app; simpl; [done|].
    constructor; [by left|done].
  - rewrite abs_path_cons. inversion Hcs; subst.
    change (("/" +:+ (c +:+ slashed cs)) +:+ "/" +:+ t)
      with ("/" +:+ ((c +:+ slashed cs) +:+ "/" +:+ t)).
    rewrite Clean_rooted_plain; rewrite split_slash_app,
      split_slash_elems by (by try apply plain_no_slash).
    + unfold kept. rewrite List.filter_app. fold (kept (c :: cs)).
      by rewrite kept_plain.
    + apply Forall_app. split; [|done]. by apply Forall_plain_or_empty.
Qed.

Lemma Clean_abs_path_elem (cs : list string) (n : string) :
  Forall plain cs -> plain n ->
  path_Clean (abs_path cs +:+ "/" +:+ n) = abs_path (cs ++ [n]).
Proof.
  intros Hcs Hn. rewrite Clean_abs_path_tail; try done;
    rewrite split_slash_plain by (by apply plain_no_slash).
  - by rewrite (kept_plain [n]) by (by constructor).
  - constructor; [by right|done].
Qed.

Lemma Clean_abs_path_elems (cs : list string) (d : string) (ds : list string) :
  Forall plain cs -> Forall plain (d :: ds) ->
  path_Clean (abs_path cs +:+ "/" +:+ String.concat "/" (d :: ds))
  = abs_path (cs ++ d :: ds).
Proof.
  intros Hcs Hds. inversion Hds; subst.
  rewrite concat_slashed.
  rewrite Clean_abs_path_tail; try done;
    rewrite split_slash_elems by (by try apply plain_no_slash).
  - by rewrite kept_plain.
  - by apply Forall_plain_or_empty.
Qed.

Lemma Clean_abs_path_slash (cs : list string) :
  Forall plain cs -> path_Clean (abs_path cs +:+ "/") = abs_path cs.
Proof.
  intros Hcs. rewrite <- (str_app_nil_r (abs_path cs +:+ "/")), str_app_assoc.
  rewrite Clean_abs_path_tail; simpl; [by rewrite app_nil_r|done|].
  constructor; [by left|done].
Qed.

Lemma clean_elem_keeps_plain (out : list string) (c : string) :
  has_slash c = false -> Forall plain out ->
  Forall plain (clean_elem true out c).
Proof.
  intros Hc Hout. unfold clean_elem.
  destruct (String.eqb_spec c "") as [|H1]; [done|].
  destruct (String.eqb_spec c ".") as [|H2]; [done|]. simpl.
  destruct (String.eqb_spec c "..") as [|H3].
  - destruct out as [|top rest]; [done|]. inversion Hout as [|? ? Ht Hr]; subst.
    apply plain_inv in Ht as (_ & _ & _ & Ht%String.eqb_neq).
    by rewrite Ht.
  - constructor; [|done]. unfold plain, is_plain.
    apply String.eqb_neq in H1, H2, H3. by rewrite H1, H2, H3, Hc.
Qed.

Lemma clean_fold_keeps_plain (l out : list string) :
  Forall (fun c => has_slash c = false) l -> Forall plain out ->
  Forall plain (fold_left (clean_elem true) l out).
Proof.
  revert out. induction l as [|c l IH]; intros out Hl Hout; [done|].
  inversion Hl; subst. simpl. apply IH; [done|].
  by apply clean_elem_keeps_plain.
Qed.

(** A cleaned absolute path is the path of a list of plain elements. *)
Lemma cleaned_abs_elems (p : string) :
  cleaned_abs p -> exists cs, Forall plain cs /\ p = abs_path cs.
Proof.
  intros [Hc Ha]. apply prefix_inv in Ha as [u ->].
  rewrite Clean_rooted in Hc. eexists. split; [|by symmetry; apply Hc].
  apply Forall_reverse, clean_fold_keeps_plain; [|done].
  apply split_slash_no_slash.
Qed.

Lemma abs_path_cleaned_abs (cs : list string) :
  Forall plain cs -> cleaned_abs (abs_path cs).
Proof.
  intros Hcs. split; [by apply Clean_abs_path|].
  destruct cs; [done|]. apply (prefix_app "/").
Qed.

(** *** [path.Dir] *)

Lemma split_dir_plain (n : string) : has_slash n = false -> split_dir n = "".
Proof. destruct n as [|a n]; [done|]. simpl. by intros ->. Qed.

Lemma split_dir_app (s n : string) :
  has_slash n = false -> split_dir (s +:+ "/" +:+ n) = s +:+ "/".
Proof.
  intros Hn. induction s as [|a s IH].
  - change ("" +:+ "/" +:+ n) with (String "/" n). simpl.
    by rewrite split_dir_plain.
  - rewrite !(str_app_cons a s). simpl.
    rewrite IH, has_slash_app. simpl. by rewrite !orb_true_r.
Qed.

Lemma Dir_abs_path (cs : list string) (n : string) :
  Forall plain cs -> plain n -> path_Dir (abs_path (cs ++ [n])) = abs_path cs.
Proof.
  intros Hcs Hn. unfold path_Dir.
  rewrite abs_path_snoc, split_dir_app by (by apply plain_no_slash).
  destruct cs as [|c cs]; [done|].
  rewrite <- (abs_path_slashed (c :: cs)) by done.
  by apply Clean_abs_path_slash.
Qed.

(** *** Prefixes of canonical paths *)

Lemma elem_app_inj (c c' r r' : string) :
  has_slash c = false -> has_slash c' = false ->
  (r = "" \/ exists r0, r = "/" +:+ r0) ->
  (r' = "" \/ exists r0, r' = "/" +:+ r0) ->
  c +:+ r = c' +:+ r' -> c = c' /\ r = r'.
Proof.
  revert c'. induction c as [|a c IH]; intros [|b c'] Hc Hc' Hr Hr' Heq.
  - done.
  - exfalso. rewrite str_app_nil_l, str_app_cons in Heq.
    simpl in Hc'. apply orb_false_iff in Hc' as [Hb _].
    destruct Hr as [->|[r0 ->]]; [done|]. injection Heq as <- _. done.
  - exfalso. rewrite str_app_nil_l, str_app_cons in Heq.
    simpl in Hc. apply orb_false_iff in Hc as [Ha _].
    destruct Hr' as [->|[r0 ->]]; [done|]. injection Heq as -> _. done.
  - rewrite !str_app_cons in Heq. injection Heq as -> Heq.
    simpl in Hc, Hc'. apply orb_false_iff in Hc as [_ Hc].
    apply orb_false_iff in Hc' as [_ Hc'].
    destruct (IH c' Hc Hc' Hr Hr' Heq) as [-> ->]. done.
Qed.

Lemma slashed_app_inv (cs cs' : list string) (u : string) :
  Forall plain cs -> Forall plain cs' ->
  slashed cs' = slashed cs +:+ "/" +:+ u ->
  exists ds, cs' = cs ++ ds /\ slashed ds = "/" +:+ u.
Proof.
  revert cs'. induction cs as [|c cs IH]; intros cs' Hcs Hcs' Heq.
  - by exists cs'.
  - inversion Hcs as [|? ? Hc Hcs1]; subst.
    destruct cs' as [|c' cs1']; [done|].
    inversion Hcs' as [|? ? Hc' Hcs1']; subst.
    simpl in Heq. rewrite !str_app_cons, !str_app_nil_l in Heq.
    injection Heq as Heq. rewrite str_app_assoc in Heq.
    apply elem_app_inj in Heq as [-> Heq]; try (by apply plain_no_slash).
    + destruct (IH cs1' Hcs1 Hcs1' Heq) as (ds & -> & Hds). by exists ds.
    + apply slashed_head.
    + right. destruct (slashed_head cs) as [->|[r ->]]; [by eexists|].
      eexists. by rewrite str_app_cons.
Qed.


Lemma abs_path_root (cs : list string) :
  Forall plain cs -> abs_path cs = "/" -> cs = [].
Proof.
  intros Hcs Heq. destruct cs as [|c cs]; [done|]. exfalso.
  inversion Hcs as [|? ? Hc _]; subst.
  apply plain_head in Hc as (a & c0 & -> & Ha).
  rewrite abs_path_cons in Heq. done.
Qed.


(** A canonical path below [abs_path cs]: the elements of [cs] followed
    by more. *)
Lemma HasPrefix_abs_path_inv (cs cs' : list string) :
  Forall plain cs -> Forall plain cs' ->
  strings_HasPrefix (abs_path cs') (abs_path cs +:+ "/") = true ->
  cs <> [] /\ exists d ds, cs' = cs ++ d :: ds.
Proof.
  intros Hcs Hcs' [u Hu]%prefix_inv. rewrite str_app_assoc in Hu.
  destruct cs as [|c cs].
  - exfalso. destruct cs' as [|c' cs']; [done|].
    inversion Hcs' as [|? ? Hc' _]; subst.
    apply plain_head in Hc' as (a & c0 & -> & Ha).
    rewrite abs_path_cons in Hu. injection Hu as -> _. done.
  - split; [done|]. rewrite (abs_path_slashed (c :: cs)) in Hu by done.
    destruct cs' as [|c' cs'].
    { exfalso. inversion Hcs as [|? ? Hc _]; subst.
      apply plain_head in Hc as (a & c0 & -> & Ha). done. }
    rewrite (abs_path_slashed (c' :: cs')) in Hu by done.
    apply slashed_app_inv in Hu as (ds & -> & Hds); try done.
    destruct ds as [|d ds]; [done|]. by exists d, ds.
Qed.

Lemma HasPrefix_abs_path (cs : list string) (d : string) (ds : list string) :
  cs <> [] ->
  strings_HasPrefix (abs_path (cs ++ d :: ds)) (abs_path cs +:+ "/") = true.
Proof.
  intros Hcs. rewrite abs_path_app, (abs_path_slashed cs) by done.
  simpl slashed. rewrite <- (str_app_assoc (slashed cs)).
  apply prefix_app.
Qed.

Lemma slice_abs_path (cs : list string) (d : string) (ds : list string) :
  cs <> [] ->
  slice_from (String.length (abs_path cs) + 1) (abs_path (cs ++ d :: ds))
  = String.concat "/" (d :: ds).
Proof.
  intros Hcs. rewrite abs_path_app, (abs_path_slashed cs) by done.
  simpl slashed. rewrite <- (str_app_assoc (slashed cs)).
  replace (String.length (slashed cs) + 1)%nat
    with (String.length (slashed cs +:+ "/")) by (by rewrite str_length_app).
  by rewrite slice_from_app, concat_slashed.
Qed.

(** *** Lookup *)

Section Lookup.
Context {DB F : Type} `{DocumentStore DB} `{Fs F}.

Lemma GetDirDoc_not_root (c : Context DB F) (fileID : string) (wc : bool) :
  fileID <> RootFolderID ->
  GetDirDoc c fileID wc =
    match couchdb_GetDoc (db c) FsDocType fileID with
    | inl e =>
        (None, Some (if couchdb_IsNotFoundError e then ErrParentDoesNotExist
                     else CouchError e))
    | inr j =>
        if negb (String.eqb (j_type j) DirType)
        then (None, Some (OsError os_ErrNotExist))
        else if wc then
          let '(doc, err) := FetchFiles c (of_json j) in (Some doc, err)
        else (Some (of_json j), None)
    end.
Proof.
  intros Hne%String.eqb_neq. unfold GetDirDoc. by rewrite Hne.
Qed.

(** C6, as the code has it. For an identifier other than the root
    sentinel, [GetDirDoc] fails with [ErrParentDoesNotExist] (the
    ParentMissing of the taxonomy) when the store has no document with that
    identifier, and with [os.ErrNotExist] (NotFound) when the stored
    document is not of type "directory"; for the root sentinel it returns
    the synthetic root. *)
Theorem GetDirDoc_error_taxonomy (c : Context DB F) (fileID : string)
    (withChildren : bool) :
  (fileID = RootFolderID ->
     GetDirDoc c fileID withChildren = (Some getRootDirDoc, None))
  /\ (fileID <> RootFolderID ->
      forall e, couchdb_GetDoc (db c) FsDocType fileID = inl e ->
                couchdb_IsNotFoundError e = true ->
        GetDirDoc c fileID withChildren = (None, Some ErrParentDoesNotExist)
        /\ spec_kind ErrParentDoesNotExist = ParentMissing)
  /\ (fileID <> RootFolderID ->
      forall j, couchdb_GetDoc (db c) FsDocType fileID = inr j ->
                j_type j <> DirType ->
        GetDirDoc c fileID withChildren = (None, Some (OsError os_ErrNotExist))
        /\ spec_kind (OsError os_ErrNotExist) = NotFound).
Proof.
  split; [by intros ->|]. split.
  - intros Hne e He Hnf. rewrite GetDirDoc_not_root, He, Hnf; done.
  - intros Hne j Hj Ht%String.eqb_neq.
    rewrite GetDirDoc_not_root, Hj, Ht; done.
Qed.

End Lookup.

(** C8. For the root sentinel [GetDirDoc] returns the synthetic root at
    once, whatever the store and whatever [withChildren]: no children are
    fetched, the root comes back without children and without error, also
    from a store whose queries fail.  [withChildren] matters for the other
    identifiers only: "/docs" comes back with its child when it is set and
    without it when it is not. *)
Theorem GetDirDoc_root_never_fetches :
  (forall (DB F : Type) `{DocumentStore DB} `{Fs F} (c : Context DB F)
      (withChildren : bool),
      GetDirDoc c RootFolderID withChildren = (Some getRootDirDoc, None))
  /\ files getRootDirDoc = [] /\ dirs getRootDirDoc = []
  /\ GetDirDoc (mkContext unreachable (∅ : gset string)) RootFolderID true
     = (Some getRootDirDoc, None)
  /\ (GetDirDoc (mkContext unreachable (∅ : gset string)) "d1" true).2
     = Some (CouchError (couch_Other "connection refused"))
  /\ ObjID <$> dirs (returned (GetDirDoc docs_ctx "d1" true)) = ["d2"]
  /\ dirs (returned (GetDirDoc docs_ctx "d1" false)) = [].
Proof.
  split; [by intros|]. split; [reflexivity|]. split; [reflexivity|].
  split; [reflexivity|]. split; [reflexivity|].
  split; vm_compute; reflexivity.
Qed.

Lemma GetDirDoc_error_taxonomy_witness :
  let c := mkContext store_with_file (∅ : gset string) in
  GetDirDoc c RootFolderID true = (Some getRootDirDoc, None)
  /\ GetDirDoc c "nope" false = (None, Some ErrParentDoesNotExist)
  /\ GetDirDoc c "f1" false = (None, Some (OsError os_ErrNotExist)).
Proof.
  intros c.
  destruct (GetDirDoc_error_taxonomy c RootFolderID true) as (H1 & _ & _).
  destruct (GetDirDoc_error_taxonomy c "nope" false) as (_ & H2 & _).
  destruct (GetDirDoc_error_taxonomy c "f1" false) as (_ & _ & H3).
  split; [by apply H1|]. split.
  - by apply (H2 ltac:(done) couch_NotFound).
  - by eapply (H3 ltac:(done)); [vm_compute; reflexivity|].
Defined.

(** C6 as the specification states it fails: a missing document is
    reported as ParentMissing, not NotFound, and a document that is not a
    directory is reported as NotFound, not NotADirectory. *)
Lemma GetDirDoc_taxonomy_counterexample :
  let c := mkContext store_with_file (∅ : gset string) in
  "nope" <> RootFolderID /\ db c !! "nope" = None
  /\ (exists e, GetDirDoc c "nope" false = (None, Some e)
                /\ spec_kind e <> NotFound)
  /\ "f1" <> RootFolderID
  /\ (exists j, db c !! "f1" = Some j /\ j_type j <> DirType)
  /\ (exists e, GetDirDoc c "f1" false = (None, Some e)
                /\ spec_kind e <> NotADirectory).
Proof.
  intros c. split; [done|]. split; [done|]. split.
  { exists ErrParentDoesNotExist. done. }
  split; [done|]. split.
  { eexists. split; [vm_compute; reflexivity|done]. }
  exists (OsError os_ErrNotExist). done.
Qed.

(** *** Creation *)

Section Creation.
Context {DB F : Type} `{DocumentStore DB} `{Fs F}.

Lemma Context_eta (c : Context DB F) : mkContext (db c) (fs c) = c.
Proof. by destruct c. Qed.

(** C7. [CreateDirectory] fails with [os.ErrExist] (AlreadyExists) when
    the resolved path already has a physical entry, and then leaves the
    store as it was: no document is created.  When the physical directory
    was made and persisting the document fails, the directory just made is
    removed again and the error of the store is returned. *)
Theorem CreateDirectory_failures `{!FsContract F} (c : Context DB F)
    (doc : DirDoc) (pth : string) (parentDoc : DirDoc) :
  getFilePath c (Name doc) (FolderID doc) = inr (pth, parentDoc) ->
  (Stat (fs c) pth = None ->
     CreateDirectory c doc = (c, (doc, Some (OsError os_ErrExist)))
     /\ spec_kind (OsError os_ErrExist) = AlreadyExists)
  /\ (forall fs1 db1 e,
        Mkdir (fs c) pth 493 = (fs1, None) ->
        couchdb_CreateDoc (db c) FsDocType (to_json (set_Path doc pth))
          = (db1, inl e) ->
        CreateDirectory c doc
        = (mkContext db1 (Remove fs1 pth).1,
           (set_Path doc pth, Some (CouchError e)))).
Proof.
  intros Hp. unfold CreateDirectory. rewrite Hp. split.
  - intros Hs. rewrite (Mkdir_exists _ _ 493 Hs), Context_eta. done.
  - intros fs1 db1 e Hm Hc. rewrite Hm. unfold DocType. rewrite Hc.
    by destruct (Remove fs1 pth).
Qed.

End Creation.

Lemma CreateDirectory_failures_witness :
  (let c := mkContext (∅ : gmap string JSONDoc) ({[ "/"; "/docs" ]} : gset string) in
   CreateDirectory c (a_doc "docs" RootFolderID)
   = (c, (a_doc "docs" RootFolderID, Some (OsError os_ErrExist))))
  /\ (let c := mkContext unreachable ({[ "/" ]} : gset string) in
      CreateDirectory c (a_doc "docs" RootFolderID)
      = (mkContext unreachable {[ "/" ]},
         (set_Path (a_doc "docs" RootFolderID) "/docs",
          Some (CouchError (couch_Other "connection refused"))))).
Proof.
  split.
  - intros c.
    destruct (CreateDirectory_failures c (a_doc "docs" RootFolderID) "/docs"
                getRootDirDoc eq_refl) as [H1 _].
    apply H1. vm_compute. reflexivity.
  - intros c.
    destruct (CreateDirectory_failures c (a_doc "docs" RootFolderID) "/docs"
                getRootDirDoc eq_refl) as [_ H2].
    rewrite (H2 {[ "/docs"; "/" ]} unreachable (couch_Other "connection refused")).
    + vm_compute. reflexivity.
    + vm_compute. reflexivity.
    + reflexivity.
Defined.

(** *** Moves *)

Section Moves.
Context {DB F : Type} `{DocumentStore DB} `{Fs F}.

(** The document that [ModifyDirectoryMetadata] builds before it touches
    the file system or the store. *)
Lemma Modify_unfold (sch : Schedule) (now : Z) (c : Context DB F)
    (olddoc : DirDoc) (data : DocMetaAttributes.t) :
  ModifyDirectoryMetadata sch now c olddoc data =
  match modify_target c olddoc data with
  | inl err => (c, (None, Some err))
  | inr (folderID, name, pth, parent) =>
      let mdate := modify_mdate olddoc data in
      if mdate <? CreatedAt olddoc then (c, (None, Some ErrIllegalTime))
      else
        match NewDirDoc now name folderID (modify_tags olddoc data) parent
        with
        | (_, Some err) => (c, (None, Some err))
        | (None, None) => (c, (None, None))
        | (Some newdoc, None) =>
            let newdoc := modify_newdoc olddoc newdoc mdate pth in
            let '(fs1, err) :=
              if negb (String.eqb pth (Path olddoc))
              then safeRenameDirectory (Path olddoc) pth (fs c)
              else (fs c, None) in
            match err with
            | Some err => (mkContext (db c) fs1, (Some newdoc, Some err))
            | None =>
                match bulkUpdateDocsPath sch (mkContext (db c) fs1) olddoc pth
                with
                | (c2, Some err) => (c2, (Some newdoc, Some err))
                | (c2, None) =>
                    match couchdb_UpdateDoc (db c2) FsDocType
                            (to_json newdoc) with
                    | (db3, inl err) =>
                        (mkContext db3 (fs c2),
                         (Some newdoc, Some (CouchError err)))
                    | (db3, inr rev) =>
                        (mkContext db3 (fs c2),
                         (Some (SetRev newdoc rev), None))
                    end
                end
            end
        end
  end.
Proof.
  unfold ModifyDirectoryMetadata, modify_target.
  destruct (DocMetaAttributes.FolderID data) as [fid|];
    [destruct (negb (String.eqb fid (FolderID olddoc)));
     [destruct (getFilePath c (Name olddoc) fid) as [?|[? ?]]|]|];
    try reflexivity;
    destruct (negb (String.eqb (DocMetaAttributes.Name data) ""));
    reflexivity.
Qed.

Lemma NewDirDoc_inv (now : Z) (name folderID : string) (tags : list string)
    (par : option DirDoc) (r : option DirDoc) (e : option error) :
  NewDirDoc now name folderID tags par = (r, e) ->
  (r = None /\ e = Some ErrIllegalFilename /\
   checkFileName name = Some ErrIllegalFilename)
  \/ (e = None /\ checkFileName name = None /\
      exists d, r = Some d /\ Type_ d = DirType /\ Name d = name /\
                files d = [] /\ dirs d = [] /\
                FolderID d = (if String.eqb folderID "" then RootFolderID
                              else folderID)).
Proof.
  unfold NewDirDoc, checkFileName.
  destruct (String.eqb name "" || has_slash name); intros [= <- <-].
  - by left.
  - right. split; [done|]. split; [done|]. eexists. done.
Qed.





Lemma bulkUpdateDocsPath_go_error (oldpath newpath : string)
    (c : Context DB F) (child : DirDoc) :
  unit_error (bulkUpdateDocsPath_go oldpath newpath c child).2.
Proof.
  unfold bulkUpdateDocsPath_go. repeat (case_match; try done).
Qed.

Lemma bulkUpdateDocsPath_go_fs (oldpath newpath : string)
    (c : Context DB F) (child : DirDoc) :
  fs (bulkUpdateDocsPath_go oldpath newpath c child).1 = fs c.
Proof.
  unfold bulkUpdateDocsPath_go. repeat (case_match; try done).
Qed.

Lemma run_units_errors (oldpath newpath : string) (children : list DirDoc)
    (c : Context DB F) :
  Forall unit_error (run_units oldpath newpath c children).2
  /\ length (run_units oldpath newpath c children).2 = length children
  /\ fs (run_units oldpath newpath c children).1 = fs c.
Proof.
  revert c. induction children as [|child rest IH]; intros c; [done|].
  simpl.
  pose proof (bulkUpdateDocsPath_go_error oldpath newpath c child) as He.
  pose proof (bulkUpdateDocsPath_go_fs oldpath newpath c child) as Hf.
  destruct (bulkUpdateDocsPath_go oldpath newpath c child) as [c1 e].
  specialize (IH c1). destruct (run_units oldpath newpath c1 rest) as [c2 es].
  simpl in *. destruct IH as (IH1 & IH2 & IH3).
  split; [by constructor|]. split; [by rewrite IH2|]. by rewrite IH3.
Qed.

(** The receiving loop returns the last non-nil result, and nil when there
    is none. *)
Lemma receive_all_app (err : option error) (l1 l2 : list (option error)) :
  receive_all err (l1 ++ l2) = receive_all (receive_all err l1) l2.
Proof. unfold receive_all. by rewrite fold_left_app. Qed.

Lemma receive_all_elem (err : option error) (l : list (option error)) :
  receive_all err l = err \/ receive_all err l ∈ l.
Proof.
  revert err. induction l as [|e l IH]; intros err; [by left|].
  change (receive_all err (e :: l))
    with (receive_all (match e with Some _ => e | None => err end) l).
  destruct (IH (match e with Some _ => e | None => err end)) as [Hr|Hr].
  - rewrite Hr. destruct e; [right; by left|by left].
  - right. by right.
Qed.

Lemma receive_all_None (l : list (option error)) :
  receive_all None l = None <-> Forall (fun e => e = None) l.
Proof.
  induction l as [|e l IH] using rev_ind; [done|].
  rewrite receive_all_app, Forall_app, Forall_singleton. simpl.
  destruct e; [|by rewrite IH; tauto].
  split; [done|]. by intros [_ ?].
Qed.

Lemma receive_all_last (err : option error) (l : list (option error))
    (e : error) :
  receive_all err (l ++ [Some e]) = Some e.
Proof. by rewrite receive_all_app. Qed.

Lemma fan_out_error (sch : Schedule) (oldpath newpath : string)
    (c : Context DB F) (children : list DirDoc) :
  unit_error (fan_out sch oldpath newpath c children).2
  /\ fs (fan_out sch oldpath newpath c children).1 = fs c.
Proof.
  unfold fan_out.
  pose proof (run_units_errors oldpath newpath (commit_order sch children) c)
    as (He & _ & Hf).
  destruct (run_units oldpath newpath c (commit_order sch children))
    as [c1 results]. simpl in *. split; [|done].
  destruct (receive_all_elem None (receive_order sch results)) as [->|Hin];
    [done|].
  set (r := receive_all None (receive_order sch results)) in *.
  rewrite (receive_order_perm sch results) in Hin.
  by eapply Forall_forall in He.
Qed.

Lemma bulkUpdateDocsPath_error (sch : Schedule) (c : Context DB F)
    (olddoc : DirDoc) (newpath : string) :
  unit_error (bulkUpdateDocsPath sch c olddoc newpath).2
  /\ fs (bulkUpdateDocsPath sch c olddoc newpath).1 = fs c.
Proof.
  unfold bulkUpdateDocsPath.
  destruct (couchdb_FindDocs _ _ _) as [e|[|j children]]; try done.
  apply fan_out_error.
Qed.

End Moves.

Section MoveResults.
Context {DB F : Type} `{DocumentStore DB} `{Fs F}.

(** A successful call went through every step. *)
Lemma Modify_ok_inv (sch : Schedule) (now : Z) (c c' : Context DB F)
    (olddoc newdoc : DirDoc) (data : DocMetaAttributes.t) :
  ModifyDirectoryMetadata sch now c olddoc data = (c', (Some newdoc, None)) ->
  exists folderID name pth par nd fs1 c2 db3 rev,
    modify_target c olddoc data = inr (folderID, name, pth, par)
    /\ (modify_mdate olddoc data <? CreatedAt olddoc) = false
    /\ NewDirDoc now name folderID (modify_tags olddoc data) par
       = (Some nd, None)
    /\ (if negb (String.eqb pth (Path olddoc))
        then safeRenameDirectory (Path olddoc) pth (fs c)
        else (fs c, None)) = (fs1, None)
    /\ bulkUpdateDocsPath sch (mkContext (db c) fs1) olddoc pth = (c2, None)
    /\ couchdb_UpdateDoc (db c2) FsDocType
         (to_json (modify_newdoc olddoc nd (modify_mdate olddoc data) pth))
       = (db3, inr rev)
    /\ c' = mkContext db3 (fs c2)
    /\ newdoc = SetRev (modify_newdoc olddoc nd (modify_mdate olddoc data) pth)
                  rev.
Proof.
  rewrite Modify_unfold.
  destruct (modify_target c olddoc data) as [e|[[[folderID name] pth] par]]
    eqn:Ht; [done|].
  cbv zeta.
  destruct (modify_mdate olddoc data <? CreatedAt olddoc) eqn:Hd; [done|].
  destruct (NewDirDoc _ _ _ _ _) as [[nd|] [e|]] eqn:Hn; try done.
  destruct (if negb (String.eqb pth (Path olddoc)) then _ else _)
    as [fs1 [e|]] eqn:Hs; [done|].
  destruct (bulkUpdateDocsPath _ _ _ _) as [c2 [e|]] eqn:Hb; [done|].
  destruct (couchdb_UpdateDoc _ _ _) as [db3 [e|rev]] eqn:Hu; [done|].
  intros [= <- <-]. by exists folderID, name, pth, par, nd, fs1, c2, db3, rev.
Qed.





Lemma Modify_ok_fields (sch : Schedule) (now : Z) (c c' : Context DB F)
    (olddoc newdoc : DirDoc) (data : DocMetaAttributes.t) :
  ModifyDirectoryMetadata sch now c olddoc data = (c', (Some newdoc, None)) ->
  ObjID newdoc = ObjID olddoc /\ CreatedAt newdoc = CreatedAt olddoc
  /\ Type_ newdoc = DirType
  /\ files newdoc = files olddoc /\ dirs newdoc = dirs olddoc
  /\ Name newdoc <> ""
  /\ (DocMetaAttributes.Name data = "" -> Name newdoc = Name olddoc)
  /\ (DocMetaAttributes.Name data <> "" ->
      Name newdoc = DocMetaAttributes.Name data).
Proof.
  intros (folderID & name & pth & par & nd & fs1 & c2 & db3 & rev & Ht & _
          & Hn & _ & _ & _ & _ & ->)%Modify_ok_inv.
  apply NewDirDoc_inv in Hn as [(_ & [=] & _)|(_ & Hc & d & [= <-] & Hty & Hna & _)].
  simpl. repeat (split; [done|]).
  assert (Hname : name = if String.eqb (DocMetaAttributes.Name data) ""
                         then Name olddoc else DocMetaAttributes.Name data).
  { revert Ht. unfold modify_target.
    destruct (DocMetaAttributes.FolderID data) as [fid|];
      [destruct (negb (String.eqb fid (FolderID olddoc)));
       [destruct (getFilePath c (Name olddoc) fid) as [?|[? ?]]|]|];
      try done;
      destruct (String.eqb (DocMetaAttributes.Name data) ""); simpl;
      by intros [= <- <- <- <-]. }
  rewrite Hna. split.
  { intros ->. unfold checkFileName in Hc. done. }
  split.
  - intros He. by rewrite Hname, He.
  - intros He%String.eqb_neq. by rewrite Hname, He.
Qed.

End MoveResults.

(** *** The reference store *)

Lemma mem_UpdateDoc_ok (m m' : gmap string JSONDoc) (j : JSONDoc)
    (rev : string) :
  mem_UpdateDoc m FsDocType j = (m', inr rev) ->
  (exists stored, m !! j_id j = Some stored /\ j_rev stored = j_rev j)
  /\ rev = next_rev (j_rev j)
  /\ m' = <[j_id j := json_set_id_rev j (j_id j) rev]> m.
Proof.
  unfold mem_UpdateDoc. simpl.
  destruct (m !! j_id j) as [stored|] eqn:Hs; [|done].
  destruct (String.eqb_spec (j_rev stored) (j_rev j)) as [Hr|Hr]; [|done].
  intros [= <- <-]. split; [by exists stored|done].
Qed.

Lemma mem_UpdateDoc_stored (m : gmap string JSONDoc) (j stored : JSONDoc) :
  m !! j_id j = Some stored -> j_rev stored = j_rev j ->
  mem_UpdateDoc m FsDocType j
  = (<[j_id j := json_set_id_rev j (j_id j) (next_rev (j_rev j))]> m,
     inr (next_rev (j_rev j))).
Proof.
  intros Hs Hr. unfold mem_UpdateDoc. simpl. rewrite Hs.
  apply String.eqb_eq in Hr. by rewrite Hr.
Qed.

Lemma mem_UpdateDoc_conflict (m : gmap string JSONDoc) (j stored : JSONDoc) :
  m !! j_id j = Some stored -> j_rev stored <> j_rev j ->
  mem_UpdateDoc m FsDocType j = (m, inl couch_Conflict).
Proof.
  intros Hs Hr. unfold mem_UpdateDoc. simpl. rewrite Hs.
  apply String.eqb_neq in Hr. by rewrite Hr.
Qed.

Lemma mem_UpdateDoc_missing (m : gmap string JSONDoc) (j : JSONDoc) :
  m !! j_id j = None ->
  mem_UpdateDoc m FsDocType j = (m, inl couch_NotFound).
Proof. intros Hs. unfold mem_UpdateDoc. simpl. by rewrite Hs. Qed.

(** *** The safe move *)




(** *** The frame of a move *)



(** C10. In the update descriptor the empty string is the name that
    means "unchanged": a successful call with an empty new name returns a
    node with the name of the input node, a successful call with another
    new name returns a node with that name, and no successful call returns
    a node with the empty name. *)
Theorem ModifyDirectoryMetadata_empty_name :
  forall (DB F : Type) `{DocumentStore DB} `{Fs F} (sch : Schedule)
    (now : Z) (c c' : Context DB F) (olddoc newdoc : DirDoc)
    (data : DocMetaAttributes.t),
    ModifyDirectoryMetadata sch now c olddoc data
    = (c', (Some newdoc, None)) ->
    (DocMetaAttributes.Name data = "" -> Name newdoc = Name olddoc)
    /\ (DocMetaAttributes.Name data <> "" ->
        Name newdoc = DocMetaAttributes.Name data)
    /\ Name newdoc <> "".
Proof.
  intros DB F ? ? sch now c c' olddoc newdoc data Hok.
  apply Modify_ok_fields in Hok. tauto.
Qed.

Lemma ModifyDirectoryMetadata_empty_name_witness :
  let r := ModifyDirectoryMetadata in_order 200 docs_ctx (of_json docs_json)
             (DocMetaAttributes.mk "" None (Some ["x"]) (Some 150)) in
  r.2 = (Some (returned r.2), None) /\ Name (returned r.2) = "docs".
Proof.
  intros r.
  assert (E : r = (r.1, (Some (returned r.2), None)))
    by (vm_compute; reflexivity).
  destruct (ModifyDirectoryMetadata_empty_name _ _ _ _ _ _ _ _ _ E)
    as (Hn & _).
  split; [exact (f_equal snd E)|]. exact (Hn eq_refl).
Defined.

(** *** The units of the fan-out *)

Lemma path_Join_pair (a b : string) :
  a <> "" -> path_Join [a; b] = path_Clean (a +:+ "/" +:+ b).
Proof. intros Ha%String.eqb_neq. simpl. by rewrite Ha. Qed.



Section Units.
Context {DB F : Type} `{DocumentStore DB} `{Fs F}.



End Units.

(** On the reference store a unit writes the relocated document when the
    child is stored under the revision that was read, and fails without
    writing otherwise. *)
Lemma unit_mem_ok {F : Type} `{Fs F} (oldpath newpath : string)
    (c : Context (gmap string JSONDoc) F) (child : DirDoc) :
  unit_ok (db c) oldpath child ->
  bulkUpdateDocsPath_go oldpath newpath c child
  = (mkContext (<[ObjID child := relocated oldpath newpath (to_json child)]>
                  (db c)) (fs c), None).
Proof.
  intros (Hp & stored & Hs & Hr). unfold bulkUpdateDocsPath_go.
  rewrite Hp. simpl. unfold DocType.
  change (couchdb_UpdateDoc (db c) FsDocType ?j)
    with (mem_UpdateDoc (db c) FsDocType j).
  by erewrite mem_UpdateDoc_stored.
Qed.

Lemma unit_mem_fail {F : Type} `{Fs F} (oldpath newpath : string)
    (c : Context (gmap string JSONDoc) F) (child : DirDoc) :
  ~ unit_ok (db c) oldpath child ->
  exists e, bulkUpdateDocsPath_go oldpath newpath c child = (c, Some e).
Proof.
  intros Hno. unfold bulkUpdateDocsPath_go.
  destruct (strings_HasPrefix (Path child) (oldpath +:+ "/")) eqn:Hp;
    [|by eexists].
  simpl. unfold DocType.
  change (couchdb_UpdateDoc (db c) FsDocType ?j)
    with (mem_UpdateDoc (db c) FsDocType j).
  destruct (db c !! ObjID child) as [stored|] eqn:Hs.
  - destruct (decide (j_rev stored = ObjRev child)) as [Hr|Hr].
    + exfalso. apply Hno. split; [done|]. by exists stored.
    + erewrite mem_UpdateDoc_conflict by done.
      rewrite Context_eta. by eexists.
  - rewrite mem_UpdateDoc_missing by done. rewrite Context_eta. by eexists.
Qed.

Lemma unit_ok_insert (m : gmap string JSONDoc) (oldpath id : string)
    (j : JSONDoc) (child : DirDoc) :
  ObjID child <> id ->
  unit_ok (<[id := j]> m) oldpath child <-> unit_ok m oldpath child.
Proof. intros Hne. unfold unit_ok. by rewrite lookup_insert_ne. Qed.

Lemma unit_ok_dec (m : gmap string JSONDoc) (oldpath : string)
    (child : DirDoc) :
  unit_ok m oldpath child \/ ~ unit_ok m oldpath child.
Proof.
  unfold unit_ok.
  destruct (strings_HasPrefix (Path child) (oldpath +:+ "/"));
    [|right; by intros [? _]].
  destruct (m !! ObjID child) as [stored|];
    [|right; by intros (_ & ? & ? & _)].
  destruct (decide (j_rev stored = ObjRev child)) as [Hr|Hr].
  - left. split; [done|]. by exists stored.
  - right. intros (_ & ? & [= <-] & ?). done.
Qed.

(** The store after the units have run, whatever their order: the
    children whose unit succeeds are relocated, everything else is as
    before. *)
Lemma run_units_mem {F : Type} `{Fs F} (oldpath newpath : string)
    (children : list DirDoc) (c : Context (gmap string JSONDoc) F) :
  NoDup (ObjID <$> children) ->
  let r := run_units oldpath newpath c children in
  (forall child, child ∈ children ->
     (unit_ok (db c) oldpath child ->
      db r.1 !! ObjID child
      = Some (relocated oldpath newpath (to_json child)))
     /\ (~ unit_ok (db c) oldpath child ->
         db r.1 !! ObjID child = db c !! ObjID child))
  /\ (forall id, id ∉ ObjID <$> children -> db r.1 !! id = db c !! id)
  /\ (Forall (unit_ok (db c) oldpath) children ->
      Forall (fun e => e = None) r.2)
  /\ (Forall (fun e => e = None) r.2 ->
      Forall (unit_ok (db c) oldpath) children).
Proof.
  revert c. induction children as [|child rest IH]; intros c Hnd.
  { simpl. split; [by intros ? ?%elem_of_nil|done]. }
  rewrite fmap_cons in Hnd. apply NoDup_cons in Hnd as [Hni Hnd].
  cbv zeta. simpl run_units.
  destruct (unit_ok_dec (db c) oldpath child) as [Hok|Hno].
  - rewrite (unit_mem_ok _ newpath _ _ Hok).
    set (c1 := mkContext _ (fs c)).
    specialize (IH c1 Hnd). cbv zeta in IH.
    destruct (run_units oldpath newpath c1 rest) as [c2 es]. simpl in *.
    destruct IH as (IH1 & IH2 & IH3 & IH4).
    assert (Hrest : forall x, x ∈ rest -> ObjID x <> ObjID child).
    { intros x Hx Heq. apply Hni. rewrite <- Heq.
      by apply list_elem_of_fmap_2. }
    split; [|split; [|split]].
    + intros x [->|Hx]%elem_of_cons.
      * split; [|done]. intros _. rewrite IH2 by done.
        by rewrite lookup_insert_eq.
      * destruct (IH1 x Hx) as [IHa IHb].
        rewrite unit_ok_insert in IHa, IHb by by apply Hrest.
        rewrite lookup_insert_ne in IHb by (by apply not_eq_sym, Hrest).
        done.
    + intros id [Hid Hir]%not_elem_of_cons. rewrite IH2 by done.
      by rewrite lookup_insert_ne.
    + intros [_ Hall]%Forall_cons. constructor; [done|]. apply IH3.
      rewrite Forall_forall in Hall |- *. intros x Hx.
      rewrite unit_ok_insert; [by apply Hall|by apply Hrest].
    + intros [_ Hall]%Forall_cons. constructor; [done|].
      specialize (IH4 Hall). rewrite Forall_forall in IH4 |- *.
      intros x Hx. specialize (IH4 x Hx).
      rewrite unit_ok_insert in IH4; [done|by apply Hrest].
  - destruct (unit_mem_fail _ newpath _ _ Hno) as [e ->].
    specialize (IH c Hnd). cbv zeta in IH.
    destruct (run_units oldpath newpath c rest) as [c2 es]. simpl in *.
    destruct IH as (IH1 & IH2 & IH3 & IH4).
    split; [|split; [|split]].
    + intros x [->|Hx]%elem_of_cons; [|by apply IH1].
      split; [done|]. intros _. by apply IH2.
    + intros id [Hid Hir]%not_elem_of_cons. by apply IH2.
    + by intros [? _]%Forall_cons.
    + by intros [? _]%Forall_cons.
Qed.



(** *** The fan-out *)

Lemma receive_all_nones (err : option error) (l : list (option error)) :
  Forall (fun e => e = None) l -> receive_all err l = err.
Proof.
  revert err. induction l as [|e l IH]; intros err Hl; [done|].
  inversion Hl; subst. simpl. by apply IH.
Qed.

Section FanOut.
Context {DB F : Type} `{DocumentStore DB} `{Fs F}.

Lemma fan_out_result (sch : Schedule) (oldpath newpath : string)
    (c : Context DB F) (children : list DirDoc) :
  let run := run_units oldpath newpath c (commit_order sch children) in
  let r := fan_out sch oldpath newpath c children in
  r.1 = run.1 /\ length run.2 = length children
  /\ (r.2 = None <-> Forall (fun e => e = None) run.2)
  /\ (forall e, r.2 = Some e -> Some e ∈ run.2)
  /\ (forall l1 e l2,
        receive_order sch run.2 = l1 ++ Some e :: l2 ->
        Forall (fun e => e = None) l2 -> r.2 = Some e).
Proof.
  cbv zeta. unfold fan_out.
  pose proof (run_units_errors oldpath newpath (commit_order sch children) c)
    as (_ & Hlen & _).
  destruct (run_units oldpath newpath c (commit_order sch children))
    as [c1 results]. simpl in *.
  split; [done|]. split.
  { rewrite Hlen. apply Permutation_length, commit_order_perm. }
  split; [|split].
  - rewrite receive_all_None, !Forall_forall.
    split; intros Hall e He; apply Hall.
    + by rewrite (receive_order_perm sch results).
    + by rewrite (receive_order_perm sch results) in He.
  - intros e He.
    destruct (receive_all_elem None (receive_order sch results)) as [Hr|Hin];
      [congruence|].
    rewrite He in Hin. by rewrite (receive_order_perm sch results) in Hin.
  - intros l1 e l2 -> Hl2.
    rewrite receive_all_app. simpl. by apply receive_all_nones.
Qed.

End FanOut.

Lemma fan_out_mem {F : Type} `{Fs F} (sch : Schedule)
    (oldpath newpath : string) (c : Context (gmap string JSONDoc) F)
    (children : list DirDoc) :
  NoDup (ObjID <$> children) ->
  let r := fan_out sch oldpath newpath c children in
  (forall child, child ∈ children -> unit_ok (db c) oldpath child ->
     db r.1 !! ObjID child = Some (relocated oldpath newpath (to_json child)))
  /\ (forall child, child ∈ children -> ~ unit_ok (db c) oldpath child ->
      db r.1 !! ObjID child = db c !! ObjID child)
  /\ (forall id, id ∉ ObjID <$> children -> db r.1 !! id = db c !! id)
  /\ (r.2 = None <-> Forall (unit_ok (db c) oldpath) children)
  /\ fs r.1 = fs c.
Proof.
  intros Hnd. cbv zeta.
  pose proof (fan_out_result sch oldpath newpath c children)
    as (H1 & _ & H3 & _).
  pose proof (fan_out_error sch oldpath newpath c children) as [_ Hfs].
  cbv zeta in H1, H3. rewrite H1, H3.
  assert (Hnd' : NoDup (ObjID <$> commit_order sch children)).
  { by rewrite (commit_order_perm sch children). }
  pose proof (run_units_mem oldpath newpath _ c Hnd') as (R1 & R2 & R3 & R4).
  cbv zeta in R1, R2, R3, R4.
  split; [|split; [|split; [|split]]].
  - intros child Hin. apply R1. by rewrite (commit_order_perm sch children).
  - intros child Hin. apply R1. by rewrite (commit_order_perm sch children).
  - intros id Hid. apply R2. by rewrite (commit_order_perm sch children).
  - rewrite <- (commit_order_perm sch children) at 2. split; [apply R4|apply R3].
  - by rewrite <- H1.
Qed.

(** C4, as the code has it. The fan-out runs every unit to its end,
    whatever the other units return, and receives one result from each
    before it returns.  Its result is nil exactly when every unit
    succeeded; otherwise it is the error of one of the failed units, the
    one whose result was received last, and the other failures are
    dropped.  On the reference store the children whose unit succeeded
    stay relocated when other units fail, and the children whose unit
    failed, like every other document, are as before. *)
Theorem fan_out_failures :
  (forall (DB F : Type) `{DocumentStore DB} `{Fs F} (sch : Schedule)
      (oldpath newpath : string) (c : Context DB F)
      (children : list DirDoc),
      let run := run_units oldpath newpath c (commit_order sch children) in
      let r := fan_out sch oldpath newpath c children in
      r.1 = run.1 /\ length run.2 = length children
      /\ (r.2 = None <-> Forall (fun e => e = None) run.2)
      /\ (forall e, r.2 = Some e -> Some e ∈ run.2)
      /\ (forall l1 e l2,
            receive_order sch run.2 = l1 ++ Some e :: l2 ->
            Forall (fun e => e = None) l2 -> r.2 = Some e))
  /\ (forall (F : Type) `{Fs F} (sch : Schedule) (oldpath newpath : string)
        (c : Context (gmap string JSONDoc) F) (children : list DirDoc),
      NoDup (ObjID <$> children) ->
      let r := fan_out sch oldpath newpath c children in
      (forall child, child ∈ children -> unit_ok (db c) oldpath child ->
         db r.1 !! ObjID child
         = Some (relocated oldpath newpath (to_json child)))
      /\ (forall child, child ∈ children -> ~ unit_ok (db c) oldpath child ->
          db r.1 !! ObjID child = db c !! ObjID child)
      /\ (forall id, id ∉ ObjID <$> children -> db r.1 !! id = db c !! id)
      /\ (r.2 = None <-> Forall (unit_ok (db c) oldpath) children)
      /\ fs r.1 = fs c).
Proof.
  split.
  - intros. apply fan_out_result.
  - intros. by apply fan_out_mem.
Qed.

Lemma fan_out_failures_witness :
  let children := [photos_stale; videos_moved; of_json music_json] in
  let r := fan_out in_order "/docs" "/archive" busy_ctx children in
  r.2 = Some (Errorf "Child has wrong base directory")
  /\ db r.1 !! "d3" = Some (relocated "/docs" "/archive" music_json)
  /\ db r.1 !! "d2" = Some photos_json
  /\ db r.1 !! "d1" = Some docs_json.
Proof.
  intros children r.
  destruct fan_out_failures as [H1 H2].
  destruct (H1 (gmap string JSONDoc) (gset string) MemCouch MemMapFs
              in_order "/docs" "/archive" busy_ctx children)
    as (_ & _ & _ & _ & Hlast).
  destruct (H2 (gset string) MemMapFs in_order "/docs" "/archive" busy_ctx
              children)
    as (Hok & Hno & Hother & _).
  { apply (bool_decide_unpack _). by vm_compute. }
  split; [|split; [|split]].
  - apply (Hlast [Some (CouchError couch_Conflict)] _ [None]);
      [by vm_compute|by repeat constructor].
  - apply (Hok (of_json music_json)); [by repeat constructor|].
    split; [by vm_compute|]. by exists music_json.
  - apply (Hno photos_stale); [by repeat constructor|].
    intros (_ & stored & Hs & Hr). vm_compute in Hs.
    injection Hs as <-. done.
  - apply Hother. apply (bool_decide_unpack _). by vm_compute.
Defined.

(** C4 as the specification states it fails: the result of the fan-out is
    not an aggregate of the failures of its units.  Of two failed units
    only the one received last is reported (the other schedule reports the
    other one), and the same result comes back when only one of them has
    failed; meanwhile the third child is relocated. *)
Lemma fan_out_not_aggregated_counterexample :
  let children := [photos_stale; videos_moved; of_json music_json] in
  (run_units "/docs" "/archive" busy_ctx children).2
  = [Some (CouchError couch_Conflict);
     Some (Errorf "Child has wrong base directory"); None]
  /\ (fan_out in_order "/docs" "/archive" busy_ctx children).2
     = Some (Errorf "Child has wrong base directory")
  /\ (fan_out last_first "/docs" "/archive" busy_ctx children).2
     = Some (CouchError couch_Conflict)
  /\ (fan_out in_order "/docs" "/archive" busy_ctx
        [videos_moved; of_json music_json]).2
     = (fan_out in_order "/docs" "/archive" busy_ctx children).2
  /\ spec_kind (Errorf "Child has wrong base directory") <> PartialFailure
  /\ spec_kind (CouchError couch_Conflict) <> PartialFailure
  /\ db (fan_out in_order "/docs" "/archive" busy_ctx children).1 !! "d3"
     = Some (relocated "/docs" "/archive" music_json).
Proof. by vm_compute. Qed.

(** *** The fan-out over the reference store *)

Lemma to_json_of_json (j : JSONDoc) : to_json (of_json j) = j.
Proof. by destruct j. Qed.

Lemma NoDup_fmap_filter {A B : Type} (f : A -> B) (P : A -> bool)
    (l : list A) :
  NoDup (f <$> l) -> NoDup (f <$> List.filter P l).
Proof.
  induction l as [|x l IH]; [done|]. rewrite fmap_cons.
  intros [Hx Hl]%NoDup_cons. simpl. destruct (P x); [|by apply IH].
  rewrite fmap_cons. apply NoDup_cons. split; [|by apply IH].
  intros (y & Hy & Hin)%list_elem_of_fmap. apply Hx.
  apply list_elem_of_fmap. exists y. split; [done|].
  apply list_elem_of_In, List.filter_In in Hin as [Hin _].
  by apply list_elem_of_In.
Qed.

Lemma well_formed_keyed (m : gmap string JSONDoc) : well_formed m -> keyed m.
Proof. intros Hwf id d Hd. by apply Hwf. Qed.

Lemma found_below (m : gmap string JSONDoc) (pfx : string) :
  mem_FindDocs m FsDocType (mkFindRequest (mango_StartWith "path" pfx) 0)
  = inr (List.filter (fun j => strings_HasPrefix (j_path j) pfx)
           (map_to_list m).*2).
Proof. reflexivity. Qed.

Lemma found_below_elem (m : gmap string JSONDoc) (pfx : string) (j : JSONDoc) :
  j ∈ List.filter (fun j => strings_HasPrefix (j_path j) pfx)
        (map_to_list m).*2
  <-> strings_HasPrefix (j_path j) pfx = true /\ exists id, m !! id = Some j.
Proof.
  rewrite list_elem_of_In, List.filter_In, <- list_elem_of_In.
  rewrite list_elem_of_fmap. split.
  - intros [([id d] & -> & Hin%elem_of_map_to_list) Hp]. eauto.
  - intros [Hp [id Hid]]. split; [|done]. exists (id, j).
    split; [done|]. by apply elem_of_map_to_list.
Qed.

Lemma found_below_NoDup (m : gmap string JSONDoc) (pfx : string) :
  keyed m ->
  NoDup (j_id <$> List.filter (fun j => strings_HasPrefix (j_path j) pfx)
                    (map_to_list m).*2).
Proof.
  intros Hk. apply NoDup_fmap_filter.
  replace (j_id <$> (map_to_list m).*2) with ((map_to_list m).*1);
    [apply NoDup_fst_map_to_list|].
  rewrite <- list_fmap_compose. apply list_fmap_ext.
  intros i [id d] Hin%list_elem_of_lookup_2%elem_of_map_to_list. simpl.
  symmetry. by apply Hk.
Qed.

Lemma fan_out_nil {DB F : Type} `{DocumentStore DB} `{Fs F} (sch : Schedule)
    (oldpath newpath : string) (c : Context DB F) :
  fan_out sch oldpath newpath c [] = (c, None).
Proof.
  unfold fan_out.
  rewrite (proj1 (Permutation_nil_r _) (commit_order_perm sch [])). simpl.
  by rewrite (proj1 (Permutation_nil_r _) (receive_order_perm sch [])).
Qed.

Lemma bulkUpdateDocsPath_mem {F : Type} `{Fs F} (sch : Schedule)
    (m : gmap string JSONDoc) (f : F) (olddoc : DirDoc) (newpath : string) :
  keyed m ->
  bulkUpdateDocsPath sch (mkContext m f) olddoc newpath
  = (mkContext
       (relocate_below (path_Clean (Path olddoc)) newpath <$> m) f, None).
Proof.
  intros Hk. unfold bulkUpdateDocsPath.
  set (oldpath := path_Clean (Path olddoc)).
  change (couchdb_FindDocs (db (mkContext m f)) FsDocType ?r)
    with (mem_FindDocs m FsDocType r).
  rewrite found_below.
  set (l := List.filter _ _).
  transitivity (fan_out sch oldpath newpath (mkContext m f) (of_json <$> l)).
  { destruct l; [by rewrite fan_out_nil|done]. }
  assert (Hnd : NoDup (ObjID <$> (of_json <$> l))).
  { rewrite <- list_fmap_compose. by apply found_below_NoDup. }
  assert (Hall : Forall (unit_ok m oldpath) (of_json <$> l)).
  { apply Forall_fmap, Forall_forall.
    intros j [Hp [id Hid]]%found_below_elem. split; [done|].
    exists j. simpl. by rewrite (Hk _ _ Hid). }
  pose proof (fan_out_mem sch oldpath newpath (mkContext m f) _ Hnd)
    as (Hok & _ & Hother & Hres & Hfs).
  cbv zeta in *. apply Hres in Hall. simpl in *.
  destruct (fan_out sch oldpath newpath (mkContext m f) (of_json <$> l))
    as [[m' f'] e]. simpl in *. subst e f'. do 2 f_equal.
  apply map_eq. intros id. rewrite lookup_fmap.
  destruct (m !! id) as [j|] eqn:Hj; simpl.
  - unfold relocate_below.
    destruct (strings_HasPrefix (j_path j) (oldpath +:+ "/")) eqn:Hp.
    + assert (Hin : j ∈ l) by (apply found_below_elem; eauto).
      assert (Hu : unit_ok m oldpath (of_json j)).
      { split; [done|]. exists j. simpl. by rewrite (Hk _ _ Hj). }
      pose proof (Hok (of_json j) (list_elem_of_fmap_2 _ _ _ Hin) Hu) as Hx.
      simpl in Hx. rewrite (Hk _ _ Hj), to_json_of_json in Hx. done.
    + rewrite Hother; [done|].
      rewrite <- list_fmap_compose.
      intros (j' & Hid & [Hp' [id' Hid']]%found_below_elem)%list_elem_of_fmap.
      simpl in Hid. rewrite (Hk _ _ Hid') in Hid. subst id'.
      rewrite Hj in Hid'. injection Hid' as <-. congruence.
  - rewrite Hother; [done|].
    rewrite <- list_fmap_compose.
    intros (j' & Hid & [Hp' [id' Hid']]%found_below_elem)%list_elem_of_fmap.
    simpl in Hid. rewrite (Hk _ _ Hid') in Hid. subst id'. congruence.
Qed.

(** *** The path invariant *)

Lemma parent_path_inv (m : gmap string JSONDoc) (folderID p : string) :
  parent_path m folderID = Some p ->
  (folderID = RootFolderID /\ p = "/")
  \/ (folderID <> RootFolderID /\
      exists q, m !! folderID = Some q /\ j_type q = DirType /\ j_path q = p).
Proof.
  unfold parent_path.
  destruct (String.eqb_spec folderID RootFolderID) as [->|Hne].
  - intros [= <-]. by left.
  - destruct (m !! folderID) as [q|]; [|done].
    destruct (String.eqb_spec (j_type q) DirType) as [Ht|]; [|done].
    intros [= <-]. right. split; [done|]. by exists q.
Qed.



Lemma parent_path_elems (m : gmap string JSONDoc) (folderID p : string) :
  well_formed m -> parent_path m folderID = Some p ->
  exists qs, Forall plain qs /\ p = abs_path qs.
Proof.
  intros Hwf [[_ ->]|(_ & q & Hq & Ht & <-)]%parent_path_inv.
  - by exists [].
  - destruct (Hwf _ _ Hq) as (_ & _ & Hd). destruct (Hd Ht) as [_ Hc].
    by apply cleaned_abs_elems.
Qed.



Lemma relocate_below_type (oldpath newpath : string) (j : JSONDoc) :
  j_type (relocate_below oldpath newpath j) = j_type j
  /\ j_name (relocate_below oldpath newpath j) = j_name j
  /\ j_folder_id (relocate_below oldpath newpath j) = j_folder_id j
  /\ j_id (relocate_below oldpath newpath j) = j_id j.
Proof. unfold relocate_below. by case_match. Qed.

Lemma relocate_below_out (oldpath newpath : string) (j : JSONDoc) :
  strings_HasPrefix (j_path j) (oldpath +:+ "/") = false ->
  relocate_below oldpath newpath j = j.
Proof. intros Hp. unfold relocate_below. by rewrite Hp. Qed.

Lemma relocate_below_path (ocs ncs : list string) (d : string)
    (ds : list string) (j : JSONDoc) :
  ocs <> [] -> ncs <> [] -> Forall plain ncs -> Forall plain (d :: ds) ->
  j_path j = abs_path (ocs ++ d :: ds) ->
  j_path (relocate_below (abs_path ocs) (abs_path ncs) j)
  = abs_path (ncs ++ d :: ds).
Proof.
  intros Ho Hn Hncs Hds Hj. unfold relocate_below.
  rewrite Hj, HasPrefix_abs_path by done. unfold relocated. cbn [j_path].
  rewrite Hj, slice_abs_path by done.
  rewrite path_Join_pair by (by destruct ncs).
  by apply Clean_abs_path_elems.
Qed.



(** *** The operations keep the path invariant *)

Section Invariant.
Context {F : Type} `{Fs F}.

Lemma GetDirDoc_mem (c : Context (gmap string JSONDoc) F) (fileID : string)
    (P : DirDoc) :
  GetDirDoc c fileID false = (Some P, None) ->
  parent_path (db c) fileID = Some (Path P)
  /\ (fileID <> RootFolderID -> db c !! fileID = Some (to_json P)).
Proof.
  unfold GetDirDoc, parent_path.
  destruct (String.eqb_spec fileID RootFolderID) as [->|Hne].
  { intros [= <-]. done. }
  change (couchdb_GetDoc (db c) FsDocType fileID)
    with (mem_GetDoc (db c) FsDocType fileID).
  unfold mem_GetDoc. simpl.
  destruct (db c !! fileID) as [q|]; [|done]. simpl.
  destruct (String.eqb (j_type q) DirType); [|done]. simpl.
  intros [= <-]. by rewrite to_json_of_json.
Qed.

Lemma getFilePath_mem (c : Context (gmap string JSONDoc) F)
    (name folderID pth : string) (P : DirDoc) :
  getFilePath c name folderID = inr (pth, P) ->
  parent_path (db c) folderID = Some (Path P)
  /\ pth = path_Clean (Path P +:+ "/" +:+ name).
Proof.
  unfold getFilePath.
  destruct (GetDirDoc c folderID false) as [[P'|] [e|]] eqn:Hg;
    try (repeat case_match; done).
  destruct (checkFileName name); [done|]. intros [= <- <-].
  by apply GetDirDoc_mem in Hg as [-> _].
Qed.






End Invariant.

(** *** The operations keep the store well formed *)

Section WellFormed.
Context {F : Type} `{Fs F}.




End WellFormed.



Lemma docs_store_lookup (id : string) (d : JSONDoc) :
  docs_store !! id = Some d ->
  (id = "d1" /\ d = docs_json) \/ (id = "d2" /\ d = photos_json).
Proof.
  unfold docs_store. intros [[<- <-]|[_ Hl]]%lookup_insert_Some; [by left|].
  apply lookup_singleton_Some in Hl as [<- <-]. by right.
Qed.

Lemma docs_store_well_formed : well_formed docs_store.
Proof.
  intros id d [[-> ->]|[-> ->]]%docs_store_lookup; by vm_compute.
Qed.





(** C5 on the code.  A call of [ModifyDirectoryMetadata] that only adds a
    tag leaves the path as it is and renames nothing, and still runs the
    fan-out: the document of the child "/docs/photos" is written again,
    under a new revision. *)
Theorem tags_only_update_rewrites_descendants :
  let r := ModifyDirectoryMetadata in_order 200 docs_ctx (of_json docs_json)
             (add_tags ["x"]) in
  r.2 = (Some (returned r.2), None) /\ Path (returned r.2) = "/docs"
  /\ fs r.1 = docs_tree
  /\ docs_store !! "d2" = Some photos_json
  /\ db r.1 !! "d2" = Some (relocated "/docs" "/docs" photos_json)
  /\ j_rev (relocated "/docs" "/docs" photos_json) <> j_rev photos_json
  /\ db r.1 !! "d2" <> docs_store !! "d2".
Proof.
  cbv zeta.
  split; [vm_compute; reflexivity|]. split; [vm_compute; reflexivity|].
  split; [vm_compute; reflexivity|]. split; [vm_compute; reflexivity|].
  split; [vm_compute; reflexivity|].
  split; vm_compute; discriminate.
Qed.

(** The directory that is moved has to be the only one with its path: in
    a store with two directories at "/docs", a successful rename of the
    first one relocates the child of the second one, and the invariant is
    lost. *)
Lemma twin_store_lookup (id : string) (d : JSONDoc) :
  twin_store !! id = Some d ->
  (id = "d1" /\ d = docs_json) \/ (id = "d9" /\ d = twin_json)
  \/ (id = "d2" /\ d = twin_photos_json).
Proof.
  unfold twin_store. intros [[<- <-]|[_ Hl]]%lookup_insert_Some; [by left|].
  apply lookup_insert_Some in Hl as [[<- <-]|[_ Hl]]; [right; by left|].
  apply lookup_singleton_Some in Hl as [<- <-]. right. by right.
Qed.

Example unique_path_needed :
  well_formed twin_store /\ path_invariant twin_store
  /\ ~ unique_path twin_store "d1" "/docs"
  /\ (let r := ModifyDirectoryMetadata in_order 200 twin_ctx
                 (of_json docs_json) (rename_to "archive") in
      r.2.2 = None
      /\ db r.1 !! "d2"
         = Some (relocated "/docs" "/archive" twin_photos_json)
      /\ db r.1 !! "d9" = Some twin_json
      /\ ~ path_invariant (db r.1)).
Proof.
  split; [|split; [|split]].
  - intros id d [[-> ->]|[[-> ->]|[-> ->]]]%twin_store_lookup;
      (split; [reflexivity|]; split; [discriminate|]; intros _;
       split; [|split]; vm_compute; reflexivity).
  - intros id d [[-> ->]|[[-> ->]|[-> ->]]]%twin_store_lookup _.
    + by exists "/".
    + by exists "/".
    + by exists "/docs".
  - intros Hu. by specialize (Hu "d9" twin_json eq_refl eq_refl eq_refl).
  - intros r. split; [vm_compute; reflexivity|].
    split; [vm_compute; reflexivity|]. split; [vm_compute; reflexivity|].
    intros Hinv.
    destruct (Hinv "d2" (relocated "/docs" "/archive" twin_photos_json))
      as (pp & Hpp & Hpath); [vm_compute; reflexivity|reflexivity|].
    vm_compute in Hpp. injection Hpp as <-. vm_compute in Hpath.
    discriminate Hpath.
Qed.

(** ** Further properties of the directory code *)

(** *** The JSON-API view *)

(** The two loops of [Relationships] fill the slots of [data] from the
    left: after [done] entries, a loop over [rs] writes them into the next
    slots. *)
Lemma Relationships_put_fold {A : Type}
    (f : A -> jsonapi.ResourceIdentifier) (children : list A)
    (filled : list jsonapi.ResourceIdentifier) (k : nat) :
  (length children <= k)%nat ->
  fold_left (fun acc child => Relationships_put acc (f child)) children
    (filled ++ replicate k (jsonapi.mkResourceIdentifier "" ""),
     length filled)
  = (filled ++ (f <$> children)
       ++ replicate (k - length children)
            (jsonapi.mkResourceIdentifier "" ""),
     (length filled + length children)%nat).
Proof.
  revert filled k.
  induction children as [|x children IH]; intros filled k Hk; simpl in *.
  { by rewrite Nat.sub_0_r, Nat.add_0_r. }
  destruct k as [|k]; [lia|].
  unfold Relationships_put at 2. cbn [fst snd].
  rewrite insert_app_r_alt by done. rewrite Nat.sub_diag. simpl.
  replace (filled ++ f x :: replicate k (jsonapi.mkResourceIdentifier "" ""))
    with ((filled ++ [f x])
            ++ replicate k (jsonapi.mkResourceIdentifier "" ""))
    by (by rewrite <- app_assoc).
  replace (S (length filled)) with (length (filled ++ [f x]))
    by (rewrite length_app; simpl; lia).
  rewrite IH by lia. rewrite <- app_assoc, length_app. simpl.
  f_equal. lia.
Qed.

Lemma Relationships_contents_eq (d : DirDoc) :
  Relationships_contents d
  = ((fun child => jsonapi.mkResourceIdentifier (ID child) FsDocType)
       <$> dirs d)
    ++ ((fun child => jsonapi.mkResourceIdentifier (FileDoc_ID child) FsDocType)
          <$> files d).
Proof.
  unfold Relationships_contents. cbv zeta.
  pose proof (Relationships_put_fold
    (fun child => jsonapi.mkResourceIdentifier (ID child) (DocType child))
    (dirs d) [] (length (files d) + length (dirs d))) as H1.
  simpl in H1. rewrite H1 by lia. clear H1.
  replace (length (files d) + length (dirs d) - length (dirs d))%nat
    with (length (files d)) by lia.
  pose proof (Relationships_put_fold
    (fun child => jsonapi.mkResourceIdentifier (FileDoc_ID child)
                    (FileDoc_DocType child))
    (files d)
    ((fun child => jsonapi.mkResourceIdentifier (ID child) (DocType child))
       <$> dirs d)
    (length (files d))) as H2.
  rewrite length_fmap in H2. rewrite H2 by lia.
  rewrite Nat.sub_diag. simpl. by rewrite app_nil_r.
Qed.

(** X1. The "contents" relationship of a directory lists one resource
    identifier per loaded child, the sub-directories first and the files
    after them, each in the order it was loaded and each of the common
    document type: the two loops fill every slot of the slice they
    allocate and write none twice. *)
Theorem Relationships_contents_children (d : DirDoc) :
  Relationships d !! "contents"
  = Some (jsonapi.mkRelationship None
            (jsonapi.Resources
               (((fun child => jsonapi.mkResourceIdentifier (ID child) FsDocType)
                   <$> dirs d)
                ++ ((fun child =>
                       jsonapi.mkResourceIdentifier (FileDoc_ID child)
                         FsDocType)
                      <$> files d))))
  /\ length (Relationships_contents d)
     = (length (dirs d) + length (files d))%nat.
Proof.
  split.
  - unfold Relationships. cbv zeta.
    rewrite lookup_insert_ne by done. rewrite lookup_singleton_eq.
    by rewrite Relationships_contents_eq.
  - rewrite Relationships_contents_eq.
    by rewrite length_app, !length_fmap.
Qed.

Lemma Included_eq (d : DirDoc) :
  Included d = (DirObject <$> dirs d) ++ (FileObject <$> files d).
Proof.
  unfold Included. cbv zeta.
  assert (H1 : forall (l : list DirDoc) acc,
    fold_left (fun acc child => acc ++ [DirObject child]) l acc
    = acc ++ (DirObject <$> l)).
  { induction l as [|x l IH]; intros acc; simpl;
      [by rewrite app_nil_r|]. rewrite IH. by rewrite <- app_assoc. }
  assert (H2 : forall (l : list FileDoc) acc,
    fold_left (fun acc child => acc ++ [FileObject child]) l acc
    = acc ++ (FileObject <$> l)).
  { induction l as [|x l IH]; intros acc; simpl;
      [by rewrite app_nil_r|]. rewrite IH. by rewrite <- app_assoc. }
  by rewrite H1, H2.
Qed.

(** X2. The included objects of a directory are its loaded children, the
    sub-directories first, and they are the objects that the "contents"
    relationship refers to: the identifiers of the two lists are the same,
    in the same order. *)
Theorem Included_matches_contents (d : DirDoc) :
  Included d = (DirObject <$> dirs d) ++ (FileObject <$> files d)
  /\ Object_ID <$> Included d = jsonapi.ID <$> Relationships_contents d.
Proof.
  split; [apply Included_eq|].
  rewrite Included_eq, Relationships_contents_eq.
  rewrite !fmap_app, <- !list_fmap_compose. done.
Qed.

(** *** The children of a directory *)

Lemma fetchChildren_fold {DB F : Type} `{DocumentStore DB} `{Fs F}
    (parent : DirDoc) (docs : list JSONDoc)
    (acc : list FileDoc * list DirDoc) :
  fold_left (fetchChildren_case parent) docs acc
  = (acc.1 ++ (file_child parent
                 <$> List.filter (fun j => String.eqb (j_type j) FileType)
                       docs),
     acc.2 ++ (dir_child parent
                 <$> List.filter (fun j => String.eqb (j_type j) DirType)
                       docs)).
Proof.
  revert acc. induction docs as [|j docs IH]; intros [fl dl]; simpl.
  { by rewrite !app_nil_r. }
  rewrite IH. unfold fetchChildren_case. cbn [fst snd].
  destruct (String.eqb_spec (j_type j) FileType) as [Hf|Hf].
  - rewrite Hf. cbn [fst snd String.eqb Ascii.eqb Bool.eqb FileType DirType].
    rewrite fmap_cons. by rewrite <- app_assoc.
  - destruct (String.eqb (j_type j) DirType); cbn [fst snd]; [|done].
    rewrite fmap_cons. by rewrite <- app_assoc.
Qed.

Lemma FetchFiles_found {DB F : Type} `{DocumentStore DB} `{Fs F}
    (c : Context DB F) (d : DirDoc) (docs : list JSONDoc) :
  couchdb_FindDocs (db c) FsDocType
    (mkFindRequest (mango_Equal "folder_id" (ID d)) 10) = inr docs ->
  FetchFiles c d
  = (set_children d
       (file_child d
          <$> List.filter (fun j => String.eqb (j_type j) FileType) docs)
       (dir_child d
          <$> List.filter (fun j => String.eqb (j_type j) DirType) docs),
     None).
Proof.
  intros Hd. unfold FetchFiles, fetchChildren. cbv zeta.
  rewrite Hd. by rewrite fetchChildren_fold.
Qed.

(** X3. [fetchChildren] asks the store for at most ten documents whose
    parent identifier is the identifier of the directory.  When the query
    fails, its error is returned with no children, and [FetchFiles] then
    leaves the directory without children, whatever had been loaded
    before.  When it succeeds, the documents of type "file" become the
    files and those of type "directory" the sub-directories, each list in
    the order of the answer and each child with the directory as its
    parent; documents of any other type are dropped. *)
Theorem fetchChildren_partition :
  forall (DB F : Type) `{DocumentStore DB} `{Fs F} (c : Context DB F)
    (d : DirDoc),
    (forall e,
        couchdb_FindDocs (db c) FsDocType
          (mkFindRequest (mango_Equal "folder_id" (ID d)) 10) = inl e ->
        fetchChildren c d = ([], [], Some (CouchError e))
        /\ FetchFiles c d = (set_children d [] [], Some (CouchError e)))
    /\ (forall docs,
          couchdb_FindDocs (db c) FsDocType
            (mkFindRequest (mango_Equal "folder_id" (ID d)) 10) = inr docs ->
          FetchFiles c d
          = (set_children d
               (file_child d
                  <$> List.filter (fun j => String.eqb (j_type j) FileType)
                        docs)
               (dir_child d
                  <$> List.filter (fun j => String.eqb (j_type j) DirType)
                        docs),
             None)).
Proof.
  intros DB F ? ? c d. split.
  - intros e He. unfold FetchFiles, fetchChildren. cbv zeta. by rewrite He.
  - apply FetchFiles_found.
Qed.

Lemma fetchChildren_partition_witness :
  FetchFiles docs_no_index (of_json docs_json)
  = (of_json docs_json, Some (CouchError (couch_Other "index unavailable")))
  /\ FetchFiles docs_ctx (of_json docs_json)
     = (set_children (of_json docs_json) []
          [dir_child (of_json docs_json) photos_json], None).
Proof.
  split.
  - apply (proj1 (fetchChildren_partition _ _ docs_no_index
                    (of_json docs_json))).
    reflexivity.
  - rewrite (proj2 (fetchChildren_partition _ _ docs_ctx (of_json docs_json))
               [photos_json]); [reflexivity|].
    vm_compute. reflexivity.
Defined.

Lemma found_children (m : gmap string JSONDoc) (id : string) (n : nat) :
  mem_FindDocs m FsDocType (mkFindRequest (mango_Equal "folder_id" id) (S n))
  = inr (take (S n)
           (List.filter (fun j => String.eqb (j_folder_id j) id)
              (map_to_list m).*2)).
Proof. reflexivity. Qed.

Lemma filter_length_le {A : Type} (P : A -> bool) (l : list A) :
  (length (List.filter P l) <= length l)%nat.
Proof.
  induction l as [|x l IH]; simpl; [lia|]. destruct (P x); simpl; lia.
Qed.

Lemma filter_types_length (l : list JSONDoc) :
  (length (List.filter (fun j => String.eqb (j_type j) FileType) l)
   + length (List.filter (fun j => String.eqb (j_type j) DirType) l)
   <= length l)%nat.
Proof.
  induction l as [|j l IH]; simpl; [lia|].
  destruct (String.eqb_spec (j_type j) FileType) as [Hf|Hf].
  - rewrite Hf. simpl. lia.
  - destruct (String.eqb (j_type j) DirType); simpl; lia.
Qed.

Lemma elem_of_filter_bool {A : Type} (P : A -> bool) (l : list A) (x : A) :
  x ∈ List.filter P l <-> x ∈ l /\ P x = true.
Proof. by rewrite !list_elem_of_In, List.filter_In. Qed.

Lemma elem_of_values (m : gmap string JSONDoc) (j : JSONDoc) :
  j ∈ (map_to_list m).*2 <-> exists id, m !! id = Some j.
Proof.
  rewrite list_elem_of_fmap. split.
  - intros ([id d] & -> & Hin%elem_of_map_to_list). eauto.
  - intros [id Hid]. exists (id, j). split; [done|].
    by apply elem_of_map_to_list.
Qed.

Lemma FetchFiles_mem {F : Type} `{Fs F}
    (c : Context (gmap string JSONDoc) F) (d : DirDoc) :
    let r := FetchFiles c d in
    r.2 = None
    /\ to_json r.1 = to_json d
    /\ (length (files r.1) + length (dirs r.1) <= 10)%nat
    /\ Forall (fun ch => FolderID ch = ID d /\ Type_ ch = DirType
                         /\ parent ch = Some d
                         /\ exists id, db c !! id = Some (to_json ch))
         (dirs r.1)
    /\ Forall (fun fl => j_folder_id (file_doc fl) = ID d
                         /\ j_type (file_doc fl) = FileType
                         /\ file_parent fl = Some (to_json d)
                         /\ exists id, db c !! id = Some (file_doc fl))
         (files r.1)
    /\ ((length (List.filter (fun j => String.eqb (j_folder_id j) (ID d))
                   (map_to_list (db c)).*2) <= 10)%nat ->
        forall id j, db c !! id = Some j -> j_folder_id j = ID d ->
          (j_type j = DirType -> dir_child d j ∈ dirs r.1)
          /\ (j_type j = FileType -> file_child d j ∈ files r.1)).
Proof.
  intros r.
  pose proof (FetchFiles_found c d _ (found_children (db c) (ID d) 9))
    as Hr.
  fold r in Hr. rewrite Hr. clear Hr r. cbn [fst snd files dirs set_children].
  set (found := List.filter _ (map_to_list (db c)).*2).
  assert (Hfound : forall j, j ∈ take 10 found ->
            j_folder_id j = ID d /\ exists id, db c !! id = Some j).
  { intros j Hj%subseteq_take. unfold found in Hj.
    apply elem_of_filter_bool in Hj as [Hin Hp].
    apply String.eqb_eq in Hp. by apply elem_of_values in Hin. }
  split; [done|]. split; [done|]. split; [|split; [|split]].
  - rewrite !length_fmap.
    pose proof (filter_types_length (take 10 found)) as Hl.
    rewrite length_take in Hl. lia.
  - apply Forall_fmap, Forall_forall.
    intros j [Hj Ht]%elem_of_filter_bool.
    destruct (Hfound j Hj) as [Hf Hid].
    apply String.eqb_eq in Ht. cbn. by destruct j.
  - apply Forall_fmap, Forall_forall.
    intros j [Hj Ht]%elem_of_filter_bool.
    destruct (Hfound j Hj) as [Hf Hid].
    apply String.eqb_eq in Ht. done.
  - intros Hlen id j Hj Hf. rewrite take_ge by done.
    assert (Hin : j ∈ found).
    { apply elem_of_filter_bool. split; [apply elem_of_values; eauto|].
      by apply String.eqb_eq. }
    split; intros Ht; apply list_elem_of_fmap_2, elem_of_filter_bool;
      (split; [done|]); by apply String.eqb_eq.
Qed.

(** X4. On the reference store [FetchFiles] never fails and loads at
    most ten children.  Every child it loads is a stored document whose
    parent identifier is the identifier of the directory, of type
    "directory" for a sub-directory and "file" for a file, and has the
    directory as its parent; the persisted fields of the directory are as
    before.  When at most ten stored documents name the directory as their
    parent, every stored sub-directory and every stored file of it is
    loaded. *)
Theorem FetchFiles_direct_children :
  forall (F : Type) `{Fs F} (c : Context (gmap string JSONDoc) F) (d : DirDoc),
    let r := FetchFiles c d in
    r.2 = None
    /\ to_json r.1 = to_json d
    /\ (length (files r.1) + length (dirs r.1) <= 10)%nat
    /\ Forall (fun ch => FolderID ch = ID d /\ Type_ ch = DirType
                         /\ parent ch = Some d
                         /\ exists id, db c !! id = Some (to_json ch))
         (dirs r.1)
    /\ Forall (fun fl => j_folder_id (file_doc fl) = ID d
                         /\ j_type (file_doc fl) = FileType
                         /\ file_parent fl = Some (to_json d)
                         /\ exists id, db c !! id = Some (file_doc fl))
         (files r.1)
    /\ ((length (List.filter (fun j => String.eqb (j_folder_id j) (ID d))
                   (map_to_list (db c)).*2) <= 10)%nat ->
        forall id j, db c !! id = Some j -> j_folder_id j = ID d ->
          (j_type j = DirType -> dir_child d j ∈ dirs r.1)
          /\ (j_type j = FileType -> file_child d j ∈ files r.1)).
Proof. intros F ? c d. apply FetchFiles_mem. Qed.

Lemma FetchFiles_direct_children_witness :
  dir_child (of_json docs_json) photos_json
  ∈ dirs (FetchFiles docs_ctx (of_json docs_json)).1.
Proof.
  pose proof (FetchFiles_direct_children _ docs_ctx (of_json docs_json))
    as Hall.
  cbv zeta in Hall. destruct Hall as (_ & _ & _ & _ & _ & Hc).
  apply (Hc ltac:(vm_compute; lia) "d2" photos_json); reflexivity.
Defined.

(** *** Lookup with children and lookup by path *)

(** X5. [GetDirDoc] returns a document together with an error in one
    case only: the children were asked for, the document was found and is
    a directory, and the query for the children of its identifier failed.
    The document
    returned is then the stored one, without children, and the error is
    the error of the query. *)
Theorem GetDirDoc_document_with_error :
  forall (DB F : Type) `{DocumentStore DB} `{Fs F} (c : Context DB F)
    (fileID : string) (withChildren : bool) (d : DirDoc) (e : error),
    GetDirDoc c fileID withChildren = (Some d, Some e)
    <-> (withChildren = true /\ fileID <> RootFolderID
         /\ exists j ce,
              couchdb_GetDoc (db c) FsDocType fileID = inr j
              /\ j_type j = DirType /\ d = of_json j
              /\ couchdb_FindDocs (db c) FsDocType
                   (mkFindRequest (mango_Equal "folder_id" (j_id j)) 10)
                 = inl ce
              /\ e = CouchError ce).
Proof.
  intros DB F ? ? c fileID wc d e. unfold GetDirDoc. split.
  - destruct (String.eqb_spec fileID RootFolderID) as [->|Hne]; [done|].
    destruct (couchdb_GetDoc (db c) FsDocType fileID) as [ce|j] eqn:Hg;
      [done|].
    cbn [of_json Type_].
    destruct (String.eqb_spec (j_type j) DirType) as [Ht|Ht]; [|done].
    cbn [negb]. destruct wc; [|done].
    unfold FetchFiles, fetchChildren. cbv zeta.
    change (ID (of_json j)) with (j_id j).
    destruct (couchdb_FindDocs _ _ _) as [ce|docs] eqn:Hf.
    + intros [= <- <-]. repeat (split; [done|]). exists j, ce.
      split; [done|]. split; [done|]. split; [by destruct j|]. done.
    + by destruct (fold_left _ _ _).
  - intros (-> & Hne & j & ce & Hg & Ht & -> & Hf & ->).
    apply String.eqb_neq in Hne. rewrite Hne, Hg. cbn [of_json Type_].
    rewrite Ht. cbn [negb String.eqb Ascii.eqb Bool.eqb DirType].
    unfold FetchFiles, fetchChildren. cbv zeta.
    change (ID (of_json j)) with (j_id j). rewrite Hf. by destruct j.
Qed.

Lemma GetDirDoc_document_with_error_witness :
  GetDirDoc docs_no_index "d1" true
  = (Some (of_json docs_json),
     Some (CouchError (couch_Other "index unavailable"))).
Proof.
  apply (proj2 (GetDirDoc_document_with_error _ _ docs_no_index "d1" true
                  _ _)).
  split; [reflexivity|]. split; [discriminate|].
  exists docs_json, (couch_Other "index unavailable").
  split; [vm_compute; reflexivity|]. split; [reflexivity|].
  split; [reflexivity|]. split; reflexivity.
Defined.

Lemma found_at (m : gmap string JSONDoc) (p : string) :
  mem_FindDocs m FsDocType (mkFindRequest (mango_Equal "path" p) 1)
  = inr (take 1 (List.filter (fun j => String.eqb (j_path j) p)
                   (map_to_list m).*2)).
Proof. reflexivity. Qed.

Lemma found_at_elem (m : gmap string JSONDoc) (p : string) (j : JSONDoc) :
  j ∈ List.filter (fun j => String.eqb (j_path j) p) (map_to_list m).*2
  <-> j_path j = p /\ exists id, m !! id = Some j.
Proof.
  rewrite elem_of_filter_bool, elem_of_values, String.eqb_eq. tauto.
Qed.

Lemma GetDirDocFromPath_mem {F : Type} `{Fs F}
    (c : Context (gmap string JSONDoc) F) (pth : string) (wc : bool) :
  pth <> "/" ->
  GetDirDocFromPath c pth wc
  = match List.filter (fun j => String.eqb (j_path j) (path_Clean pth))
            (map_to_list (db c)).*2 with
    | [] => (None, Some (OsError os_ErrNotExist))
    | j :: _ =>
        if wc then let '(doc, err) := FetchFiles c (of_json j) in
                   (Some doc, err)
        else (Some (of_json j), None)
    end.
Proof.
  intros Hne%String.eqb_neq. unfold GetDirDocFromPath. cbv zeta.
  rewrite Hne.
  change (couchdb_FindDocs (db c) FsDocType ?r)
    with (mem_FindDocs (db c) FsDocType r).
  rewrite found_at. by destruct (List.filter _ _).
Qed.

Lemma GetDirDocFromPath_by_cleaned_path_aux {F : Type} `{Fs F}
    (c : Context (gmap string JSONDoc) F) (pth : string) :
    pth <> "/" ->
    ((forall id j, db c !! id = Some j -> j_path j <> path_Clean pth) ->
     forall withChildren,
       GetDirDocFromPath c pth withChildren
       = (None, Some (OsError os_ErrNotExist)))
    /\ ((exists id j, db c !! id = Some j /\ j_path j = path_Clean pth) ->
        exists d, GetDirDocFromPath c pth false = (Some d, None))
    /\ (forall d,
          GetDirDocFromPath c pth false = (Some d, None) ->
          Path d = path_Clean pth
          /\ exists id, db c !! id = Some (to_json d)).
Proof.
  intros Hne. split; [|split].
  - intros Hno wc. rewrite GetDirDocFromPath_mem by done.
    destruct (List.filter _ _) as [|j l] eqn:Hl; [done|].
    assert (Hj : j ∈ j :: l) by left. rewrite <- Hl in Hj.
    apply found_at_elem in Hj as [Hp [id Hid]]. by destruct (Hno id j).
  - intros (id & j & Hid & Hp). rewrite GetDirDocFromPath_mem by done.
    destruct (List.filter _ _) as [|j' l] eqn:Hl; [|by eexists].
    assert (Hj : j ∈ List.filter
                       (fun j => String.eqb (j_path j) (path_Clean pth))
                       (map_to_list (db c)).*2)
      by (apply found_at_elem; eauto).
    rewrite Hl in Hj. by apply elem_of_nil in Hj.
  - intros d. rewrite GetDirDocFromPath_mem by done.
    destruct (List.filter _ _) as [|j l] eqn:Hl; [done|].
    intros [= <-].
    assert (Hj : j ∈ j :: l) by left. rewrite <- Hl in Hj.
    apply found_at_elem in Hj as [Hp [id Hid]].
    rewrite to_json_of_json. eauto.
Qed.

(** X6. Lookup by path on the reference store, for a path other than
    "/": the path is cleaned before the store is asked.  When no stored
    document has the cleaned path, the result is [os.ErrNotExist].  When
    some stored document has it, a document is returned; the document
    returned is a stored one and its path is the cleaned path.  The type
    of the document plays no part: a stored document that is not a
    directory is returned as well. *)
Theorem GetDirDocFromPath_by_cleaned_path :
  forall (F : Type) `{Fs F} (c : Context (gmap string JSONDoc) F)
    (pth : string),
    pth <> "/" ->
    ((forall id j, db c !! id = Some j -> j_path j <> path_Clean pth) ->
     forall withChildren,
       GetDirDocFromPath c pth withChildren
       = (None, Some (OsError os_ErrNotExist)))
    /\ ((exists id j, db c !! id = Some j /\ j_path j = path_Clean pth) ->
        exists d, GetDirDocFromPath c pth false = (Some d, None))
    /\ (forall d,
          GetDirDocFromPath c pth false = (Some d, None) ->
          Path d = path_Clean pth
          /\ exists id, db c !! id = Some (to_json d)).
Proof.
  intros F ? c pth. apply GetDirDocFromPath_by_cleaned_path_aux.
Qed.

Lemma GetDirDocFromPath_by_cleaned_path_witness :
  GetDirDocFromPath docs_ctx "/docs/../music" true
  = (None, Some (OsError os_ErrNotExist))
  /\ (exists d, GetDirDocFromPath docs_ctx "/docs//photos/" false
                = (Some d, None))
  /\ Path (returned (GetDirDocFromPath docs_ctx "/docs//photos/" false))
     = "/docs/photos".
Proof.
  split; [|split].
  - apply (GetDirDocFromPath_by_cleaned_path _ docs_ctx "/docs/../music");
      [discriminate|].
    intros id j Hj. apply docs_store_lookup in Hj as [[_ ->]|[_ ->]];
      discriminate.
  - apply (GetDirDocFromPath_by_cleaned_path _ docs_ctx "/docs//photos/");
      [discriminate|].
    exists "d2", photos_json. split; reflexivity.
  - apply (GetDirDocFromPath_by_cleaned_path _ docs_ctx "/docs//photos/");
      [discriminate|].
    vm_compute. reflexivity.
Defined.

(** X7. On the reference store lookup by path and lookup by identifier
    agree: for a stored directory whose path no other stored document
    has, looking up any spelling of that path other than "/" gives what
    looking up its identifier gives, with the children or without. *)
Theorem GetDirDocFromPath_agrees_with_GetDirDoc :
  forall (F : Type) `{Fs F} (c : Context (gmap string JSONDoc) F)
    (id pth : string) (j : JSONDoc) (withChildren : bool),
    keyed (db c) ->
    db c !! id = Some j -> j_type j = DirType -> id <> RootFolderID ->
    (forall id' j', db c !! id' = Some j' -> j_path j' = j_path j ->
                    id' = id) ->
    pth <> "/" -> path_Clean pth = j_path j ->
    GetDirDocFromPath c pth withChildren = GetDirDoc c id withChildren.
Proof.
  intros F ? c id pth j wc Hk Hid Ht Hnr Huniq Hne Hp.
  rewrite GetDirDocFromPath_mem by done. rewrite Hp.
  destruct (List.filter _ _) as [|j' l] eqn:Hl.
  { assert (Hj : j ∈ List.filter
                         (fun j0 => String.eqb (j_path j0) (j_path j))
                         (map_to_list (db c)).*2)
      by (apply found_at_elem; eauto).
    rewrite Hl in Hj. by apply elem_of_nil in Hj. }
  assert (Hj : j' ∈ j' :: l) by left. rewrite <- Hl in Hj.
  apply found_at_elem in Hj as [Hp' [id' Hid']].
  pose proof (Huniq _ _ Hid' Hp') as ->.
  rewrite Hid in Hid'. injection Hid' as <-.
  unfold GetDirDoc. apply String.eqb_neq in Hnr. rewrite Hnr.
  change (couchdb_GetDoc (db c) FsDocType id)
    with (mem_GetDoc (db c) FsDocType id).
  unfold mem_GetDoc. cbn [String.eqb]. rewrite String.eqb_refl, Hid.
  cbn [of_json Type_]. rewrite Ht. done.
Qed.

Lemma GetDirDocFromPath_agrees_with_GetDirDoc_witness :
  GetDirDocFromPath docs_ctx "/docs/./photos/.." true
  = GetDirDoc docs_ctx "d1" true.
Proof.
  apply (GetDirDocFromPath_agrees_with_GetDirDoc _ docs_ctx "d1" _ docs_json).
  - apply well_formed_keyed, docs_store_well_formed.
  - reflexivity.
  - reflexivity.
  - discriminate.
  - intros id' j' Hj. apply docs_store_lookup in Hj as [[-> ->]|[-> ->]];
      [done|discriminate].
  - discriminate.
  - reflexivity.
Defined.

(** X8. The root by path.  The path "/" itself gives the synthetic root
    and, without children, asks the store nothing; with children, the
    children of the root identifier are fetched, so that a failure of the
    store comes back with the root.  Every other spelling is looked up in
    the store, also one that cleans to "/": a failure of the store is
    returned, and on the reference store, where no document has the path
    "/", the result is [os.ErrNotExist]. *)
Theorem GetDirDocFromPath_root :
  (forall (DB F : Type) `{DocumentStore DB} `{Fs F} (c : Context DB F),
      GetDirDocFromPath c "/" false = (Some getRootDirDoc, None)
      /\ GetDirDocFromPath c "/" true
         = (Some (FetchFiles c getRootDirDoc).1,
            (FetchFiles c getRootDirDoc).2)
      /\ (forall e,
            couchdb_FindDocs (db c) FsDocType
              (mkFindRequest (mango_Equal "folder_id" RootFolderID) 10)
            = inl e ->
            GetDirDocFromPath c "/" true
            = (Some getRootDirDoc, Some (CouchError e)))
      /\ (forall pth e withChildren,
            pth <> "/" ->
            couchdb_FindDocs (db c) FsDocType
              (mkFindRequest (mango_Equal "path" (path_Clean pth)) 1)
            = inl e ->
            GetDirDocFromPath c pth withChildren
            = (None, Some (CouchError e))))
  /\ (forall (F : Type) `{Fs F} (c : Context (gmap string JSONDoc) F)
        (pth : string) (withChildren : bool),
      pth <> "/" -> path_Clean pth = "/" ->
      (forall id j, db c !! id = Some j -> j_path j <> "/") ->
      GetDirDocFromPath c pth withChildren
      = (None, Some (OsError os_ErrNotExist))).
Proof.
  split.
  - intros DB F ? ? c. split; [done|]. split; [|split].
    + unfold GetDirDocFromPath. cbn [String.eqb Ascii.eqb Bool.eqb].
      by destruct (FetchFiles c getRootDirDoc).
    + intros e He. unfold GetDirDocFromPath, FetchFiles, fetchChildren.
      cbn [String.eqb Ascii.eqb Bool.eqb]. cbv zeta.
      change (ID getRootDirDoc) with RootFolderID. by rewrite He.
    + intros pth e wc Hne%String.eqb_neq He. unfold GetDirDocFromPath.
      cbv zeta. by rewrite Hne, He.
  - intros F ? c pth wc Hne Hc Hno. rewrite GetDirDocFromPath_mem by done.
    rewrite Hc.
    destruct (List.filter _ _) as [|j l] eqn:Hl; [done|].
    assert (Hj : j ∈ j :: l) by left. rewrite <- Hl in Hj.
    apply found_at_elem in Hj as [Hp [id Hid]]. by destruct (Hno id j).
Qed.

Lemma GetDirDocFromPath_root_witness :
  GetDirDocFromPath docs_no_index "/" true
  = (Some getRootDirDoc, Some (CouchError (couch_Other "index unavailable")))
  /\ GetDirDocFromPath docs_no_index "/docs" false
     = (None, Some (CouchError (couch_Other "index unavailable")))
  /\ GetDirDocFromPath docs_ctx "//" false
     = (None, Some (OsError os_ErrNotExist)).
Proof.
  destruct GetDirDocFromPath_root as [H1 H2].
  destruct (H1 _ _ _ _ docs_no_index) as (_ & _ & Ha & Hb).
  split; [|split].
  - apply Ha. reflexivity.
  - apply Hb; [discriminate|reflexivity].
  - apply (H2 _ _ docs_ctx); [discriminate|reflexivity|].
    intros id j Hj. apply docs_store_lookup in Hj as [[_ ->]|[_ ->]];
      discriminate.
Defined.

(** *** A successful creation *)

Lemma CreateDirectory_ok_inv {F : Type} `{Fs F}
    (c c' : Context (gmap string JSONDoc) F) (doc doc' : DirDoc) :
  CreateDirectory c doc = (c', (doc', None)) ->
  exists pth P,
    getFilePath c (Name doc) (FolderID doc) = inr (pth, P)
    /\ Mkdir (fs c) pth 493 = (fs c', None)
    /\ db c !! ObjID doc' = None
    /\ ObjID doc' <> "" /\ ObjID doc' <> RootFolderID
    /\ doc' = SetRev (SetID (set_Path doc pth) (ObjID doc')) "1"
    /\ db c' = <[ObjID doc' := to_json doc']> (db c).
Proof.
  unfold CreateDirectory.
  destruct (getFilePath c (Name doc) (FolderID doc)) as [e|[pth P]] eqn:Hg;
    [done|].
  destruct (Mkdir (fs c) pth 493) as [fs1 [e|]] eqn:Hm; [done|].
  change (couchdb_CreateDoc (db c) ?t ?j) with (mem_CreateDoc (db c) t j).
  unfold mem_CreateDoc, DocType. simpl.
  set (id := fresh _).
  pose proof (is_fresh (dom (db c) ∪ {[ ""; RootFolderID ]})) as Hf.
  fold id in Hf.
  intros [= <- <-]. exists pth, P. simpl.
  split; [done|]. split; [done|].
  split; [apply not_elem_of_dom; set_solver|].
  split; [set_solver|]. split; [set_solver|]. done.
Qed.

(** X9. A successful [CreateDirectory] on the reference store: the
    physical directory has been made at the path of the returned
    document, with the mode 0755; that path is the cleaned concatenation
    of the path of the parent, "/" and the name; the document has got an
    identifier that was not in use, is not empty and is not the root
    sentinel; the store holds the returned document under that identifier
    and every other document is as before; and the name, the parent
    identifier, the type, the tags and the dates of the document are the
    ones the caller gave. *)
Theorem CreateDirectory_success :
  forall (F : Type) `{Fs F} (c c' : Context (gmap string JSONDoc) F)
    (doc doc' : DirDoc),
    CreateDirectory c doc = (c', (doc', None)) ->
    Mkdir (fs c) (Path doc') 493 = (fs c', None)
    /\ (exists pp, parent_path (db c) (FolderID doc) = Some pp
                   /\ Path doc' = path_Clean (pp +:+ "/" +:+ Name doc))
    /\ db c !! ObjID doc' = None
    /\ ObjID doc' <> "" /\ ObjID doc' <> RootFolderID
    /\ db c' = <[ObjID doc' := to_json doc']> (db c)
    /\ Name doc' = Name doc /\ FolderID doc' = FolderID doc
    /\ Type_ doc' = Type_ doc /\ Tags doc' = Tags doc
    /\ CreatedAt doc' = CreatedAt doc /\ UpdatedAt doc' = UpdatedAt doc.
Proof.
  intros F ? c c' doc doc'
    (pth & P & Hg & Hm & Hfresh & Hne & Hnr & Hdoc & Hdb)%CreateDirectory_ok_inv.
  apply getFilePath_mem in Hg as [Hpp Hpth].
  assert (HP : Path doc' = pth) by (by rewrite Hdoc).
  rewrite HP. split; [done|]. split; [by exists (Path P)|].
  repeat (split; [done|]). by rewrite Hdoc.
Qed.

Lemma CreateDirectory_success_witness :
  let r := CreateDirectory docs_ctx (a_doc "music" "d1") in
  r.2.2 = None
  /\ Path r.2.1 = "/docs/music"
  /\ db docs_ctx !! ObjID r.2.1 = None
  /\ db r.1 = <[ObjID r.2.1 := to_json r.2.1]> docs_store.
Proof.
  intros r.
  assert (E : r = (r.1, (r.2.1, None))) by (vm_compute; reflexivity).
  destruct (CreateDirectory_success _ _ _ _ _ E)
    as (_ & (pp & Hpp & Hpath) & Hfresh & _ & _ & Hdb & _).
  split; [exact (f_equal (fun x => x.2.2) E)|].
  split; [|split; [exact Hfresh|exact Hdb]].
  rewrite Hpath. injection Hpp as <-. reflexivity.
Defined.

(** X10. What [CreateDirectory] has created can be looked up.  On the
    reference store, after a successful creation of a document of type
    "directory", [GetDirDoc] on the new identifier returns the persisted
    fields of the returned document, while before the creation it failed
    with [ErrParentDoesNotExist]; and when the store was well formed and
    the name is plain, [GetDirDocFromPath] on the new path finds a
    document with that path. *)
Theorem CreateDirectory_then_lookup :
  forall (F : Type) `{Fs F} (c c' : Context (gmap string JSONDoc) F)
    (doc doc' : DirDoc),
    CreateDirectory c doc = (c', (doc', None)) ->
    Type_ doc = DirType ->
    GetDirDoc c (ObjID doc') false = (None, Some ErrParentDoesNotExist)
    /\ GetDirDoc c' (ObjID doc') false
       = (Some (of_json (to_json doc')), None)
    /\ (well_formed (db c) -> plain (Name doc) ->
        exists d, GetDirDocFromPath c' (Path doc') false = (Some d, None)
                  /\ Path d = Path doc').
Proof.
  intros F ? c c' doc doc' Hok Hty.
  pose proof (CreateDirectory_ok_inv _ _ _ _ Hok)
    as (pth & P & Hg & Hm & Hfresh & Hne & Hnr & Hdoc & Hdb).
  assert (Hlook : forall c0 : Context (gmap string JSONDoc) F,
            GetDirDoc c0 (ObjID doc') false
            = match db c0 !! ObjID doc' with
              | None => (None, Some ErrParentDoesNotExist)
              | Some j => if negb (String.eqb (j_type j) DirType)
                          then (None, Some (OsError os_ErrNotExist))
                          else (Some (of_json j), None)
              end).
  { intros c0. unfold GetDirDoc. apply String.eqb_neq in Hnr. rewrite Hnr.
    change (couchdb_GetDoc (db c0) FsDocType ?i)
      with (mem_GetDoc (db c0) FsDocType i).
    unfold mem_GetDoc. cbn [String.eqb]. rewrite String.eqb_refl.
    by destruct (db c0 !! ObjID doc'). }
  split; [|split].
  - rewrite Hlook, Hfresh. done.
  - rewrite Hlook, Hdb, lookup_insert_eq.
    assert (Ht : j_type (to_json doc') = DirType) by (by rewrite Hdoc).
    by rewrite Ht.
  - intros Hwf Hpl.
    apply getFilePath_mem in Hg as [Hpp Hpth].
    destruct (parent_path_elems _ _ _ Hwf Hpp) as (pcs & Hpcs & HP).
    rewrite HP, Clean_abs_path_elem in Hpth by done.
    assert (Hpath : Path doc' = abs_path (pcs ++ [Name doc]))
      by (by rewrite Hdoc).
    assert (Hcl : cleaned_abs (Path doc')).
    { rewrite Hpath. apply abs_path_cleaned_abs, Forall_app.
      by repeat constructor. }
    assert (Hroot : Path doc' <> "/").
    { rewrite Hpath. intros Heq. apply abs_path_root in Heq.
      - by destruct pcs.
      - apply Forall_app. by repeat constructor. }
    destruct (GetDirDocFromPath_by_cleaned_path_aux c' (Path doc') Hroot)
      as (_ & Hex & Hget).
    destruct Hex as [d Hd].
    { exists (ObjID doc'), (to_json doc'). rewrite Hdb, lookup_insert_eq.
      split; [done|]. by destruct Hcl as [-> _]. }
    exists d. split; [done|].
    destruct (Hget d Hd) as [-> _]. by destruct Hcl.
Qed.

Lemma CreateDirectory_then_lookup_witness :
  let r := CreateDirectory docs_ctx (a_doc "music" "d1") in
  GetDirDoc docs_ctx (ObjID r.2.1) false = (None, Some ErrParentDoesNotExist)
  /\ GetDirDoc r.1 (ObjID r.2.1) false
     = (Some (of_json (to_json r.2.1)), None)
  /\ exists d, GetDirDocFromPath r.1 (Path r.2.1) false = (Some d, None)
               /\ Path d = Path r.2.1.
Proof.
  intros r.
  assert (E : r = (r.1, (r.2.1, None))) by (vm_compute; reflexivity).
  destruct (CreateDirectory_then_lookup _ _ _ _ _ E eq_refl)
    as (H1 & H2 & H3).
  split; [exact H1|]. split; [exact H2|].
  apply H3; [apply docs_store_well_formed|reflexivity].
Defined.

(** *** What a move does before and after it builds the new node *)

Lemma safeRenameDirectory_error {F : Type} `{Fs F} (oldpath newpath : string)
    (fs0 fs1 : F) (e : error) :
  safeRenameDirectory oldpath newpath fs0 = (fs1, Some e) ->
  e = ErrForbiddenDocMove \/ (exists msg, e = Errorf msg)
  \/ (exists oe, e = OsError oe).
Proof.
  unfold safeRenameDirectory.
  destruct (negb _ || negb _); [intros [= _ <-]; eauto|].
  destruct (strings_HasPrefix _ _); [intros [= _ <-]; eauto|].
  destruct (Stat fs0 _) as [oe|]; [|intros [= _ <-]; eauto].
  destruct (negb (os_IsNotExist oe)); [intros [= _ <-]; eauto|].
  destruct (Rename fs0 _ _) as [fs2 [re|]]; [|done].
  intros [= _ <-]. eauto.
Qed.

Lemma unit_error_inv (e : error) :
  unit_error (Some e) ->
  (exists ce, e = CouchError ce) \/ (exists msg, e = Errorf msg).
Proof. destruct e; simpl; try done; eauto. Qed.

(** X11. The failures that [ModifyDirectoryMetadata] detects while it
    validates the request leave everything as it was.  When it fails with
    [ErrIllegalTime], [ErrIllegalFilename] or [ErrParentDoesNotExist], it
    returns no node, and neither the store nor the file system has
    changed. *)
Theorem ModifyDirectoryMetadata_validation_failures :
  forall (DB F : Type) `{DocumentStore DB} `{Fs F} (sch : Schedule)
    (now : Z) (c c' : Context DB F) (olddoc : DirDoc)
    (data : DocMetaAttributes.t) (r : option DirDoc) (e : error),
    ModifyDirectoryMetadata sch now c olddoc data = (c', (r, Some e)) ->
    e = ErrIllegalTime \/ e = ErrIllegalFilename
    \/ e = ErrParentDoesNotExist ->
    c' = c /\ r = None.
Proof.
  intros DB F ? ? sch now c c' olddoc data r e Hm He.
  rewrite Modify_unfold in Hm.
  destruct (modify_target c olddoc data) as [err|[[[folderID name] pth] par]];
    [by injection Hm as <- <- _|].
  cbv zeta in Hm.
  destruct (modify_mdate olddoc data <? CreatedAt olddoc);
    [by injection Hm as <- <- _|].
  destruct (NewDirDoc now name folderID (modify_tags olddoc data) par)
    as [[nd|] [err|]]; try (by injection Hm as <- <- _); try done.
  exfalso.
  destruct (if negb (String.eqb pth (Path olddoc))
            then safeRenameDirectory (Path olddoc) pth (fs c)
            else (fs c, None)) as [fs1 [err|]] eqn:Hs.
  { injection Hm as _ _ <-.
    destruct (negb (String.eqb pth (Path olddoc))); [|done].
    apply safeRenameDirectory_error in Hs
      as [->|[[msg ->]|[oe ->]]]; by destruct He as [?|[?|?]]. }
  pose proof (bulkUpdateDocsPath_error sch (mkContext (db c) fs1) olddoc pth)
    as [Hu _].
  destruct (bulkUpdateDocsPath sch (mkContext (db c) fs1) olddoc pth)
    as [c2 [err|]].
  { injection Hm as _ _ <-. simpl in Hu.
    apply unit_error_inv in Hu as [[ce ->]|[msg ->]];
      by destruct He as [?|[?|?]]. }
  destruct (couchdb_UpdateDoc (db c2) FsDocType _) as [db3 [err|rev]];
    [|done].
  injection Hm as _ _ <-. by destruct He as [?|[?|?]].
Qed.

Lemma ModifyDirectoryMetadata_validation_failures_witness :
  let r := ModifyDirectoryMetadata in_order 200 docs_ctx (of_json docs_json)
             (move_to "nowhere") in
  r = (docs_ctx, (None, Some ErrParentDoesNotExist)).
Proof.
  intros r.
  assert (E : r = (r.1, (r.2.1, Some ErrParentDoesNotExist)))
    by (vm_compute; reflexivity).
  destruct (ModifyDirectoryMetadata_validation_failures _ _ _ _ _ _ _ _ _ _
              E) as [Hc Hr]; [by right; right|].
  rewrite E, Hc, Hr. reflexivity.
Defined.

(** X12. The update date of a moved node.  The date that
    [ModifyDirectoryMetadata] works with is the one of the update
    descriptor when it gives one, and the update date of the input node
    otherwise.  A successful call returns a node with that update date,
    which is not before its creation date.  When that date is before the
    creation date of the input node and no other parent is asked for, the
    call fails with [ErrIllegalTime] and changes nothing, whatever the new
    name is. *)
Theorem ModifyDirectoryMetadata_dates :
  forall (DB F : Type) `{DocumentStore DB} `{Fs F} (sch : Schedule)
    (now : Z) (c : Context DB F) (olddoc : DirDoc)
    (data : DocMetaAttributes.t),
    (forall c' newdoc,
        ModifyDirectoryMetadata sch now c olddoc data
        = (c', (Some newdoc, None)) ->
        UpdatedAt newdoc = modify_mdate olddoc data
        /\ CreatedAt newdoc <= UpdatedAt newdoc)
    /\ (DocMetaAttributes.FolderID data = None
        \/ DocMetaAttributes.FolderID data = Some (FolderID olddoc) ->
        modify_mdate olddoc data < CreatedAt olddoc ->
        ModifyDirectoryMetadata sch now c olddoc data
        = (c, (None, Some ErrIllegalTime))).
Proof.
  intros DB F ? ? sch now c olddoc data. split.
  - intros c' newdoc Hok.
    pose proof (Modify_ok_fields _ _ _ _ _ _ _ Hok) as (_ & Hcr & _).
    apply Modify_ok_inv in Hok
      as (folderID & name & pth & par & nd & fs1 & c2 & db3 & rev & _ & Hd
          & _ & _ & _ & _ & _ & Hnew).
    assert (Hu : UpdatedAt newdoc = modify_mdate olddoc data)
      by (by rewrite Hnew).
    split; [done|]. rewrite Hcr, Hu. lia.
  - intros Hf Hd. rewrite Modify_unfold.
    assert (Ht : exists t, modify_target c olddoc data = inr t).
    { unfold modify_target.
      destruct Hf as [->| ->]; [|rewrite String.eqb_refl; cbn [negb]];
        destruct (negb (String.eqb (DocMetaAttributes.Name data) ""));
        eauto. }
    destruct Ht as [[[[folderID name] pth] par] ->]. cbv zeta.
    apply Z.ltb_lt in Hd. by rewrite Hd.
Qed.

Lemma ModifyDirectoryMetadata_dates_witness :
  (let r := ModifyDirectoryMetadata in_order 200 docs_ctx (of_json docs_json)
              (DocMetaAttributes.mk "" None None (Some 150)) in
   UpdatedAt (returned r.2) = 150
   /\ CreatedAt (returned r.2) <= UpdatedAt (returned r.2))
  /\ ModifyDirectoryMetadata in_order 200 docs_ctx (of_json docs_json)
       (DocMetaAttributes.mk "a/b" None None (Some 99))
     = (docs_ctx, (None, Some ErrIllegalTime)).
Proof.
  split.
  - intros r.
    assert (E : r = (r.1, (Some (returned r.2), None)))
      by (vm_compute; reflexivity).
    exact (proj1 (ModifyDirectoryMetadata_dates _ _ in_order 200 docs_ctx
                    (of_json docs_json)
                    (DocMetaAttributes.mk "" None None (Some 150)))
                 _ _ E).
  - apply (proj2 (ModifyDirectoryMetadata_dates _ _ in_order 200 docs_ctx
                    (of_json docs_json)
                    (DocMetaAttributes.mk "a/b" None None (Some 99))));
      [by left|reflexivity].
Defined.

(** X13. An update that names the current parent, or none, moves
    nothing.  Giving the parent identifier that the node has is the same
    as giving none: the parent is not looked up.  And when, besides, no
    new name is given, the call never touches the file system, whatever
    it returns. *)
Theorem ModifyDirectoryMetadata_same_parent :
  forall (DB F : Type) `{DocumentStore DB} `{Fs F} (sch : Schedule)
    (now : Z) (c : Context DB F) (olddoc : DirDoc),
    (forall name tags mdate,
        ModifyDirectoryMetadata sch now c olddoc
          (DocMetaAttributes.mk name (Some (FolderID olddoc)) tags mdate)
        = ModifyDirectoryMetadata sch now c olddoc
            (DocMetaAttributes.mk name None tags mdate))
    /\ (forall data,
          DocMetaAttributes.Name data = "" ->
          DocMetaAttributes.FolderID data = None
          \/ DocMetaAttributes.FolderID data = Some (FolderID olddoc) ->
          fs (ModifyDirectoryMetadata sch now c olddoc data).1 = fs c).
Proof.
  intros DB F ? ? sch now c olddoc. split.
  - intros name tags mdate. rewrite !Modify_unfold.
    unfold modify_target. cbn [DocMetaAttributes.FolderID].
    by rewrite String.eqb_refl.
  - intros data Hn Hf. rewrite Modify_unfold.
    assert (Ht : exists folderID par,
              modify_target c olddoc data
              = inr (folderID, Name olddoc, Path olddoc, par)).
    { unfold modify_target. rewrite Hn.
      destruct Hf as [->| ->]; [|rewrite String.eqb_refl]; cbn; eauto. }
    destruct Ht as (folderID & par & ->). cbv zeta.
    destruct (modify_mdate olddoc data <? CreatedAt olddoc); [done|].
    destruct (NewDirDoc now (Name olddoc) folderID (modify_tags olddoc data)
                par) as [[nd|] [err|]]; try done.
    rewrite String.eqb_refl. cbn [negb].
    pose proof (bulkUpdateDocsPath_error sch (mkContext (db c) (fs c)) olddoc
                  (Path olddoc)) as [_ Hfs].
    destruct (bulkUpdateDocsPath sch (mkContext (db c) (fs c)) olddoc
                (Path olddoc)) as [c2 [err|]]; [done|].
    by destruct (couchdb_UpdateDoc (db c2) FsDocType _) as [db3 [err|rev]].
Qed.

Lemma ModifyDirectoryMetadata_same_parent_witness :
  fs (ModifyDirectoryMetadata in_order 200 docs_ctx (of_json docs_json)
        (DocMetaAttributes.mk "" (Some RootFolderID) (Some ["x"]) None)).1
  = docs_tree.
Proof.
  apply (proj2 (ModifyDirectoryMetadata_same_parent _ _ in_order 200 docs_ctx
                  (of_json docs_json))); [reflexivity|by right].
Defined.

(** X14. Nothing is rolled back.  When [ModifyDirectoryMetadata] fails
    after it has built the new node, so that it returns the node with the
    error, either the rename was refused, and then the store is as it was
    and the error is the one of the rename, or the rename, if the path
    changes, has been done: the file system is the renamed one, and the
    error is an error of the store or of a unit of the fan-out. *)
Theorem ModifyDirectoryMetadata_no_rollback :
  forall (DB F : Type) `{DocumentStore DB} `{Fs F} (sch : Schedule)
    (now : Z) (c c' : Context DB F) (olddoc newdoc : DirDoc)
    (data : DocMetaAttributes.t) (e : error),
    ModifyDirectoryMetadata sch now c olddoc data
    = (c', (Some newdoc, Some e)) ->
    (Path newdoc <> Path olddoc /\ db c' = db c
     /\ safeRenameDirectory (Path olddoc) (Path newdoc) (fs c)
        = (fs c', Some e))
    \/ (((exists ce, e = CouchError ce) \/ (exists msg, e = Errorf msg))
        /\ (Path newdoc <> Path olddoc ->
            safeRenameDirectory (Path olddoc) (Path newdoc) (fs c)
            = (fs c', None))
        /\ (Path newdoc = Path olddoc -> fs c' = fs c)).
Proof.
  intros DB F ? ? sch now c c' olddoc newdoc data e Hm.
  rewrite Modify_unfold in Hm.
  destruct (modify_target c olddoc data) as [err|[[[folderID name] pth] par]];
    [done|].
  cbv zeta in Hm.
  destruct (modify_mdate olddoc data <? CreatedAt olddoc); [done|].
  destruct (NewDirDoc now name folderID (modify_tags olddoc data) par)
    as [[nd|] [err|]]; try done.
  set (nd' := modify_newdoc olddoc nd (modify_mdate olddoc data) pth) in *.
  assert (Hp : Path nd' = pth) by done.
  destruct (if negb (String.eqb pth (Path olddoc))
            then safeRenameDirectory (Path olddoc) pth (fs c)
            else (fs c, None)) as [fs1 [err|]] eqn:Hs.
  { injection Hm as <- <- <-. left. rewrite Hp.
    destruct (String.eqb_spec pth (Path olddoc)); [done|]. done. }
  right.
  assert (Hfs : (pth <> Path olddoc ->
                 safeRenameDirectory (Path olddoc) pth (fs c) = (fs1, None))
                /\ (pth = Path olddoc -> fs1 = fs c)).
  { destruct (String.eqb_spec pth (Path olddoc)); cbn [negb] in Hs.
    - split; [done|]. intros _. by injection Hs.
    - done. }
  pose proof (bulkUpdateDocsPath_error sch (mkContext (db c) fs1) olddoc pth)
    as [Hu Hfs2].
  destruct (bulkUpdateDocsPath sch (mkContext (db c) fs1) olddoc pth)
    as [c2 [err|]]; simpl in Hu, Hfs2.
  { injection Hm as <- <- <-. rewrite Hp, Hfs2.
    split; [by apply unit_error_inv|done]. }
  destruct (couchdb_UpdateDoc (db c2) FsDocType _) as [db3 [err|rev]];
    [|done].
  injection Hm as <- <- <-. rewrite Hp. simpl. rewrite Hfs2.
  split; [eauto|done].
Qed.

Lemma ModifyDirectoryMetadata_no_rollback_witness :
  let r := ModifyDirectoryMetadata in_order 200 docs_no_index
             (of_json docs_json) (rename_to "archive") in
  r.2.2 = Some (CouchError (couch_Other "index unavailable"))
  /\ safeRenameDirectory "/docs" "/archive" docs_tree = (fs r.1, None)
  /\ "/docs" ∉ fs r.1.
Proof.
  intros r.
  assert (E : r = (r.1, (Some (returned r.2),
                         Some (CouchError (couch_Other "index unavailable")))))
    by (vm_compute; reflexivity).
  split; [exact (f_equal (fun x => x.2.2) E)|].
  assert (Hs : safeRenameDirectory "/docs" "/archive" docs_tree
               = (fs r.1, None)).
  { destruct (ModifyDirectoryMetadata_no_rollback _ _ _ _ _ _ _ _ _ _ E)
      as [(_ & _ & Hs)|(_ & Hs & _)].
    - exfalso. apply (f_equal snd) in Hs. vm_compute in Hs. discriminate.
    - apply Hs. vm_compute. discriminate. }
  split; [exact Hs|].
  apply (bool_decide_unpack _). by vm_compute.
Defined.

(** *** The fan-out as a whole *)

Lemma relocate_below_fields (oldpath newpath : string) (j : JSONDoc) :
  j_created_at (relocate_below oldpath newpath j) = j_created_at j
  /\ j_updated_at (relocate_below oldpath newpath j) = j_updated_at j
  /\ j_tags (relocate_below oldpath newpath j) = j_tags j.
Proof. unfold relocate_below. by case_match. Qed.

(** X15. [bulkUpdateDocsPath] works on the store only.  Whatever the
    store, the schedule and the outcome, the file system is as before, and
    the error, if any, is an error of the store or the error of a unit
    that found its child outside the old path.  When the query for the
    descendants fails, its error is returned and nothing has changed; when
    it finds no document, the result is nil and nothing has changed. *)
Theorem bulkUpdateDocsPath_store_only :
  forall (DB F : Type) `{DocumentStore DB} `{Fs F} (sch : Schedule)
    (c : Context DB F) (olddoc : DirDoc) (newpath : string),
    let r := bulkUpdateDocsPath sch c olddoc newpath in
    let req :=
      mkFindRequest
        (mango_StartWith "path" (path_Clean (Path olddoc) +:+ "/")) 0 in
    fs r.1 = fs c
    /\ (r.2 = None \/ (exists ce, r.2 = Some (CouchError ce))
        \/ (exists msg, r.2 = Some (Errorf msg)))
    /\ (forall e, couchdb_FindDocs (db c) FsDocType req = inl e ->
                  r = (c, Some (CouchError e)))
    /\ (couchdb_FindDocs (db c) FsDocType req = inr [] -> r = (c, None)).
Proof.
  intros DB F ? ? sch c olddoc newpath r req.
  destruct (bulkUpdateDocsPath_error sch c olddoc newpath) as [Hu Hfs].
  fold r in Hu, Hfs. split; [done|]. split; [|split].
  - destruct r.2 as [e|]; [|by left]. right.
    apply unit_error_inv in Hu as [[ce ->]|[msg ->]]; eauto.
  - intros e He. unfold r, bulkUpdateDocsPath. cbv zeta.
    fold req. by rewrite He.
  - intros He. unfold r, bulkUpdateDocsPath. cbv zeta.
    fold req. by rewrite He.
Qed.

Lemma bulkUpdateDocsPath_store_only_witness :
  bulkUpdateDocsPath in_order docs_no_index (of_json docs_json) "/archive"
  = (docs_no_index, Some (CouchError (couch_Other "index unavailable")))
  /\ bulkUpdateDocsPath in_order docs_ctx (of_json photos_json) "/pics"
     = (docs_ctx, None).
Proof.
  split.
  - apply (bulkUpdateDocsPath_store_only _ _ in_order docs_no_index
             (of_json docs_json) "/archive").
    reflexivity.
  - apply (bulkUpdateDocsPath_store_only _ _ in_order docs_ctx
             (of_json photos_json) "/pics").
    vm_compute. reflexivity.
Defined.

(** X16. On the reference store, when every document is stored under
    its own identifier, [bulkUpdateDocsPath] succeeds whatever the
    schedule, and rewrites exactly the documents whose path begins with
    the cleaned old path followed by "/": each of them gets the path
    joined from the new path and the rest of its own, and a new revision;
    its identifier, type, name, parent identifier, dates and tags are
    kept.  Every other document is as before, and no document is added or
    removed. *)
Theorem bulkUpdateDocsPath_relocates :
  forall (F : Type) `{Fs F} (sch : Schedule)
    (c : Context (gmap string JSONDoc) F) (olddoc : DirDoc)
    (newpath : string),
    keyed (db c) ->
    let oldpath := path_Clean (Path olddoc) in
    let r := bulkUpdateDocsPath sch c olddoc newpath in
    r.2 = None /\ fs r.1 = fs c /\ dom (db r.1) = dom (db c)
    /\ forall id j, db c !! id = Some j ->
         exists j', db r.1 !! id = Some j'
           /\ j_id j' = j_id j /\ j_type j' = j_type j
           /\ j_name j' = j_name j /\ j_folder_id j' = j_folder_id j
           /\ j_created_at j' = j_created_at j
           /\ j_updated_at j' = j_updated_at j /\ j_tags j' = j_tags j
           /\ (strings_HasPrefix (j_path j) (oldpath +:+ "/") = false ->
               j' = j)
           /\ (strings_HasPrefix (j_path j) (oldpath +:+ "/") = true ->
               j_rev j' = next_rev (j_rev j)
               /\ j_path j'
                  = path_Join [newpath;
                               slice_from (String.length oldpath + 1)
                                 (j_path j)]).
Proof.
  intros F ? sch [m f] olddoc newpath Hk oldpath r. simpl in Hk.
  unfold r. rewrite bulkUpdateDocsPath_mem by done. fold oldpath.
  cbn [fst snd db fs].
  split; [done|]. split; [done|]. split; [by rewrite dom_fmap_L|].
  intros id j Hj. exists (relocate_below oldpath newpath j).
  rewrite lookup_fmap, Hj.
  destruct (relocate_below_type oldpath newpath j) as (Ht & Hn & Hf & Hi).
  destruct (relocate_below_fields oldpath newpath j) as (Hc & Hu & Htg).
  repeat (split; [done|]). split.
  - apply relocate_below_out.
  - intros Hp. unfold relocate_below. by rewrite Hp.
Qed.

Lemma bulkUpdateDocsPath_relocates_witness :
  let r := bulkUpdateDocsPath last_first docs_ctx (of_json docs_json)
             "/archive" in
  r.2 = None
  /\ exists j', db r.1 !! "d2" = Some j' /\ j_path j' = "/archive/photos".
Proof.
  intros r.
  destruct (bulkUpdateDocsPath_relocates _ last_first docs_ctx
              (of_json docs_json) "/archive"
              (well_formed_keyed _ docs_store_well_formed))
    as (Hr & _ & _ & Hall).
  split; [exact Hr|].
  destruct (Hall "d2" photos_json eq_refl)
    as (j' & Hj & _ & _ & _ & _ & _ & _ & _ & _ & Hp).
  exists j'. split; [exact Hj|].
  destruct (Hp eq_refl) as [_ ->]. reflexivity.
Defined.

Lemma GetDirDoc_mem_error {F : Type} `{Fs F}
    (c : Context (gmap string JSONDoc) F) (fileID : string)
    (r : option DirDoc) (e : error) :
  GetDirDoc c fileID false = (r, Some e) ->
  e = ErrParentDoesNotExist \/ e = OsError os_ErrNotExist.
Proof.
  unfold GetDirDoc.
  destruct (String.eqb fileID RootFolderID); [done|].
  change (couchdb_GetDoc (db c) FsDocType fileID)
    with (mem_GetDoc (db c) FsDocType fileID).
  unfold mem_GetDoc. cbn [String.eqb]. rewrite String.eqb_refl.
  destruct (db c !! fileID) as [j|].
  - destruct (negb (String.eqb (Type_ (of_json j)) DirType)); [|done].
    intros [= _ <-]. by right.
  - simpl. intros [= _ <-]. by left.
Qed.

Lemma getFilePath_mem_error {F : Type} `{Fs F}
    (c : Context (gmap string JSONDoc) F) (name folderID : string)
    (e : error) :
  getFilePath c name folderID = inl e ->
  e = ErrParentDoesNotExist \/ e = ErrIllegalFilename.
Proof.
  unfold getFilePath.
  destruct (GetDirDoc c folderID false) as [[P|] [e0|]] eqn:Hg.
  - apply GetDirDoc_mem_error in Hg as [->| ->]; intros [= <-]; by left.
  - unfold checkFileName.
    destruct (String.eqb name "" || has_slash name); [|done].
    intros [= <-]. by right.
  - apply GetDirDoc_mem_error in Hg as [->| ->]; intros [= <-]; by left.
  - intros [= <-]. by left.
Qed.

(** X17. A stale revision is found out last.  On the reference store,
    when every document is stored under its own identifier and
    [ModifyDirectoryMetadata] fails with a conflict, the node is returned
    with the error, the document of the node is stored under another
    revision than the one of the input node, and the rest of the move has
    been done and stays done: the directory has been renamed on the file
    system when the path changes, and every document below the old path
    has been relocated under the new one. *)
Theorem ModifyDirectoryMetadata_stale_revision :
  forall (F : Type) `{Fs F} (sch : Schedule) (now : Z)
    (c c' : Context (gmap string JSONDoc) F) (olddoc : DirDoc)
    (data : DocMetaAttributes.t) (r : option DirDoc),
    keyed (db c) ->
    ModifyDirectoryMetadata sch now c olddoc data
    = (c', (r, Some (CouchError couch_Conflict))) ->
    exists newdoc stored,
      r = Some newdoc /\ ObjID newdoc = ObjID olddoc
      /\ db c' !! ObjID olddoc = Some stored
      /\ j_rev stored <> ObjRev olddoc
      /\ db c'
         = relocate_below (path_Clean (Path olddoc)) (Path newdoc) <$> db c
      /\ (Path newdoc <> Path olddoc ->
          safeRenameDirectory (Path olddoc) (Path newdoc) (fs c)
          = (fs c', None))
      /\ (Path newdoc = Path olddoc -> fs c' = fs c).
Proof.
  intros F ? sch now c c' olddoc data r Hk Hm.
  rewrite Modify_unfold in Hm.
  destruct (modify_target c olddoc data)
    as [err|[[[folderID name] pth] par]] eqn:Ht.
  { exfalso. injection Hm as _ _ ->. revert Ht. unfold modify_target.
    destruct (DocMetaAttributes.FolderID data) as [fid|];
      [destruct (negb (String.eqb fid (FolderID olddoc)));
       [destruct (getFilePath c (Name olddoc) fid) as [e|[? ?]] eqn:Hg|]|];
      try (destruct (negb (String.eqb (DocMetaAttributes.Name data) ""));
           discriminate).
    intros [= ->]. by apply getFilePath_mem_error in Hg as [?|?]. }
  cbv zeta in Hm.
  destruct (modify_mdate olddoc data <? CreatedAt olddoc); [done|].
  destruct (NewDirDoc now name folderID (modify_tags olddoc data) par)
    as [[nd|] [err|]] eqn:Hn; try done;
    try (exfalso; injection Hm as _ _ ->;
         apply NewDirDoc_inv in Hn as [(? & ? & _)|(? & _)]; congruence).
  set (nd' := modify_newdoc olddoc nd (modify_mdate olddoc data) pth) in *.
  destruct (if negb (String.eqb pth (Path olddoc))
            then safeRenameDirectory (Path olddoc) pth (fs c)
            else (fs c, None)) as [fs1 [err|]] eqn:Hs.
  { exfalso. injection Hm as _ _ ->.
    destruct (negb (String.eqb pth (Path olddoc))); [|done].
    by apply safeRenameDirectory_error in Hs as [?|[[? ?]|[? ?]]]. }
  rewrite bulkUpdateDocsPath_mem in Hm by done.
  cbn [db fs] in Hm.
  change (couchdb_UpdateDoc ?m FsDocType ?j)
    with (mem_UpdateDoc m FsDocType j) in Hm.
  unfold mem_UpdateDoc in Hm. cbn [String.eqb] in Hm.
  rewrite String.eqb_refl in Hm.
  change (j_id (to_json nd')) with (ObjID olddoc) in Hm.
  change (j_rev (to_json nd')) with (ObjRev olddoc) in Hm.
  destruct ((relocate_below (path_Clean (Path olddoc)) pth <$> db c)
              !! ObjID olddoc) as [stored|] eqn:Hl; [|done].
  destruct (String.eqb_spec (j_rev stored) (ObjRev olddoc)) as [?|Hrev];
    [done|].
  injection Hm as <- <-. exists nd', stored. cbn [db fs].
  split; [done|]. split; [done|]. split; [done|]. split; [done|].
  split; [done|].
  change (Path nd') with pth.
  destruct (String.eqb_spec pth (Path olddoc)); cbn [negb] in Hs.
  - split; [done|]. intros _. by injection Hs.
  - done.
Qed.

Lemma ModifyDirectoryMetadata_stale_revision_witness :
  let r := ModifyDirectoryMetadata in_order 200 docs_ctx docs_stale
             (rename_to "archive") in
  r.2.2 = Some (CouchError couch_Conflict)
  /\ db r.1 !! "d1" = Some docs_json
  /\ (exists j', db r.1 !! "d2" = Some j' /\ j_path j' = "/archive/photos")
  /\ safeRenameDirectory "/docs" "/archive" docs_tree = (fs r.1, None).
Proof.
  intros r.
  assert (E : r = (r.1, (r.2.1, Some (CouchError couch_Conflict))))
    by (vm_compute; reflexivity).
  destruct (ModifyDirectoryMetadata_stale_revision _ in_order 200 docs_ctx
              _ docs_stale (rename_to "archive") _
              (well_formed_keyed _ docs_store_well_formed) E)
    as (newdoc & stored & Hr & _ & _ & _ & Hdb & Hfs & _).
  assert (Hp : Path newdoc = "/archive").
  { assert (Hn : Path <$> r.2.1 = Some "/archive")
      by (vm_compute; reflexivity).
    rewrite Hr in Hn. change (Some (Path newdoc) = Some "/archive") in Hn.
    by injection Hn. }
  rewrite Hp in Hdb, Hfs.
  split; [exact (f_equal (fun x => x.2.2) E)|].
  split; [rewrite Hdb; reflexivity|].
  split; [exists (relocate_below "/docs" "/archive" photos_json);
          rewrite Hdb; split; reflexivity|].
  apply Hfs. discriminate.
Defined.

(** *** [path.Clean] keeps a path absolute or relative *)

Lemma Clean_abs_cleaned (p : string) :
  path_IsAbs p = true -> cleaned_abs (path_Clean p).
Proof.
  intros [u ->]%prefix_inv. rewrite Clean_rooted.
  apply abs_path_cleaned_abs, Forall_reverse, clean_fold_keeps_plain;
    [|done].
  apply split_slash_no_slash.
Qed.

Lemma clean_elem_relative (out : list string) (c : string) :
  has_slash c = false ->
  Forall (fun c => c <> "" /\ has_slash c = false) out ->
  Forall (fun c => c <> "" /\ has_slash c = false) (clean_elem false out c).
Proof.
  intros Hc Hout. unfold clean_elem.
  destruct (String.eqb_spec c "") as [|H1]; [done|].
  destruct (String.eqb_spec c ".") as [|H2]; [done|]. simpl.
  destruct (String.eqb_spec c "..") as [|H3].
  - destruct out as [|top rest]; [by repeat constructor|].
    destruct (String.eqb top "..").
    + by constructor.
    + by inversion Hout.
  - by constructor.
Qed.

Lemma clean_fold_relative (l out : list string) :
  Forall (fun c => has_slash c = false) l ->
  Forall (fun c => c <> "" /\ has_slash c = false) out ->
  Forall (fun c => c <> "" /\ has_slash c = false)
    (fold_left (clean_elem false) l out).
Proof.
  revert out. induction l as [|c l IH]; intros out Hl Hout; [done|].
  inversion Hl; subst. simpl. apply IH; [done|].
  by apply clean_elem_relative.
Qed.

Lemma concat_relative (cs : list string) :
  cs <> [] -> Forall (fun c => c <> "" /\ has_slash c = false) cs ->
  path_IsAbs (String.concat "/" cs) = false.
Proof.
  destruct cs as [|c cs]; [done|]. intros _ Hcs.
  inversion Hcs as [|? ? [Hne Hs] _]; subst.
  destruct c as [|a c]; [done|]. simpl in Hs.
  destruct (is_slash a) eqn:Ha; [done|].
  assert (Hpre : forall t, path_IsAbs (String a t) = false).
  { intros t. unfold path_IsAbs.
    change (String.prefix "/" (String a t))
      with (if ascii_dec "/"%char a then String.prefix "" t else false).
    by destruct (ascii_dec "/"%char a) as [<-|]. }
  simpl. destruct cs; [apply Hpre|]. rewrite str_app_cons. apply Hpre.
Qed.

Lemma Clean_IsAbs (p : string) : path_IsAbs (path_Clean p) = path_IsAbs p.
Proof.
  destruct (path_IsAbs p) eqn:Hp.
  { by apply Clean_abs_cleaned in Hp as [_ ?]. }
  unfold path_Clean. destruct (String.eqb_spec p "") as [->|Hne]; [done|].
  cbv zeta. unfold path_IsAbs in Hp. rewrite Hp.
  set (out := reverse _).
  assert (Hout : Forall (fun c => c <> "" /\ has_slash c = false) out).
  { apply Forall_reverse, clean_fold_relative; [|done].
    apply split_slash_no_slash. }
  destruct out as [|c rest]; [done|]. by apply concat_relative.
Qed.

Lemma Clean_idempotent_abs (p : string) :
  path_IsAbs p = true -> path_Clean (path_Clean p) = path_Clean p.
Proof. by intros [? _]%Clean_abs_cleaned. Qed.

(** *** The guards of the rename *)

(** X18. [safeRenameDirectory] reaches [Rename] only through all of its
    guards.  Whenever it returns with a file system that is not the one
    it was given, both cleaned paths are absolute, the new one does not
    lie under the old one, [Stat] has reported that nothing exists at the
    new path, and the file system and the result are the ones of [Rename]
    on the cleaned paths.  In particular, when [Stat] finds an entry at
    the cleaned new path, the call fails and the file system is as it
    was: an existing entry is never replaced. *)
Theorem safeRenameDirectory_guards :
  forall (F : Type) `{Fs F} (oldpath newpath : string) (fs0 : F),
    (forall fs1 r,
        safeRenameDirectory oldpath newpath fs0 = (fs1, r) ->
        fs1 <> fs0 ->
        path_IsAbs oldpath = true /\ path_IsAbs newpath = true
        /\ strings_HasPrefix (path_Clean newpath)
             (path_Clean oldpath +:+ "/") = false
        /\ (exists e, Stat fs0 (path_Clean newpath) = Some e
                      /\ os_IsNotExist e = true)
        /\ exists r', Rename fs0 (path_Clean oldpath) (path_Clean newpath)
                      = (fs1, r')
                      /\ r = OsError <$> r')
    /\ (Stat fs0 (path_Clean newpath) = None ->
        exists e, safeRenameDirectory oldpath newpath fs0 = (fs0, Some e)).
Proof.
  intros F ? oldpath newpath fs0. unfold safeRenameDirectory. cbv zeta.
  rewrite !Clean_IsAbs. split.
  - intros fs1 r.
    destruct (path_IsAbs newpath); [|by intros [= <- _]].
    destruct (path_IsAbs oldpath); [|by intros [= <- _]]. cbn [negb orb].
    destruct (strings_HasPrefix _ _); [by intros [= <- _]|].
    destruct (Stat fs0 (path_Clean newpath)) as [e|]; [|by intros [= <- _]].
    destruct (os_IsNotExist e) eqn:He; [|by intros [= <- _]]. cbn [negb].
    destruct (Rename fs0 _ _) as [fs2 r'] eqn:Hr.
    intros [= <- <-] _. repeat (split; [done|]). split; eauto.
  - intros ->.
    destruct (negb _ || negb _); [eauto|].
    destruct (strings_HasPrefix _ _); eauto.
Qed.

Lemma safeRenameDirectory_guards_witness :
  (exists r', mem_Rename docs_tree "/docs" "/archive"
              = ((safeRenameDirectory "/docs/" "//archive" docs_tree).1, r'))
  /\ exists e, safeRenameDirectory "/docs/photos" "/docs" docs_tree
               = (docs_tree, Some e).
Proof.
  split.
  - destruct (proj1 (safeRenameDirectory_guards _ "/docs/" "//archive"
                       docs_tree)
                (safeRenameDirectory "/docs/" "//archive" docs_tree).1
                (safeRenameDirectory "/docs/" "//archive" docs_tree).2)
      as (_ & _ & _ & _ & r' & Hr & _).
    + by destruct (safeRenameDirectory "/docs/" "//archive" docs_tree).
    + intros Heq.
      assert (Hin : "/archive" ∈ docs_tree).
      { rewrite <- Heq. apply (bool_decide_unpack _). by vm_compute. }
      revert Hin. apply (bool_decide_unpack _). by vm_compute.
    + exists r'. exact Hr.
  - apply (proj2 (safeRenameDirectory_guards _ "/docs/photos" "/docs"
                    docs_tree)).
    vm_compute. reflexivity.
Defined.

(** X19. [safeRenameDirectory] works on the cleaned paths: a call on two
    paths is the call on their cleaned forms.  A path that is not
    absolute, the empty path among them, is refused before the file
    system is asked anything, and the file system is as it was. *)
Theorem safeRenameDirectory_cleans_paths :
  forall (F : Type) `{Fs F} (oldpath newpath : string) (fs0 : F),
    safeRenameDirectory oldpath newpath fs0
    = safeRenameDirectory (path_Clean oldpath) (path_Clean newpath) fs0
    /\ (path_IsAbs oldpath = false \/ path_IsAbs newpath = false ->
        safeRenameDirectory oldpath newpath fs0
        = (fs0, Some (Errorf "paths should be absolute"))).
Proof.
  intros F ? oldpath newpath fs0. unfold safeRenameDirectory. cbv zeta.
  rewrite !Clean_IsAbs. split.
  - destruct (path_IsAbs newpath) eqn:Hn; [|done].
    destruct (path_IsAbs oldpath) eqn:Ho; [|done].
    by rewrite !Clean_idempotent_abs.
  - intros [-> | ->]; [|done]. by destruct (path_IsAbs newpath).
Qed.

Lemma safeRenameDirectory_cleans_paths_witness :
  safeRenameDirectory "" "/archive" docs_tree
  = (docs_tree, Some (Errorf "paths should be absolute")).
Proof.
  apply (proj2 (safeRenameDirectory_cleans_paths _ "" "/archive" docs_tree)).
  by left.
Defined.

(** *** There and back *)

Lemma keyed_relocate_below (m : gmap string JSONDoc)
    (oldpath newpath : string) :
  keyed m -> keyed (relocate_below oldpath newpath <$> m).
Proof.
  intros Hk id d. rewrite lookup_fmap.
  destruct (m !! id) as [j|] eqn:Hj; [|done]. simpl. intros [= <-].
  destruct (relocate_below_type oldpath newpath j) as (_ & _ & _ & ->).
  by apply Hk.
Qed.

(** X20. Relocating the descendants there and back.  On the reference
    store, with every document stored under its own identifier, let the
    documents below a cleaned absolute path have cleaned absolute paths,
    and let no document lie below a second cleaned absolute path, which is
    not the root.  Then [bulkUpdateDocsPath] from the first path to the
    second, followed by [bulkUpdateDocsPath] from the second to the first,
    succeeds twice and gives every document the path it had, with its
    identifier, type, name and parent identifier unchanged. *)
Theorem bulkUpdateDocsPath_there_and_back :
  forall (F : Type) `{Fs F} (sch sch' : Schedule)
    (c : Context (gmap string JSONDoc) F) (olddoc backdoc : DirDoc),
    keyed (db c) ->
    cleaned_abs (Path olddoc) -> cleaned_abs (Path backdoc) ->
    Path backdoc <> "/" ->
    (forall id j, db c !! id = Some j ->
       strings_HasPrefix (j_path j) (Path olddoc +:+ "/") = true ->
       cleaned_abs (j_path j)) ->
    (forall id j, db c !! id = Some j ->
       strings_HasPrefix (j_path j) (Path backdoc +:+ "/") = false) ->
    let r1 := bulkUpdateDocsPath sch c olddoc (Path backdoc) in
    let r2 := bulkUpdateDocsPath sch' r1.1 backdoc (Path olddoc) in
    r1.2 = None /\ r2.2 = None
    /\ forall id j, db c !! id = Some j ->
         exists j2, db r2.1 !! id = Some j2
           /\ j_path j2 = j_path j /\ j_id j2 = j_id j
           /\ j_type j2 = j_type j /\ j_name j2 = j_name j
           /\ j_folder_id j2 = j_folder_id j.
Proof.
  intros F ? sch sch' [m f] olddoc backdoc Hk Ho Hb Hroot Hbelow Hfree r1 r2.
  simpl in Hk, Hbelow, Hfree.
  unfold r2, r1. rewrite bulkUpdateDocsPath_mem by done. cbn [fst snd].
  rewrite bulkUpdateDocsPath_mem by (by apply keyed_relocate_below).
  cbn [fst snd db]. split; [done|]. split; [done|].
  destruct Ho as [Hoc Hoa]. destruct Hb as [Hbc Hba]. rewrite Hoc, Hbc.
  intros id j Hj.
  set (O := Path olddoc) in *. set (N := Path backdoc) in *.
  exists (relocate_below N O (relocate_below O N j)).
  rewrite !lookup_fmap, Hj. split; [done|].
  destruct (relocate_below_type N O (relocate_below O N j))
    as (-> & -> & -> & ->).
  destruct (relocate_below_type O N j) as (-> & -> & -> & ->).
  split; [|done].
  destruct (strings_HasPrefix (j_path j) (O +:+ "/")) eqn:Hp.
  - destruct (cleaned_abs_elems O (conj Hoc Hoa)) as (ocs & Hocs & HO).
    destruct (cleaned_abs_elems N (conj Hbc Hba)) as (ncs & Hncs & HN).
    destruct (cleaned_abs_elems _ (Hbelow _ _ Hj Hp)) as (cs & Hcs & Hjp).
    rewrite HO, HN in *. rewrite Hjp in Hp.
    apply HasPrefix_abs_path_inv in Hp as (Hone & d & ds & ->); try done.
    assert (Hnne : ncs <> []) by (by intros ->).
    apply Forall_app in Hcs as [_ Hds].
    rewrite Hjp.
    apply relocate_below_path; try done.
    by apply relocate_below_path.
  - rewrite (relocate_below_out O N j) by done.
    by rewrite relocate_below_out by eauto.
Qed.

Lemma bulkUpdateDocsPath_there_and_back_witness :
  let r1 := bulkUpdateDocsPath in_order docs_ctx (of_json docs_json)
              "/archive" in
  let r2 := bulkUpdateDocsPath last_first r1.1
              (set_Path (of_json docs_json) "/archive") "/docs" in
  exists j2, db r2.1 !! "d2" = Some j2 /\ j_path j2 = "/docs/photos".
Proof.
  intros r1 r2.
  destruct (bulkUpdateDocsPath_there_and_back _ in_order last_first docs_ctx
              (of_json docs_json) (set_Path (of_json docs_json) "/archive"))
    as (_ & _ & Hall).
  - apply well_formed_keyed, docs_store_well_formed.
  - split; reflexivity.
  - split; reflexivity.
  - discriminate.
  - intros id j Hj _.
    apply docs_store_lookup in Hj as [[_ ->]|[_ ->]]; split; reflexivity.
  - intros id j Hj.
    apply docs_store_lookup in Hj as [[_ ->]|[_ ->]]; reflexivity.
  - destruct (Hall "d2" photos_json eq_refl) as (j2 & Hj2 & Hp & _).
    exists j2. split; [exact Hj2|exact Hp].
Defined.

(** *** The constructor *)

(** X21. What [NewDirDoc] builds.  A document it returns is a
    directory with the given name and tags, without identifier, revision,
    path or children, and with both dates set to the same reading of the
    clock.  Its parent identifier is never empty: an empty one stands for
    the root.  When the parent is the root and no parent document was
    given, the synthetic root becomes the parent document; otherwise the
    parent document is the one given.  [ModifyDirectoryMetadata] builds
    its node with it: a node it returns has a parent identifier that is
    not empty, and a node that came in with the empty one and is not moved
    goes out with the identifier of the root. *)
Theorem NewDirDoc_defaults :
  (forall (now : Z) (name folderID : string) (tags : list string)
      (par : option DirDoc) (d : DirDoc),
      NewDirDoc now name folderID tags par = (Some d, None) ->
      Type_ d = DirType /\ Name d = name /\ Tags d = tags
      /\ ObjID d = "" /\ ObjRev d = "" /\ Path d = ""
      /\ files d = [] /\ dirs d = []
      /\ CreatedAt d = now /\ UpdatedAt d = now
      /\ FolderID d <> ""
      /\ (folderID = "" -> FolderID d = RootFolderID)
      /\ (folderID <> "" -> FolderID d = folderID)
      /\ (FolderID d = RootFolderID -> par = None ->
          parent d = Some getRootDirDoc)
      /\ (FolderID d <> RootFolderID \/ par <> None -> parent d = par))
  /\ (forall (DB F : Type) `{DocumentStore DB} `{Fs F} (sch : Schedule)
        (now : Z) (c c' : Context DB F) (olddoc newdoc : DirDoc)
        (data : DocMetaAttributes.t),
      ModifyDirectoryMetadata sch now c olddoc data
      = (c', (Some newdoc, None)) ->
      FolderID newdoc <> ""
      /\ (DocMetaAttributes.FolderID data = None -> FolderID olddoc = "" ->
          FolderID newdoc = RootFolderID)).
Proof.
  split.
  - intros now name folderID tags par d. unfold NewDirDoc.
    destruct (checkFileName name); [done|]. intros [= <-]. cbn.
    repeat (split; [done|]).
    destruct (String.eqb_spec folderID "") as [->|Hne].
    + split; [done|]. split; [done|]. split; [done|].
      split; [by intros _ ->|]. intros [?|Hp]; [done|]. by destruct par.
    + split; [done|]. split; [done|]. split; [done|]. split.
      * intros -> ->. done.
      * intros [Hr|Hp]; [|by destruct par].
        apply String.eqb_neq in Hr. rewrite Hr. by destruct par.
  - intros DB F ? ? sch now c c' olddoc newdoc data Hok.
    apply Modify_ok_inv in Hok
      as (folderID & name & pth & par & nd & fs1 & c2 & db3 & rev & Ht & _
          & Hn & _ & _ & _ & _ & Hnew).
    apply NewDirDoc_inv in Hn
      as [(_ & [=] & _)|(_ & _ & d & [= <-] & _ & _ & _ & _ & Hf)].
    assert (Hfid : FolderID newdoc = FolderID nd) by (by rewrite Hnew).
    rewrite Hfid, Hf. split.
    + by destruct (String.eqb_spec folderID "").
    + intros Hnone Hempty. unfold modify_target in Ht.
      rewrite Hnone in Ht.
      destruct (negb (String.eqb (DocMetaAttributes.Name data) ""));
        injection Ht as <- _ _ _; by rewrite Hempty.
Qed.

Lemma NewDirDoc_defaults_witness :
  (let d := returned (NewDirDoc 7 "docs" "" ["x"] None) in
   FolderID d = RootFolderID /\ parent d = Some getRootDirDoc
   /\ CreatedAt d = 7 /\ UpdatedAt d = 7)
  /\ (let r := ModifyDirectoryMetadata in_order 200 docs_ctx
                 (mkDirDoc DirType "d1" "1" "docs" "" 100 100 "/docs" []
                    None [] [])
                 (add_tags ["x"]) in
      FolderID (returned r.2) = RootFolderID).
Proof.
  destruct NewDirDoc_defaults as [H1 H2]. split.
  - intros d.
    destruct (H1 7 "docs" "" ["x"] None d eq_refl)
      as (_ & _ & _ & _ & _ & _ & _ & _ & Hc & Hu & _ & Hf & _ & Hp & _).
    split; [exact (Hf eq_refl)|].
    split; [exact (Hp (Hf eq_refl) eq_refl)|]. split; [exact Hc|exact Hu].
  - intros r.
    assert (E : r = (r.1, (Some (returned r.2), None)))
      by (vm_compute; reflexivity).
    destruct (H2 _ _ _ _ _ _ _ _ _ _ _ E) as [_ Hroot].
    apply Hroot; reflexivity.
Defined.

(** *** A rename in place *)

(** X22. A rename in place changes the last element of the path only.
    When a successful call gives a new, plain name and no other parent,
    and the path of the input node is a cleaned absolute path other than
    the root, the path of the returned node is the path of the input node
    with its last element replaced by the new name; the directory part of
    the path is the same. *)
Theorem ModifyDirectoryMetadata_rename_in_place :
  forall (DB F : Type) `{DocumentStore DB} `{Fs F} (sch : Schedule)
    (now : Z) (c c' : Context DB F) (olddoc newdoc : DirDoc)
    (data : DocMetaAttributes.t) (pcs : list string) (last : string),
    ModifyDirectoryMetadata sch now c olddoc data
    = (c', (Some newdoc, None)) ->
    DocMetaAttributes.FolderID data = None
    \/ DocMetaAttributes.FolderID data = Some (FolderID olddoc) ->
    plain (DocMetaAttributes.Name data) ->
    Forall plain pcs -> plain last ->
    Path olddoc = abs_path (pcs ++ [last]) ->
    Path newdoc = abs_path (pcs ++ [DocMetaAttributes.Name data])
    /\ path_Dir (Path newdoc) = path_Dir (Path olddoc)
    /\ Name newdoc = DocMetaAttributes.Name data.
Proof.
  intros DB F ? ? sch now c c' olddoc newdoc data pcs last Hok Hf Hn Hpcs
    Hlast Hpath.
  pose proof (Modify_ok_fields _ _ _ _ _ _ _ Hok)
    as (_ & _ & _ & _ & _ & _ & _ & Hname).
  apply Modify_ok_inv in Hok
    as (folderID & name & pth & par & nd & fs1 & c2 & db3 & rev & Ht & _
        & _ & _ & _ & _ & _ & Hnew).
  assert (Hne : DocMetaAttributes.Name data <> "")
    by (by apply plain_inv in Hn as [? _]).
  assert (Hp : Path newdoc = pth) by (by rewrite Hnew).
  assert (Hpth : pth = abs_path (pcs ++ [DocMetaAttributes.Name data])).
  { unfold modify_target in Ht.
    apply String.eqb_neq in Hne. rewrite Hne in Ht.
    destruct Hf as [Hf|Hf]; rewrite Hf in Ht;
      [|rewrite String.eqb_refl in Ht]; cbn [negb] in Ht;
      rewrite Hpath, Dir_abs_path in Ht by done;
      rewrite path_Join_pair in Ht by (by destruct pcs);
      rewrite Clean_abs_path_elem in Ht by done; congruence. }
  rewrite Hp, Hpth, Hpath. split; [done|].
  split; [by rewrite !Dir_abs_path|]. by apply Hname.
Qed.

Lemma ModifyDirectoryMetadata_rename_in_place_witness :
  let r := ModifyDirectoryMetadata in_order 200 docs_ctx
             (of_json photos_json) (rename_to "pics") in
  Path (returned r.2) = "/docs/pics"
  /\ path_Dir (Path (returned r.2)) = "/docs".
Proof.
  intros r.
  assert (E : r = (r.1, (Some (returned r.2), None)))
    by (vm_compute; reflexivity).
  destruct (ModifyDirectoryMetadata_rename_in_place _ _ _ _ _ _ _ _ _
              ["docs"] "photos" E)
    as (Hp & Hd & _);
    [by left|reflexivity|by repeat constructor|reflexivity|reflexivity|].
  split; [exact Hp|]. rewrite Hd. reflexivity.
Defined.

(** *** Links *)

Lemma str_app_inj_l (s t u : string) : s +:+ t = s +:+ u -> t = u.
Proof.
  induction s as [|a s IH]; [done|]. rewrite !str_app_cons.
  intros [= ?]. by apply IH.
Qed.

(** X23. The "parent" relationship and the links.  The root has no
    parent: its "parent" relationship is there, without link and without
    data.  For every other directory the relationship refers to the
    document of the parent identifier, and its link is the self link of
    any directory that has that identifier.  Self links identify
    documents: two directories have the same self link exactly when they
    have the same identifier. *)
Theorem Relationships_parent_link :
  (forall d : DirDoc,
      ID d = RootFolderID ->
      Relationships d !! "parent"
      = Some (jsonapi.mkRelationship None jsonapi.NoData))
  /\ (forall d p : DirDoc,
        ID d <> RootFolderID -> ID p = FolderID d ->
        Relationships d !! "parent"
        = Some (jsonapi.mkRelationship
                  (Some (jsonapi.mkLinksList (SelfLink p)))
                  (jsonapi.Resource
                     (jsonapi.mkResourceIdentifier (ID p) (DocType p)))))
  /\ (forall d1 d2 : DirDoc, SelfLink d1 = SelfLink d2 <-> ID d1 = ID d2).
Proof.
  split; [|split].
  - intros d Hd. unfold Relationships. cbv zeta.
    by rewrite lookup_insert_eq, Hd.
  - intros d p Hne Hp. unfold Relationships. cbv zeta.
    rewrite lookup_insert_eq. apply String.eqb_neq in Hne. rewrite Hne.
    unfold SelfLink, DocType. cbn [negb]. unfold ID in Hp.
    by rewrite <- Hp.
  - intros d1 d2. unfold SelfLink, ID. split; [|by intros ->].
    apply str_app_inj_l.
Qed.

Lemma Relationships_parent_link_witness :
  Relationships getRootDirDoc !! "parent"
  = Some (jsonapi.mkRelationship None jsonapi.NoData)
  /\ Relationships (of_json photos_json) !! "parent"
     = Some (jsonapi.mkRelationship
               (Some (jsonapi.mkLinksList "/files/d1"))
               (jsonapi.Resource
                  (jsonapi.mkResourceIdentifier "d1" FsDocType))).
Proof.
  destruct Relationships_parent_link as (Hroot & Hlink & _).
  split.
  - apply Hroot. reflexivity.
  - apply (Hlink (of_json photos_json) (of_json docs_json));
      [discriminate|reflexivity].
Defined.

(** *** Children after a creation and after a move *)

(** X24. A directory that has been created is listed under its parent.
    On the reference store, after a successful [CreateDirectory] of a
    document of type "directory", when at most ten documents name its
    parent identifier as theirs, [FetchFiles] on a directory with that
    identifier loads the new directory among the sub-directories. *)
Theorem CreateDirectory_listed :
  forall (F : Type) `{Fs F} (c c' : Context (gmap string JSONDoc) F)
    (doc doc' P : DirDoc),
    CreateDirectory c doc = (c', (doc', None)) ->
    Type_ doc = DirType -> ID P = FolderID doc ->
    (length (List.filter (fun j => String.eqb (j_folder_id j) (ID P))
               (map_to_list (db c')).*2) <= 10)%nat ->
    dir_child P (to_json doc') ∈ dirs (FetchFiles c' P).1.
Proof.
  intros F ? c c' doc doc' P
    (pth & Q & _ & _ & _ & _ & _ & Hdoc & Hdb)%CreateDirectory_ok_inv
    Hty HP Hlen.
  pose proof (FetchFiles_mem c' P) as Hall. cbv zeta in Hall.
  destruct Hall as (_ & _ & _ & _ & _ & Hc).
  apply (Hc Hlen (ObjID doc') (to_json doc')).
  - by rewrite Hdb, lookup_insert_eq.
  - by rewrite Hdoc.
  - by rewrite Hdoc.
Qed.

Lemma CreateDirectory_listed_witness :
  let r := CreateDirectory docs_ctx (a_doc "music" "d1") in
  dir_child (of_json docs_json) (to_json r.2.1)
  ∈ dirs (FetchFiles r.1 (of_json docs_json)).1.
Proof.
  intros r.
  assert (E : r = (r.1, (r.2.1, None))) by (vm_compute; reflexivity).
  apply (CreateDirectory_listed _ _ _ _ _ _ E); [reflexivity|reflexivity|].
  vm_compute. lia.
Defined.

Lemma keyed_insert (m : gmap string JSONDoc) (id : string) (j : JSONDoc) :
  keyed m -> j_id j = id -> keyed (<[id := j]> m).
Proof.
  intros Hk Hj k d. destruct (decide (k = id)) as [->|Hne].
  - rewrite lookup_insert_eq. by intros [= <-].
  - rewrite lookup_insert_ne by done. apply Hk.
Qed.

(** X25. After a move the node is listed under its parent, and under no
    other directory.  On the reference store, with every document stored
    under its own identifier, after a successful
    [ModifyDirectoryMetadata]: the store still holds every document under
    its own identifier; [FetchFiles] on a directory whose identifier is
    the parent identifier of the returned node loads that node among the
    sub-directories, when at most ten documents name that parent; and
    [FetchFiles] on a directory with any other identifier loads no
    sub-directory with the identifier of the node. *)
Theorem ModifyDirectoryMetadata_listed :
  forall (F : Type) `{Fs F} (sch : Schedule) (now : Z)
    (c c' : Context (gmap string JSONDoc) F) (olddoc newdoc : DirDoc)
    (data : DocMetaAttributes.t),
    keyed (db c) ->
    ModifyDirectoryMetadata sch now c olddoc data
    = (c', (Some newdoc, None)) ->
    keyed (db c')
    /\ (forall P, ID P = FolderID newdoc ->
          (length (List.filter
                     (fun j => String.eqb (j_folder_id j) (ID P))
                     (map_to_list (db c')).*2) <= 10)%nat ->
          dir_child P (to_json newdoc) ∈ dirs (FetchFiles c' P).1)
    /\ (forall P, ID P <> FolderID newdoc ->
          Forall (fun ch => ObjID ch <> ObjID olddoc)
            (dirs (FetchFiles c' P).1)).
Proof.
  intros F ? sch now c c' olddoc newdoc data Hk Hok.
  pose proof (Modify_ok_fields _ _ _ _ _ _ _ Hok) as (Hid & _ & Hty & _).
  apply Modify_ok_inv in Hok
    as (folderID & name & pth & par & nd & fs1 & c2 & db3 & rev & _ & _
        & _ & _ & Hb & Hu & Hc' & Hnew).
  destruct c as [m f]. simpl in Hk.
  rewrite bulkUpdateDocsPath_mem in Hb by done. injection Hb as <-.
  cbn [db] in Hu.
  change (couchdb_UpdateDoc ?m FsDocType ?j)
    with (mem_UpdateDoc m FsDocType j) in Hu.
  apply mem_UpdateDoc_ok in Hu as (_ & -> & ->).
  assert (Hstored : db c' !! ObjID olddoc = Some (to_json newdoc)).
  { rewrite Hc', Hnew. cbn. by rewrite lookup_insert_eq. }
  assert (Hk' : keyed (db c')).
  { rewrite Hc'. cbn [db].
    apply keyed_insert; [by apply keyed_relocate_below|done]. }
  split; [done|]. split.
  - intros P HP Hlen.
    pose proof (FetchFiles_mem c' P) as Hall. cbv zeta in Hall.
    destruct Hall as (_ & _ & _ & _ & _ & Hc).
    by apply (Hc Hlen (ObjID olddoc) (to_json newdoc)).
  - intros P HP.
    pose proof (FetchFiles_mem c' P) as Hall. cbv zeta in Hall.
    destruct Hall as (_ & _ & _ & Hd & _).
    eapply Forall_impl; [exact Hd|]. cbn beta.
    intros ch (Hf & _ & _ & id & Hch) Heq.
    pose proof (Hk' _ _ Hch) as Hkey. cbn in Hkey. subst id.
    rewrite Heq, Hstored in Hch.
    assert (Hj : to_json newdoc = to_json ch) by congruence.
    apply HP. rewrite <- Hf.
    change (j_folder_id (to_json ch) = j_folder_id (to_json newdoc)).
    by rewrite Hj.
Qed.

Lemma ModifyDirectoryMetadata_listed_witness :
  let r := ModifyDirectoryMetadata in_order 200 docs_ctx
             (of_json photos_json) (move_to RootFolderID) in
  dir_child getRootDirDoc (to_json (returned r.2))
  ∈ dirs (FetchFiles r.1 getRootDirDoc).1
  /\ Forall (fun ch => ObjID ch <> "d2")
       (dirs (FetchFiles r.1 (of_json docs_json)).1).
Proof.
  intros r.
  assert (E : r = (r.1, (Some (returned r.2), None)))
    by (vm_compute; reflexivity).
  destruct (ModifyDirectoryMetadata_listed _ in_order 200 docs_ctx _
              (of_json photos_json) _ (move_to RootFolderID)
              (well_formed_keyed _ docs_store_well_formed) E)
    as (_ & Hin & Hout).
  split.
  - apply Hin; [vm_compute; reflexivity|]. vm_compute. lia.
  - apply Hout. vm_compute. discriminate.
Defined.
